(** * Assessment lifecycle of the training backend

    A shallow embedding of the student and admin assessment route handlers
    (start, save-answer, submit, my-results, review, grade, approve-review)
    over an explicit relational store, followed by the properties of the
    attempt manager, the answer recorder, the finalizer, the grading
    workbench and the review gate.

    Conventions of the embedding:
    - a table is a list of rows in store order; [findFirst] is [find];
    - a handler is a function [DB -> Outcome _ * DB]; the [catch] block of a
      handler is the outcome [Err InternalError];
    - timestamps are milliseconds in [Z]; the clock is an argument [now];
    - [Math.random] is an argument: the permutation the random sort produced;
    - a percentage is kept in hundredths of a percent (two decimals), the
      quotient being taken exactly. *)

From Stdlib Require Import ZArith List Bool String Lia Permutation Sorted.
Import ListNotations.
Open Scope Z_scope.

Set Implicit Arguments.

(** ** Schema (prisma/migrations) *)

Inductive QuestionType :=
  | MULTIPLE_CHOICE | TRUE_FALSE | SHORT_ANSWER | LONG_ANSWER | FILL_IN_BLANK.

Inductive SubmissionStatus := IN_PROGRESS | COMPLETED | ABANDONED | TIME_UP.

Definition isInProgress (s : SubmissionStatus) : bool :=
  match s with IN_PROGRESS => true | _ => false end.

Definition isCompleted (s : SubmissionStatus) : bool :=
  match s with COMPLETED => true | _ => false end.

(** [questionType === 'SHORT_ANSWER' || questionType === 'LONG_ANSWER'] *)
Definition isFreeText (t : QuestionType) : bool :=
  match t with SHORT_ANSWER | LONG_ANSWER => true | _ => false end.

(** [questionType === 'MULTIPLE_CHOICE' || questionType === 'TRUE_FALSE'] *)
Definition isObjective (t : QuestionType) : bool :=
  match t with MULTIPLE_CHOICE | TRUE_FALSE => true | _ => false end.

(** The value of a [DOUBLE PRECISION] percentage column: a number with two
    decimals, or what a division by zero leaves behind. *)
Inductive Percentage :=
  | Pct (hundredths : Z)
  | PctInfinity (negative : bool)
  | PctNaN.

Record Course := mkCourse {
  cId : Z;
  cTitle : string
}.

Record Assessment := mkAssessment {
  aId : Z;
  aTitle : string;
  aDescription : option string;
  aCourseId : Z;
  aTimeLimit : option Z;
  aTotalMarks : Z;
  aPassingMarks : Z;
  aAttempts : Z;
  aIsActive : bool;
  aRandomizeQuestions : bool;
  aStartDate : option Z;
  aEndDate : option Z
}.

Record Question := mkQuestion {
  qId : Z;
  qAssessmentId : Z;
  qText : string;
  qType : QuestionType;
  qMarks : Z;
  qOrder : Z;
  qIsActive : bool;
  qExplanation : option string;
  qImageUrl : option string
}.

Record QuestionOption := mkOption {
  oId : Z;
  oQuestionId : Z;
  oText : string;
  oIsCorrect : bool;
  oOrder : Z
}.

Record Enrollment := mkEnrollment {
  eUserId : Z;
  eCourseId : Z
}.

Record Submission := mkSubmission {
  sId : Z;
  sAssessmentId : Z;
  sUserId : Z;
  sStartTime : Z;
  sEndTime : option Z;
  sStatus : SubmissionStatus;
  sTotalMarks : Z;
  sObtainedMarks : Z;
  sPercentage : Percentage;
  sIsPassed : bool;
  sAttemptNumber : Z;
  sTimeSpent : option Z;
  sIsCheckedByTeacher : bool;
  sCheckedBy : option Z;
  sCheckedAt : option Z
}.

Record Answer := mkAnswer {
  anId : Z;
  anSubmissionId : Z;
  anQuestionId : Z;
  anSelectedOptionId : option Z;
  anTextAnswer : option string;
  anIsCorrect : bool;
  anMarksObtained : Z;
  anTimeSpent : option Z
}.

Record DB := mkDB {
  courses : list Course;
  assessments : list Assessment;
  questions : list Question;
  options : list QuestionOption;
  enrollments : list Enrollment;
  submissions : list Submission;
  answers : list Answer
}.

Definition set_submissions (db : DB) (l : list Submission) : DB :=
  mkDB (courses db) (assessments db) (questions db) (options db)
       (enrollments db) l (answers db).

Definition set_answers (db : DB) (l : list Answer) : DB :=
  mkDB (courses db) (assessments db) (questions db) (options db)
       (enrollments db) (submissions db) l.

(** ** Request values and outcomes *)

(** A field of a JSON request body: missing, [null], or a value.  Prisma
    leaves a column alone when it is handed [undefined] in an update. *)
Inductive Field (A : Type) :=
  | Absent
  | Null
  | Val (a : A).
Arguments Absent {A}.
Arguments Null {A}.

(** Column value written by [create] for a nullable column. *)
Definition onCreate {A} (f : Field A) : option A :=
  match f with Val a => Some a | _ => None end.

(** Column value written by [update] for a nullable column. *)
Definition onUpdate {A} (f : Field A) (old : option A) : option A :=
  match f with Absent => old | Null => None | Val a => Some a end.

Inductive Error :=
  | AssessmentNotFound      (* 404 Assessment not found or inactive *)
  | NotEnrolled             (* 403 You are not enrolled in this course *)
  | NotStartedYet           (* 400 Assessment has not started yet *)
  | AssessmentEnded         (* 400 Assessment has ended *)
  | AttemptsExceeded        (* 400 Maximum attempts exceeded *)
  | InvalidConfiguration    (* 400 invalid total marks *)
  | SubmissionIdRequired    (* 400 submissionId is required *)
  | SubmissionNotFound      (* 404 submission absent, foreign or closed *)
  | QuestionNotFound        (* 404 Question not found *)
  | AnswerNotFound          (* 404 Answer not found *)
  | MarksOutOfRange         (* 400 Marks must be between 0 and max *)
  | NotCompleted            (* 400 Only completed submissions can be approved *)
  | GradingIncomplete       (* 400 Cannot approve: questions still need grading *)
  | PendingReview           (* 403 result is pending teacher review *)
  | InternalError.          (* 500, the catch block *)

Inductive Outcome (A : Type) :=
  | Ok (a : A)
  | Err (e : Error).
Arguments Err {A}.

(** ** Store primitives *)

Fixpoint maxId (ids : list Z) : Z :=
  match ids with
  | [] => 0
  | i :: r => Z.max i (maxId r)
  end.

(** Next value of a [SERIAL] key. *)
Definition nextId (ids : list Z) : Z := maxId ids + 1.

Section Sorting.
Variable A : Type.
Variable before : A -> A -> bool.

Fixpoint insertSorted (x : A) (l : list A) : list A :=
  match l with
  | [] => [x]
  | y :: r => if before y x then y :: insertSorted x r else x :: l
  end.

(** A stable sort: [before y x] keeps [y] ahead of a later [x]. *)
Definition sortBy (l : list A) : list A :=
  fold_left (fun acc x => insertSorted x acc) l [].
End Sorting.

Definition sumZ {A} (f : A -> Z) (l : list A) : Z :=
  fold_left (fun total x => total + f x) l 0.

Definition findAssessment (db : DB) (id : Z) : option Assessment :=
  find (fun a => aId a =? id) (assessments db).

Definition findQuestion (db : DB) (id : Z) : option Question :=
  find (fun q => qId q =? id) (questions db).

Definition findCourse (db : DB) (id : Z) : option Course :=
  find (fun c => cId c =? id) (courses db).

Definition findSubmission (db : DB) (id : Z) : option Submission :=
  find (fun s => sId s =? id) (submissions db).

Definition findAnswer (db : DB) (id : Z) : option Answer :=
  find (fun a => anId a =? id) (answers db).

Definition findOption (db : DB) (id : Z) : option QuestionOption :=
  find (fun o => oId o =? id) (options db).

(** [include: { options: true }] *)
Definition optionsOf (db : DB) (q : Question) : list QuestionOption :=
  filter (fun o => oQuestionId o =? qId q) (options db).

(** [include: { answers: true }] *)
Definition answersOf (db : DB) (submissionId : Z) : list Answer :=
  filter (fun a => anSubmissionId a =? submissionId) (answers db).

Definition updateSubmission (db : DB) (id : Z) (f : Submission -> Submission) : DB :=
  set_submissions db
    (map (fun s => if sId s =? id then f s else s) (submissions db)).

Definition updateAnswer (db : DB) (id : Z) (f : Answer -> Answer) : DB :=
  set_answers db
    (map (fun a => if anId a =? id then f a else a) (answers db)).

(** Primary keys are unique. *)
Fixpoint distinct (ids : list Z) : bool :=
  match ids with
  | [] => true
  | i :: r => negb (existsb (Z.eqb i) r) && distinct r
  end.

Definition wf_db (db : DB) : bool :=
  distinct (map sId (submissions db)) && distinct (map anId (answers db)).

(** ** Score arithmetic *)

(** JavaScript numbers are IEEE 754 binary64 values and every operation
    rounds to the nearest of them, ties to the even mantissa.  A positive
    finite value is kept as a pair (m, e) standing for m * 2^e, with
    m <= 2^53 and -1074 <= e. *)

(** The fraction [(num / den) / 2^e]. *)
Definition scaled (num den e : Z) : Z * Z :=
  if 0 <=? e then (num, den * 2 ^ e) else (num * 2 ^ (- e), den).

(** The integer nearest to [num / den], a half going to the even one. *)
Definition roundHalfEven (num den : Z) : Z :=
  let q := num / den in
  let r := num mod den in
  if 2 * r <? den then q
  else if den <? 2 * r then q + 1
  else if Z.even q then q else q + 1.

(** The binary64 value nearest to [num / den], for positive [num] and
    [den]; [None] is Infinity. *)
Definition binary64 (num den : Z) : option (Z * Z) :=
  let e0 := Z.log2 num - Z.log2 den - 53 in
  let e1 := if 2 ^ 53 * snd (scaled num den e0) <=? fst (scaled num den e0)
            then e0 + 1 else e0 in
  let e := Z.max e1 (-1074) in
  let m := roundHalfEven (fst (scaled num den e)) (snd (scaled num den e)) in
  if (971 <? e) || ((e =? 971) && (m =? 2 ^ 53)) then None else Some (m, e).

(** [parseFloat(((obtained / total) * 100).toFixed(2))] on integers that
    are binary64 values themselves (the marks are INTEGER columns and sums
    of them): the division and the multiplication each round to binary64,
    [toFixed(2)] then takes the integer n nearest to 100 times the exact
    value of the product, the larger one of two, and [parseFloat] gives
    the binary64 value nearest to n / 100, which [Pct n] stands for. *)
Definition toFixed2 (obtained total : Z) : Percentage :=
  if total =? 0 then
    if obtained =? 0 then PctNaN else PctInfinity (obtained <? 0)
  else if obtained =? 0 then Pct 0
  else
    let negative := xorb (obtained <? 0) (total <? 0) in
    match binary64 (Z.abs obtained) (Z.abs total) with
    | None => PctInfinity negative
    | Some (m, e) =>
      match binary64 (fst (scaled (100 * m) 1 (- e))) (snd (scaled (100 * m) 1 (- e))) with
      | None => PctInfinity negative
      | Some (m', e') =>
        let n := (2 * fst (scaled (100 * m') 1 (- e')) + snd (scaled (100 * m') 1 (- e')))
                 / (2 * snd (scaled (100 * m') 1 (- e'))) in
        Pct (if negative then - n else n)
      end
    end.

(** ** Attempt manager: POST /student/assessments/:id/start *)

Record FormattedOption := mkFormattedOption {
  foId : Z;
  foText : string
}.

Record FormattedQuestion := mkFormattedQuestion {
  fqId : Z;
  fqText : string;
  fqType : QuestionType;
  fqMarks : Z;
  fqImageUrl : option string;
  fqOptions : list FormattedOption
}.

Record AssessmentInfo := mkAssessmentInfo {
  aiId : Z;
  aiTitle : string;
  aiDescription : option string;
  aiTimeLimit : option Z;
  aiTotalMarks : Z;
  aiStartTime : Z
}.

Record StartResponse := mkStartResponse {
  srSubmissionId : Z;
  srAssessment : AssessmentInfo;
  srQuestions : list FormattedQuestion
}.

(** [questions: { where: { isActive: true }, orderBy: { order: 'asc' } }] *)
Definition activeQuestions (db : DB) (assessment : Assessment) : list Question :=
  sortBy (fun a b => qOrder a <=? qOrder b)
    (filter (fun q => (qAssessmentId q =? aId assessment) && qIsActive q)
            (questions db)).

(** Options sorted by [order]; the [isCorrect] flag is dropped. *)
Definition formatQuestion (db : DB) (q : Question) : FormattedQuestion :=
  mkFormattedQuestion (qId q) (qText q) (qType q) (qMarks q) (qImageUrl q)
    (map (fun opt => mkFormattedOption (oId opt) (oText opt))
         (sortBy (fun a b => oOrder a <=? oOrder b) (optionsOf db q))).

Definition formattedQuestions (db : DB) (qs : list Question) : list FormattedQuestion :=
  map (formatQuestion db) qs.

Definition sameAttemptPair (assessmentId userId : Z) (s : Submission) : bool :=
  (sAssessmentId s =? assessmentId) && (sUserId s =? userId).

(** [prisma.assessmentSubmission.count] *)
Definition existingAttempts (db : DB) (assessmentId userId : Z) : Z :=
  Z.of_nat (List.length (filter (sameAttemptPair assessmentId userId) (submissions db))).

Definition inProgressSubmission (db : DB) (assessmentId userId : Z) : option Submission :=
  find (fun s => sameAttemptPair assessmentId userId s && isInProgress (sStatus s))
       (submissions db).

(** [prisma.assessmentSubmission.create]; the unique index on
    (assessmentId, userId, attemptNumber) of the same migration rejects a
    duplicate.  The other columns take their defaults. *)
Definition createSubmission (db : DB) (now assessmentId userId totalMarks attemptNumber : Z)
  : option (Submission * DB) :=
  if existsb (fun s => sameAttemptPair assessmentId userId s
                       && (sAttemptNumber s =? attemptNumber)) (submissions db)
  then None
  else
    let s := mkSubmission (nextId (map sId (submissions db))) assessmentId userId
               now None IN_PROGRESS totalMarks 0 (Pct 0) false attemptNumber
               None false None None in
    Some (s, set_submissions db (submissions db ++ [s])).

Definition notStartedYet (assessment : Assessment) (now : Z) : bool :=
  match aStartDate assessment with Some d => now <? d | None => false end.

Definition hasEnded (assessment : Assessment) (now : Z) : bool :=
  match aEndDate assessment with Some d => d <? now | None => false end.

Definition isEnrolled (db : DB) (userId courseId : Z) : bool :=
  existsb (fun e => (eUserId e =? userId) && (eCourseId e =? courseId)) (enrollments db).

Definition startResponse (db : DB) (assessment : Assessment) (submission : Submission)
    (qs : list Question) : StartResponse :=
  mkStartResponse (sId submission)
    (mkAssessmentInfo (aId assessment) (aTitle assessment) (aDescription assessment)
       (aTimeLimit assessment) (aTotalMarks assessment) (sStartTime submission))
    (formattedQuestions db qs).

Definition startAttempt (shuffle : list Question -> list Question)
    (now id userId : Z) (db : DB) : Outcome StartResponse * DB :=
  match find (fun a => (aId a =? id) && aIsActive a) (assessments db) with
  | None => (Err AssessmentNotFound, db)
  | Some assessment =>
    if negb (isEnrolled db userId (aCourseId assessment)) then (Err NotEnrolled, db)
    else if notStartedYet assessment now then (Err NotStartedYet, db)
    else if hasEnded assessment now then (Err AssessmentEnded, db)
    else if existingAttempts db id userId >=? aAttempts assessment
    then (Err AttemptsExceeded, db)
    else
      match inProgressSubmission db id userId with
      | Some submission =>
          (Ok (startResponse db assessment submission (activeQuestions db assessment)), db)
      | None =>
          if aTotalMarks assessment <=? 0 then (Err InvalidConfiguration, db)
          else
            match createSubmission db now id userId (aTotalMarks assessment)
                    (existingAttempts db id userId + 1) with
            | None => (Err InternalError, db)
            | Some (submission, db') =>
                let questions := activeQuestions db assessment in
                let questions :=
                  if aRandomizeQuestions assessment then shuffle questions
                  else questions in
                (Ok (startResponse db assessment submission questions), db')
            end
      end
  end.

(** ** Answer recorder: POST /student/save-answer *)

Record SaveAnswerBody := mkSaveAnswerBody {
  bSubmissionId : Z;
  bQuestionId : Z;
  bSelectedOptionId : Field Z;
  bTextAnswer : Field string;
  bTimeSpent : Field Z
}.

(** [question.options.find(opt => opt.id === selectedOptionId)] *)
Definition selectedOption (db : DB) (question : Question) (selectedOptionId : Field Z)
  : option QuestionOption :=
  match selectedOptionId with
  | Val i => find (fun opt => oId opt =? i) (optionsOf db question)
  | _ => None
  end.

(** The grading rule of save-answer. *)
Definition isCorrect (db : DB) (question : Question) (selectedOptionId : Field Z) : bool :=
  if isObjective (qType question) then
    match selectedOption db question selectedOptionId with
    | Some opt => oIsCorrect opt
    | None => false
    end
  else false.

Definition marksObtained (db : DB) (question : Question) (selectedOptionId : Field Z) : Z :=
  if isCorrect db question selectedOptionId then qMarks question else 0.

(** Foreign key submission_answers.selectedOptionId -> question_options.id
    (migration 20251018113410_add_assessment_module): the handler hands
    [selectedOptionId] to the upsert as it came, and the store refuses an
    identifier that names no option row. *)
Definition optionRefOk (db : DB) (selectedOptionId : Field Z) : bool :=
  match selectedOptionId with
  | Val i => existsb (fun o => oId o =? i) (options db)
  | _ => true
  end.

(** INTEGER column submission_answers.timeSpent: [timeSpent] too is handed
    to the upsert as it came, and a value outside the 32-bit range of the
    column is refused. *)
Definition fitsInteger (v : Field Z) : bool :=
  match v with
  | Val t => (-2147483648 <=? t) && (t <=? 2147483647)
  | _ => true
  end.

Definition sameAnswerKey (submissionId questionId : Z) (a : Answer) : bool :=
  (anSubmissionId a =? submissionId) && (anQuestionId a =? questionId).

(** The [update] branch of the upsert, applied to the row with the key. *)
Definition rewritten (body : SaveAnswerBody) (correct : bool) (marks : Z) (a : Answer)
  : Answer :=
  if sameAnswerKey (bSubmissionId body) (bQuestionId body) a
  then mkAnswer (anId a) (anSubmissionId a) (anQuestionId a)
         (onUpdate (bSelectedOptionId body) (anSelectedOptionId a))
         (onUpdate (bTextAnswer body) (anTextAnswer a))
         correct marks
         (onUpdate (bTimeSpent body) (anTimeSpent a))
  else a.

(** [prisma.submissionAnswer.upsert] on the key (submissionId, questionId). *)
Definition upsertAnswer (db : DB) (body : SaveAnswerBody) (correct : bool) (marks : Z)
  : option DB :=
  if negb (optionRefOk db (bSelectedOptionId body)) then None
  else if negb (fitsInteger (bTimeSpent body)) then None
  else if existsb (sameAnswerKey (bSubmissionId body) (bQuestionId body)) (answers db)
  then Some (set_answers db (map (rewritten body correct marks) (answers db)))
  else
    Some (set_answers db
      (answers db ++
       [mkAnswer (nextId (map anId (answers db))) (bSubmissionId body) (bQuestionId body)
          (onCreate (bSelectedOptionId body)) (onCreate (bTextAnswer body))
          correct marks (onCreate (bTimeSpent body))])).

Definition saveAnswer (userId : Z) (body : SaveAnswerBody) (db : DB) : Outcome unit * DB :=
  match find (fun s => (sId s =? bSubmissionId body) && (sUserId s =? userId)
                       && isInProgress (sStatus s)) (submissions db) with
  | None => (Err SubmissionNotFound, db)
  | Some _ =>
    match findQuestion db (bQuestionId body) with
    | None => (Err QuestionNotFound, db)
    | Some question =>
      match upsertAnswer db body (isCorrect db question (bSelectedOptionId body))
              (marksObtained db question (bSelectedOptionId body)) with
      | None => (Err InternalError, db)
      | Some db' => (Ok tt, db')
      end
    end
  end.

(** ** Submission finalizer: POST /student/assessments/:id/submit *)

Record SubmitResponse := mkSubmitResponse {
  subSubmissionId : Z;
  subSubmittedAt : Z;
  subTimeSpent : Z;
  subObtainedMarks : Z;
  subTotalMarks : Z;
  subPercentage : Percentage
}.

(** The [data] of the finalizing update. *)
Definition finalized (now obtainedMarks : Z) (percentage : Percentage) (isPassed : bool)
    (timeSpent : Z) (s : Submission) : Submission :=
  mkSubmission (sId s) (sAssessmentId s) (sUserId s) (sStartTime s)
    (Some now) COMPLETED (sTotalMarks s) obtainedMarks percentage isPassed
    (sAttemptNumber s) (Some timeSpent) false (sCheckedBy s) (sCheckedAt s).

Definition submit (now id submissionId userId : Z) (db : DB)
  : Outcome SubmitResponse * DB :=
  if submissionId =? 0 then (Err SubmissionIdRequired, db)
  else
    match find (fun s => (sId s =? submissionId) && (sUserId s =? userId)
                         && (sAssessmentId s =? id) && isInProgress (sStatus s))
               (submissions db) with
    | None => (Err SubmissionNotFound, db)
    | Some submission =>
      match findAssessment db (sAssessmentId submission) with
      | None => (Err InternalError, db)
      | Some assessment =>
        let totalMarks := aTotalMarks assessment in
        if totalMarks <=? 0 then (Err InvalidConfiguration, db)
        else
          let obtainedMarks := sumZ anMarksObtained (answersOf db (sId submission)) in
          let percentage := toFixed2 obtainedMarks totalMarks in
          let isPassed := aPassingMarks assessment <=? obtainedMarks in
          let timeSpent := (now - sStartTime submission) / 1000 in
          (Ok (mkSubmitResponse submissionId now timeSpent obtainedMarks totalMarks
                 percentage),
           updateSubmission db submissionId
             (finalized now obtainedMarks percentage isPassed timeSpent))
      end
    end.

(** ** Grading workbench: POST /admin/submissions/:id/grade *)

Record GradeResponse := mkGradeResponse {
  grMarksAwarded : Z;
  grMaxMarks : Z;
  grNewTotalScore : Z;
  grNewPercentage : Percentage;
  grIsPassed : bool
}.

Definition graded (marks : Z) (correct : bool) (a : Answer) : Answer :=
  mkAnswer (anId a) (anSubmissionId a) (anQuestionId a) (anSelectedOptionId a)
    (anTextAnswer a) correct marks (anTimeSpent a).

Definition rescored (obtainedMarks : Z) (percentage : Percentage) (isPassed : bool)
    (s : Submission) : Submission :=
  mkSubmission (sId s) (sAssessmentId s) (sUserId s) (sStartTime s)
    (sEndTime s) (sStatus s) (sTotalMarks s) obtainedMarks percentage isPassed
    (sAttemptNumber s) (sTimeSpent s) (sIsCheckedByTeacher s) (sCheckedBy s)
    (sCheckedAt s).

(** [include: { submission: { include: { assessment: true } } }] *)
Definition assessmentOfAnswer (db : DB) (answer : Answer) : option Assessment :=
  match findSubmission db (anSubmissionId answer) with
  | None => None
  | Some submission => findAssessment db (sAssessmentId submission)
  end.

Definition totalObtained (db : DB) (id marksObtained submissionId : Z) : Z :=
  sumZ (fun ans => if anId ans =? id then marksObtained else anMarksObtained ans)
       (answersOf db submissionId).

(** The handler on a body whose [marksObtained] is an integer; a body
    without it, or with null, is taken up by [gradeRequest] below. *)
Definition gradeAnswer (id marksObtained : Z) (db : DB) : Outcome GradeResponse * DB :=
  match findAnswer db id with
  | None => (Err AnswerNotFound, db)
  | Some answer =>
    match findQuestion db (anQuestionId answer), assessmentOfAnswer db answer with
    | Some question, Some assessment =>
      if (marksObtained <? 0) || (qMarks question <? marksObtained)
      then (Err MarksOutOfRange, db)
      else
        let db1 := updateAnswer db id
                     (graded marksObtained (marksObtained =? qMarks question)) in
        let total := totalObtained db1 id marksObtained (anSubmissionId answer) in
        let totalMarks := aTotalMarks assessment in
        let percentage := toFixed2 total totalMarks in
        let isPassed := aPassingMarks assessment <=? total in
        (Ok (mkGradeResponse marksObtained (qMarks question) total percentage isPassed),
         updateSubmission db1 (anSubmissionId answer) (rescored total percentage isPassed))
    | _, _ => (Err InternalError, db)
    end
  end.

(** ** Review gate: POST /admin/submissions/:id/approve-review *)

Record ApproveResponse := mkApproveResponse {
  apSubmissionId : Z;
  apApprovedAt : Z;
  apObtainedMarks : Z;
  apTotalMarks : Z;
  apPercentage : Percentage;
  apIsPassed : bool
}.

Definition hasText (a : Answer) : bool :=
  match anTextAnswer a with Some _ => true | None => false end.

(** The filter predicate of [ungradedAnswers], the question being included. *)
Definition needsGrading (question : Question) (answer : Answer) : bool :=
  isFreeText (qType question) && hasText answer && (anMarksObtained answer =? 0).

(** [submission.answers.filter(...)] over [answers: { include: { question } }];
    [None] when an included question is missing. *)
Fixpoint ungradedAnswers (db : DB) (l : list Answer) : option (list Answer) :=
  match l with
  | [] => Some []
  | answer :: r =>
    match findQuestion db (anQuestionId answer), ungradedAnswers db r with
    | Some question, Some rest =>
        Some (if needsGrading question answer then answer :: rest else rest)
    | _, _ => None
    end
  end.

Definition approved (teacherId now : Z) (s : Submission) : Submission :=
  mkSubmission (sId s) (sAssessmentId s) (sUserId s) (sStartTime s)
    (sEndTime s) (sStatus s) (sTotalMarks s) (sObtainedMarks s) (sPercentage s)
    (sIsPassed s) (sAttemptNumber s) (sTimeSpent s) true (Some teacherId) (Some now).

Definition approveReview (now id teacherId : Z) (db : DB)
  : Outcome ApproveResponse * DB :=
  match findSubmission db id with
  | None => (Err SubmissionNotFound, db)
  | Some submission =>
    match findAssessment db (sAssessmentId submission),
          ungradedAnswers db (answersOf db (sId submission)) with
    | Some _, Some ungraded =>
      if negb (isCompleted (sStatus submission)) then (Err NotCompleted, db)
      else if (0 <? Z.of_nat (List.length ungraded)) then (Err GradingIncomplete, db)
      else
        (Ok (mkApproveResponse (sId submission) now (sObtainedMarks submission)
               (sTotalMarks submission) (sPercentage submission) (sIsPassed submission)),
         updateSubmission db id (approved teacherId now))
    | _, _ => (Err InternalError, db)
    end
  end.

(** ** Student result queries *)

Inductive ResultStatus := PENDING_REVIEW | GRADED.

(** GET /student/my-results: one entry of [results]. *)
Record ResultEntry := mkResultEntry {
  reSubmissionId : Z;
  reAssessmentId : Z;
  reAssessmentTitle : string;
  reCourseName : string;
  reAttemptNumber : Z;
  reSubmittedAt : option Z;
  reStatus : ResultStatus;
  reObtainedMarks : option Z;
  reTotalMarks : option Z;
  rePercentage : option Percentage;
  reIsPassed : option bool;
  reCanReview : bool;
  reTimeSpent : option Z;
  reCheckedAt : option Z
}.

(** [include: { assessment: { select: { title, ..., course: { select: { title } } } } }] *)
Definition assessmentAndCourse (db : DB) (sub : Submission) : option (Assessment * Course) :=
  match findAssessment db (sAssessmentId sub) with
  | None => None
  | Some assessment =>
    match findCourse db (aCourseId assessment) with
    | None => None
    | Some course => Some (assessment, course)
    end
  end.

Definition resultEntry (sub : Submission) (assessment : Assessment) (course : Course)
  : ResultEntry :=
  if negb (sIsCheckedByTeacher sub) then
    mkResultEntry (sId sub) (sAssessmentId sub) (aTitle assessment) (cTitle course)
      (sAttemptNumber sub) (sEndTime sub) PENDING_REVIEW None None None None false
      None None
  else
    mkResultEntry (sId sub) (sAssessmentId sub) (aTitle assessment) (cTitle course)
      (sAttemptNumber sub) (sEndTime sub) GRADED (Some (sObtainedMarks sub))
      (Some (aTotalMarks assessment)) (Some (sPercentage sub)) (Some (sIsPassed sub))
      true (sTimeSpent sub) (sCheckedAt sub).

(** [orderBy: { endTime: 'desc' }], a missing end time first. *)
Definition endsNoEarlier (a b : Submission) : bool :=
  match sEndTime a, sEndTime b with
  | None, _ => true
  | Some _, None => false
  | Some x, Some y => y <=? x
  end.

Fixpoint results (db : DB) (subs : list Submission) : option (list ResultEntry) :=
  match subs with
  | [] => Some []
  | sub :: r =>
    match assessmentAndCourse db sub, results db r with
    | Some (assessment, course), Some rest =>
        Some (resultEntry sub assessment course :: rest)
    | _, _ => None
    end
  end.

Definition myResults (userId : Z) (db : DB) : Outcome (list ResultEntry) :=
  match results db
          (sortBy endsNoEarlier
             (filter (fun s => (sUserId s =? userId) && isCompleted (sStatus s))
                     (submissions db))) with
  | None => Err InternalError
  | Some entries => Ok entries
  end.

(** GET /student/submissions/:id/review *)





Definition isEmptyString (s : string) : bool :=
  match s with EmptyString => true | _ => false end.

(** [a?.optionText || fallback] *)
Definition textOr (o : option QuestionOption) (fallback : option string) : option string :=
  match o with
  | Some opt => if isEmptyString (oText opt) then fallback else Some (oText opt)
  | None => fallback
  end.


Definition wasSelected (opt : QuestionOption) (answer : Answer) : bool :=
  match anSelectedOptionId answer with
  | Some i => oId opt =? i
  | None => false
  end.

Definition selectedOptionOf (db : DB) (answer : Answer) : option QuestionOption :=
  match anSelectedOptionId answer with
  | Some i => findOption db i
  | None => None
  end.


(** [answers: { include: { question }, orderBy: { question: { order: 'asc' } } }];
    [None] when an included question is missing. *)
Fixpoint withQuestions (db : DB) (l : list Answer) : option (list (Answer * Question)) :=
  match l with
  | [] => Some []
  | answer :: r =>
    match findQuestion db (anQuestionId answer), withQuestions db r with
    | Some question, Some rest => Some ((answer, question) :: rest)
    | _, _ => None
    end
  end.



(** ** The core operations as commands *)

Inductive Op :=
  | StartAttempt (shuffle : list Question -> list Question) (now id userId : Z)
  | SaveAnswer (userId : Z) (body : SaveAnswerBody)
  | Submit (now id submissionId userId : Z)
  | GradeAnswer (id marksObtained : Z)
  | ApproveReview (now id teacherId : Z).

Definition exec (op : Op) (db : DB) : DB :=
  match op with
  | StartAttempt shuffle now id userId => snd (startAttempt shuffle now id userId db)
  | SaveAnswer userId body => snd (saveAnswer userId body db)
  | Submit now id submissionId userId => snd (submit now id submissionId userId db)
  | GradeAnswer id marksObtained => snd (gradeAnswer id marksObtained db)
  | ApproveReview now id teacherId => snd (approveReview now id teacherId db)
  end.

Definition run (ops : list Op) (db : DB) : DB :=
  fold_left (fun d op => exec op d) ops db.

(** ** A sample store

    One course with two assessments.  Assessment 1 (10 marks, pass at 5, two
    attempts, shuffled) has a 5-mark choice question whose correct option is
    102 and a 5-mark long-answer question; assessment 2 has one 50-mark
    choice question.  User 7 is enrolled. *)

Definition quizDb : DB :=
  mkDB [mkCourse 1 "Safety"]
       [mkAssessment 1 "Quiz" None 1 None 10 5 2 true true None None;
        mkAssessment 2 "Final" None 1 None 50 25 1 true false None None]
       [mkQuestion 11 1 "Pick" MULTIPLE_CHOICE 5 1 true None None;
        mkQuestion 12 1 "Explain" LONG_ANSWER 5 2 true None None;
        mkQuestion 21 2 "Choose" MULTIPLE_CHOICE 50 1 true None None]
       [mkOption 101 11 "A" false 1; mkOption 102 11 "B" true 2;
        mkOption 201 21 "Yes" true 1]
       [mkEnrollment 7 1] [] [].

(** The random sort of the start handler turning the list around. *)
Definition reversed : list Question -> list Question := @rev Question.

(** User 7 starts assessment 1 at time 1000. *)
Definition startedDb : DB := snd (startAttempt reversed 1000 1 7 quizDb).

(** ... picks option 102 and writes a text, *)
Definition answeredDb : DB :=
  snd (saveAnswer 7 (mkSaveAnswerBody 1 12 Absent (Val "because"%string) Absent)
         (snd (saveAnswer 7 (mkSaveAnswerBody 1 11 (Val 102) Absent Absent) startedDb))).

(** ... and submits at time 5000. *)
Definition submittedDb : DB := snd (submit 5000 1 1 7 answeredDb).

(** The reviewer gives the text (answer 2) full marks and approves. *)
Definition gradedDb : DB := snd (gradeAnswer 2 5 submittedDb).

Definition approvedDb : DB := snd (approveReview 6000 1 99 gradedDb).

(** ** Predicates of the statements *)

(** A free-text answer that carries a text and no marks yet. *)
Definition awaitsGrading (db : DB) (answer : Answer) : Prop :=
  exists question,
    findQuestion db (anQuestionId answer) = Some question /\
    isFreeText (qType question) = true /\
    anTextAnswer answer <> None /\
    anMarksObtained answer = 0.

(** The submission [id] is stored, approved and completed. *)
Definition approvedRows (db : DB) (id : Z) : Prop :=
  (exists s, In s (submissions db) /\ sId s = id) /\
  forall s, In s (submissions db) -> sId s = id ->
            sIsCheckedByTeacher s = true /\ sStatus s = COMPLETED.

(** The aggregate of a submission. *)
Definition scores (s : Submission) : Z * Percentage * bool :=
  (sObtainedMarks s, sPercentage s, sIsPassed s).

Definition isGradeAnswer (op : Op) : bool :=
  match op with GradeAnswer _ _ => true | _ => false end.

(** ** What is withheld until approval *)

Definition pendingReview (s : Submission) : bool :=
  isCompleted (sStatus s) && negb (sIsCheckedByTeacher s).

(** A completed, unapproved submission with its aggregate blanked. *)
Definition withheld (s : Submission) : Submission :=
  if pendingReview s then rescored 0 (Pct 0) false s else s.

(** An answer of such a submission with its grading blanked. *)
Definition withheldAnswer (db : DB) (a : Answer) : Answer :=
  match findSubmission db (anSubmissionId a) with
  | Some s => if pendingReview s then graded 0 false a else a
  | None => a
  end.

(** The store as far as the score fields of unapproved submissions go: two
    stores with the same image differ in those fields only. *)
Definition withheldDb (db : DB) : DB :=
  mkDB (courses db) (assessments db) (questions db) (options db) (enrollments db)
       (map withheld (submissions db)) (map (withheldAnswer db) (answers db)).

(** ** Attempts taken one after the other *)

(** One attempt: start, then submit the submission that was started. *)
Definition attempt (shuffle : list Question -> list Question) (now id userId : Z) (db : DB)
  : option DB :=
  match startAttempt shuffle now id userId db with
  | (Ok r, db1) =>
      match submit now id (srSubmissionId r) userId db1 with
      | (Ok _, db2) => Some db2
      | _ => None
      end
  | _ => None
  end.

Fixpoint attempts (n : nat) (shuffle : list Question -> list Question)
    (now id userId : Z) (db : DB) : option DB :=
  match n with
  | O => Some db
  | S k =>
      match attempt shuffle now id userId db with
      | Some db' => attempts k shuffle now id userId db'
      | None => None
      end
  end.

(** What a start needs besides a free attempt. *)
Definition startable (db : DB) (assessment : Assessment) (now id userId : Z) : Prop :=
  findAssessment db id = Some assessment /\
  aIsActive assessment = true /\
  isEnrolled db userId (aCourseId assessment) = true /\
  notStartedYet assessment now = false /\
  hasEnded assessment now = false /\
  0 < aTotalMarks assessment.

(** The pair has [k] submissions, numbered up to [k], none in progress. *)
Definition settled (db : DB) (id userId k : Z) : Prop :=
  existingAttempts db id userId = k /\
  inProgressSubmission db id userId = None /\
  forall s, In s (submissions db) -> sameAttemptPair id userId s = true ->
            sAttemptNumber s <= k.

(** ** Outcomes of the commands *)

Definition errorOf {A} (r : Outcome A * DB) : option Error :=
  match fst r with
  | Err e => Some e
  | Ok _ => None
  end.

(** The error a command ends in, if any. *)
Definition execError (op : Op) (db : DB) : option Error :=
  match op with
  | StartAttempt shuffle now id userId => errorOf (startAttempt shuffle now id userId db)
  | SaveAnswer userId body => errorOf (saveAnswer userId body db)
  | Submit now id submissionId userId => errorOf (submit now id submissionId userId db)
  | GradeAnswer id marksObtained => errorOf (gradeAnswer id marksObtained db)
  | ApproveReview now id teacherId => errorOf (approveReview now id teacherId db)
  end.

(** The columns of a submission that no handler writes once it is
    completed: everything but the aggregate and the approval. *)
Definition sealed (s : Submission)
  : Z * Z * Z * Z * option Z * SubmissionStatus * Z * Z * option Z :=
  (sId s, sAssessmentId s, sUserId s, sStartTime s, sEndTime s, sStatus s,
   sTotalMarks s, sAttemptNumber s, sTimeSpent s).

(** The submission [id] is stored and completed. *)
Definition completedRows (db : DB) (id : Z) : Prop :=
  (exists s, In s (submissions db) /\ sId s = id) /\
  forall s, In s (submissions db) -> sId s = id -> sStatus s = COMPLETED.


(** Attempt numbers stay within the number of submissions of their pair. *)
Definition numberedRows (db : DB) : Prop :=
  forall s, In s (submissions db) ->
    1 <= sAttemptNumber s <= existingAttempts db (sAssessmentId s) (sUserId s).

(** ** Further student queries *)

(** GET /student/assessments/:id/details *)
Record AssessmentDetails := mkAssessmentDetails {
  adId : Z;
  adTitle : string;
  adDescription : option string;
  adCourse : Course;
  adTimeLimit : option Z;
  adTotalMarks : Z;
  adPassingMarks : Z;
  adTotalQuestions : Z;
  adAttempts : Z;
  adAttemptsUsed : Z;
  adAttemptsRemaining : Z;
  adStartDate : option Z;
  adEndDate : option Z
}.

(** [_count: { select: { questions: true } }] *)
Definition questionCount (db : DB) (assessmentId : Z) : Z :=
  Z.of_nat (List.length (filter (fun q => qAssessmentId q =? assessmentId) (questions db))).

Definition assessmentDetails (id userId : Z) (db : DB) : Outcome AssessmentDetails :=
  match find (fun a => (aId a =? id) && aIsActive a) (assessments db) with
  | None => Err AssessmentNotFound
  | Some assessment =>
    match findCourse db (aCourseId assessment) with
    | None => Err InternalError
    | Some course =>
      if negb (isEnrolled db userId (aCourseId assessment)) then Err NotEnrolled
      else
        let attemptsUsed :=
          Z.of_nat (List.length
            (filter (fun s => (sAssessmentId s =? aId assessment) && (sUserId s =? userId))
                    (submissions db))) in
        Ok (mkAssessmentDetails (aId assessment) (aTitle assessment)
              (aDescription assessment) course (aTimeLimit assessment)
              (aTotalMarks assessment) (aPassingMarks assessment)
              (questionCount db (aId assessment)) (aAttempts assessment)
              attemptsUsed (aAttempts assessment - attemptsUsed)
              (aStartDate assessment) (aEndDate assessment))
    end
  end.

(** GET /student/courses/:courseId/progress *)
Inductive ProgressStatus :=
  | ProgressInProgress | ProgressPassed | ProgressFailed
  | ProgressPendingReview | ProgressPending.

Record LatestAttempt := mkLatestAttempt {
  laAttemptNumber : Z;
  laObtainedMarks : option Z;
  laPercentage : option Percentage;
  laIsPassed : option bool;
  laSubmittedAt : option Z;
  laIsCheckedByTeacher : bool
}.

Record ProgressEntry := mkProgressEntry {
  peAssessmentId : Z;
  peTitle : string;
  peTotalMarks : Z;
  pePassingMarks : Z;
  peMaxAttempts : Z;
  peStatus : ProgressStatus;
  peLatestAttempt : option LatestAttempt;
  peAttemptsUsed : Z;
  peAttemptsRemaining : Z;
  peBestScore : option Percentage
}.

(** [Math.max] on two numbers. *)
Definition maxPercentage (a b : Percentage) : Percentage :=
  match a, b with
  | PctNaN, _ => PctNaN
  | _, PctNaN => PctNaN
  | PctInfinity false, _ => PctInfinity false
  | _, PctInfinity false => PctInfinity false
  | PctInfinity true, x => x
  | x, PctInfinity true => x
  | Pct x, Pct y => Pct (Z.max x y)
  end.

(** [Math.max(...l)] *)
Definition maxOf (l : list Percentage) : Percentage :=
  fold_left maxPercentage l (PctInfinity true).

(** [submissions: { where: { userId }, orderBy: { attemptNumber: 'desc' } }] *)
Definition attemptsOf (db : DB) (assessment : Assessment) (userId : Z) : list Submission :=
  sortBy (fun a b => sAttemptNumber b <=? sAttemptNumber a)
    (filter (fun s => (sAssessmentId s =? aId assessment) && (sUserId s =? userId))
            (submissions db)).

Definition progressStatus (latestSubmission : option Submission) : ProgressStatus :=
  match latestSubmission with
  | Some latest =>
      if isInProgress (sStatus latest) then ProgressInProgress
      else if sIsCheckedByTeacher latest
           then (if sIsPassed latest then ProgressPassed else ProgressFailed)
           else ProgressPendingReview
  | None => ProgressPending
  end.

Definition latestAttempt (latest : Submission) : LatestAttempt :=
  mkLatestAttempt (sAttemptNumber latest)
    (if sIsCheckedByTeacher latest then Some (sObtainedMarks latest) else None)
    (if sIsCheckedByTeacher latest then Some (sPercentage latest) else None)
    (if sIsCheckedByTeacher latest then Some (sIsPassed latest) else None)
    (sEndTime latest) (sIsCheckedByTeacher latest).

Definition bestScore (subs : list Submission) : option Percentage :=
  let checked :=
    filter sIsCheckedByTeacher (filter (fun s => isCompleted (sStatus s)) subs) in
  if (0 <? Z.of_nat (List.length checked)) then Some (maxOf (map sPercentage checked))
  else None.

Definition progressEntry (db : DB) (userId : Z) (assessment : Assessment) : ProgressEntry :=
  let subs := attemptsOf db assessment userId in
  let latestSubmission := hd_error subs in
  mkProgressEntry (aId assessment) (aTitle assessment) (aTotalMarks assessment)
    (aPassingMarks assessment) (aAttempts assessment)
    (progressStatus latestSubmission)
    (option_map latestAttempt latestSubmission)
    (Z.of_nat (List.length subs))
    (aAttempts assessment - Z.of_nat (List.length subs))
    (bestScore subs).

Definition courseProgress (courseId userId : Z) (db : DB) : Outcome (list ProgressEntry) :=
  if negb (isEnrolled db userId courseId) then Err NotEnrolled
  else
    Ok (map (progressEntry db userId)
          (filter (fun a => (aCourseId a =? courseId) && aIsActive a) (assessments db))).

(** ** The teacher's views of a submission

    The two handlers include the student of a submission.  The User table is
    handed to them as a list of its own; of its columns they read the
    identifier, the e-mail address, the full name and the designation. *)

Record User := mkUser {
  uId : Z;
  uEmail : string;
  uFullName : option string;
  uDesignation : option string
}.

Definition findUser (users : list User) (id : Z) : option User :=
  find (fun u => uId u =? id) users.

(** [user.fullName || user.email] *)
Definition displayName (u : User) : string :=
  match uFullName u with
  | Some n => if isEmptyString n then uEmail u else n
  | None => uEmail u
  end.

(** GET /admin/pending-grading *)
Record QueueEntry := mkQueueEntry {
  qeSubmissionId : Z;
  qeAssessmentId : Z;
  qeAssessmentTitle : string;
  qeCourseName : string;
  qeStudentId : Z;
  qeStudentName : string;
  qeStudentEmail : string;
  qeAttemptNumber : Z;
  qeSubmittedAt : option Z;
  qeTotalManualQuestions : Z;
  qeUngradedQuestions : Z;
  qeIsFullyGraded : bool;
  qeObtainedMarks : Z;
  qeTotalMarks : Z;
  qeCurrentPercentage : Percentage
}.

(** The filter of [manualQuestions], the question being included. *)
Definition isManual (aq : Answer * Question) : bool :=
  isFreeText (qType (snd aq)) && hasText (fst aq).

Definition manualQuestions (answers : list (Answer * Question)) : list (Answer * Question) :=
  filter isManual answers.

Definition ungradedQuestions (answers : list (Answer * Question)) : list (Answer * Question) :=
  filter (fun ans => anMarksObtained (fst ans) =? 0) (manualQuestions answers).

Definition queueEntry (submission : Submission) (user : User) (assessment : Assessment)
    (course : Course) (answers : list (Answer * Question)) : QueueEntry :=
  mkQueueEntry (sId submission) (aId assessment) (aTitle assessment) (cTitle course)
    (uId user) (displayName user) (uEmail user) (sAttemptNumber submission)
    (sEndTime submission)
    (Z.of_nat (List.length (manualQuestions answers)))
    (Z.of_nat (List.length (ungradedQuestions answers)))
    (Z.of_nat (List.length (ungradedQuestions answers)) =? 0)
    (sObtainedMarks submission) (sTotalMarks submission) (sPercentage submission).

(** [orderBy: { endTime: 'asc' }], a missing end time last. *)
Definition endsNoLater (a b : Submission) : bool :=
  match sEndTime a, sEndTime b with
  | Some x, Some y => x <=? y
  | Some _, None => true
  | None, Some _ => false
  | None, None => true
  end.

(** The included rows of one submission; [None] when one is missing. *)
Definition queueRow (users : list User) (db : DB) (submission : Submission)
  : option QueueEntry :=
  match findUser users (sUserId submission), assessmentAndCourse db submission,
        withQuestions db (answersOf db (sId submission)) with
  | Some user, Some (assessment, course), Some answers =>
      Some (queueEntry submission user assessment course answers)
  | _, _, _ => None
  end.

Fixpoint formattedQueue (users : list User) (db : DB) (subs : list Submission)
  : option (list QueueEntry) :=
  match subs with
  | [] => Some []
  | submission :: r =>
    match queueRow users db submission, formattedQueue users db r with
    | Some entry, Some rest => Some (entry :: rest)
    | _, _ => None
    end
  end.

Definition pendingSubmissions (db : DB) : list Submission :=
  sortBy endsNoLater
    (filter (fun s => isCompleted (sStatus s) && negb (sIsCheckedByTeacher s))
            (submissions db)).

Definition pendingGrading (users : list User) (db : DB) : Outcome (list QueueEntry) :=
  match formattedQueue users db (pendingSubmissions db) with
  | None => Err InternalError
  | Some queue => Ok queue
  end.

(** GET /admin/submissions/:id/details *)
Record AdminOption := mkAdminOption {
  aoId : Z;
  aoText : string;
  aoIsCorrect : bool;
  aoWasSelected : bool
}.

Record FormattedAnswer := mkFormattedAnswer {
  faAnswerId : Z;
  faQuestionId : Z;
  faQuestionText : string;
  faQuestionType : QuestionType;
  faMaxMarks : Z;
  faMarksObtained : Z;
  faIsCorrect : bool;
  faStudentAnswer : option string;
  faCorrectAnswer : option string;
  faAllOptions : list AdminOption;
  faExplanation : option string;
  faNeedsGrading : bool
}.

Record GradingStatus := mkGradingStatus {
  gsTotal : Z;
  gsGraded : Z;
  gsNeedsGrading : Z
}.

Record SubmissionDetails := mkSubmissionDetails {
  sdSubmissionId : Z;
  sdStudent : User;
  sdAssessment : Assessment;
  sdCourseName : string;
  sdAttemptNumber : Z;
  sdObtainedMarks : Z;
  sdTotalMarks : Z;
  sdPercentage : Percentage;
  sdIsPassed : bool;
  sdTimeSpent : option Z;
  sdSubmittedAt : option Z;
  sdIsCheckedByTeacher : bool;
  sdCheckedAt : option Z;
  sdAnswers : list FormattedAnswer;
  sdGradingStatus : GradingStatus
}.

Definition formattedAnswer (db : DB) (answer : Answer) (question : Question)
  : FormattedAnswer :=
  mkFormattedAnswer (anId answer) (qId question) (qText question) (qType question)
    (qMarks question) (anMarksObtained answer) (anIsCorrect answer)
    (textOr (selectedOptionOf db answer) (anTextAnswer answer))
    (option_map oText (find oIsCorrect (optionsOf db question)))
    (map (fun opt => mkAdminOption (oId opt) (oText opt) (oIsCorrect opt)
                       (wasSelected opt answer))
         (optionsOf db question))
    (qExplanation question)
    (isFreeText (qType question) && (anMarksObtained answer =? 0) && hasText answer).

Definition formattedAnswers (db : DB) (l : list (Answer * Question)) : list FormattedAnswer :=
  map (fun aq => formattedAnswer db (fst aq) (snd aq))
      (sortBy (fun x y => qOrder (snd x) <=? qOrder (snd y)) l).

Definition gradingStatus (answers : list FormattedAnswer) : GradingStatus :=
  mkGradingStatus (Z.of_nat (List.length answers))
    (Z.of_nat (List.length (filter (fun a => negb (faNeedsGrading a)) answers)))
    (Z.of_nat (List.length (filter faNeedsGrading answers))).

Definition submissionDetails (users : list User) (id : Z) (db : DB)
  : Outcome SubmissionDetails :=
  match findSubmission db id with
  | None => Err SubmissionNotFound
  | Some submission =>
    match findUser users (sUserId submission), assessmentAndCourse db submission,
          withQuestions db (answersOf db (sId submission)) with
    | Some user, Some (assessment, course), Some answers =>
        Ok (mkSubmissionDetails (sId submission) user assessment (cTitle course)
              (sAttemptNumber submission) (sObtainedMarks submission)
              (sTotalMarks submission) (sPercentage submission) (sIsPassed submission)
              (sTimeSpent submission) (sEndTime submission)
              (sIsCheckedByTeacher submission) (sCheckedAt submission)
              (formattedAnswers db answers)
              (gradingStatus (formattedAnswers db answers)))
    | _, _, _ => Err InternalError
    end
  end.

(** The student of the sample store, as the User table holds them. *)
Definition quizUsers : list User :=
  [mkUser 7 "ada@example.org" (Some "Ada"%string) None].

(** ** Managing assessments and questions (admin routes) *)

Definition set_assessments (db : DB) (l : list Assessment) : DB :=
  mkDB (courses db) l (questions db) (options db)
       (enrollments db) (submissions db) (answers db).

Definition updateAssessment (db : DB) (id : Z) (f : Assessment -> Assessment) : DB :=
  set_assessments db
    (map (fun a => if aId a =? id then f a else a) (assessments db)).

(** [data: { isActive }] *)
Definition withIsActive (isActive : bool) (a : Assessment) : Assessment :=
  mkAssessment (aId a) (aTitle a) (aDescription a) (aCourseId a) (aTimeLimit a)
    (aTotalMarks a) (aPassingMarks a) (aAttempts a) isActive
    (aRandomizeQuestions a) (aStartDate a) (aEndDate a).

(** PATCH /admin/assessments/:id/toggle-status *)
Definition toggleStatus (id : Z) (db : DB) : Outcome Assessment * DB :=
  match findAssessment db id with
  | None => (Err AssessmentNotFound, db)
  | Some assessment =>
      (Ok (withIsActive (negb (aIsActive assessment)) assessment),
       updateAssessment db id (withIsActive (negb (aIsActive assessment))))
  end.

(** *** Deleting rows

    The foreign keys of the assessment tables are ON DELETE CASCADE, except
    submission_answers.selectedOptionId, which is ON DELETE SET NULL
    (migration 20251018113410_add_assessment_module). *)

Definition withoutSelectedOption (a : Answer) : Answer :=
  mkAnswer (anId a) (anSubmissionId a) (anQuestionId a) None (anTextAnswer a)
    (anIsCorrect a) (anMarksObtained a) (anTimeSpent a).

(** Deleting option rows: answers that selected one of them lose the
    reference. *)
Definition deleteOptions (dead : QuestionOption -> bool) (db : DB) : DB :=
  let gone := fun id => existsb (fun o => (oId o =? id) && dead o) (options db) in
  mkDB (courses db) (assessments db) (questions db)
       (filter (fun o => negb (dead o)) (options db))
       (enrollments db) (submissions db)
       (map (fun a => match anSelectedOptionId a with
                      | Some id => if gone id then withoutSelectedOption a else a
                      | None => a
                      end)
            (answers db)).

(** Deleting question rows: their options and their answers go with them. *)
Definition deleteQuestions (dead : Question -> bool) (db : DB) : DB :=
  let gone := fun id => existsb (fun q => (qId q =? id) && dead q) (questions db) in
  let db1 := deleteOptions (fun o => gone (oQuestionId o)) db in
  mkDB (courses db1) (assessments db1)
       (filter (fun q => negb (dead q)) (questions db1))
       (options db1) (enrollments db1) (submissions db1)
       (filter (fun a => negb (gone (anQuestionId a))) (answers db1)).

(** Deleting submission rows: their answers go with them. *)
Definition deleteSubmissions (dead : Submission -> bool) (db : DB) : DB :=
  let gone := fun id => existsb (fun s => (sId s =? id) && dead s) (submissions db) in
  mkDB (courses db) (assessments db) (questions db) (options db) (enrollments db)
       (filter (fun s => negb (dead s)) (submissions db))
       (filter (fun a => negb (gone (anSubmissionId a))) (answers db)).

(** DELETE /admin/assessments/:id; [delete] throws when no row has the
    identifier, which the catch block answers with 500. *)
Definition deleteAssessment (id : Z) (db : DB) : Outcome unit * DB :=
  match findAssessment db id with
  | None => (Err InternalError, db)
  | Some _ =>
      let db1 := deleteSubmissions (fun s => sAssessmentId s =? id) db in
      let db2 := deleteQuestions (fun q => qAssessmentId q =? id) db1 in
      (Ok tt,
       set_assessments db2 (filter (fun a => negb (aId a =? id)) (assessments db2)))
  end.

(** DELETE /admin/questions/:id *)
Definition deleteQuestion (id : Z) (db : DB) : Outcome unit * DB :=
  match findQuestion db id with
  | None => (Err InternalError, db)
  | Some _ => (Ok tt, deleteQuestions (fun q => qId q =? id) db)
  end.

(** *** Questions *)

(** An element of [options] in a question body. *)
Record OptionBody := mkOptionBody {
  obOptionText : Field string;
  obIsCorrect : Field bool
}.

(** The body of the add-question and update-question requests.  An absent,
    [null] or empty [options] array is the empty list: the handlers test
    [options && options.length > 0]. *)
Record QuestionBody := mkQuestionBody {
  qbQuestionText : Field string;
  qbQuestionType : Field QuestionType;
  qbMarks : Field Z;
  qbExplanation : Field string;
  qbImageUrl : Field string;
  qbIsActive : Field bool;
  qbOptions : list OptionBody
}.

(** [opt.isCorrect || false] *)
Definition orFalse (f : Field bool) : bool :=
  match f with Val b => b | _ => false end.

(** [marks || 1] *)
Definition orOne (f : Field Z) : Z :=
  match f with Val m => if m =? 0 then 1 else m | _ => 1 end.

(** [explanation || null] *)
Definition orNull (f : Field string) : option string :=
  match f with Val s => if isEmptyString s then None else Some s | _ => None end.

(** [options.map((opt, index) => ({ optionText: opt.optionText,
    isCorrect: opt.isCorrect || false, order: index + 1 }))], the rows keyed
    from [firstId] on; [None] when an option comes without the required
    text, which the client refuses before anything is written. *)
Fixpoint newOptions (questionId firstId index : Z) (l : list OptionBody)
  : option (list QuestionOption) :=
  match l with
  | [] => Some []
  | opt :: r =>
    match obOptionText opt, newOptions questionId (firstId + 1) (index + 1) r with
    | Val optionText, Some rest =>
        Some (mkOption firstId questionId optionText (orFalse (obIsCorrect opt))
                (index + 1) :: rest)
    | _, _ => None
    end
  end.

(** POST /admin/assessments/:id/questions.  The question and its options
    are one nested [create]; it fails as a whole when the assessment does
    not exist (foreign key questions.assessmentId) or a required value is
    missing. *)
Definition addQuestion (id : Z) (body : QuestionBody) (db : DB)
  : Outcome (Question * list QuestionOption) * DB :=
  let questionCount := questionCount db id in
  match qbQuestionText body, qbQuestionType body, findAssessment db id with
  | Val questionText, Val questionType, Some _ =>
    let question :=
      mkQuestion (nextId (map qId (questions db))) id questionText questionType
        (orOne (qbMarks body)) (questionCount + 1) true
        (orNull (qbExplanation body)) (orNull (qbImageUrl body)) in
    match newOptions (qId question) (nextId (map oId (options db))) 0 (qbOptions body) with
    | Some opts =>
        (Ok (question, opts),
         mkDB (courses db) (assessments db) (questions db ++ [question])
              (options db ++ opts) (enrollments db) (submissions db) (answers db))
    | None => (Err InternalError, db)
    end
  | _, _, _ => (Err InternalError, db)
  end.

(** The [data] of the question update; [None] for [marks: null] or
    [isActive: null], which the client refuses for a required column. *)
Definition questionData (body : QuestionBody) (q : Question) : option Question :=
  match qbMarks body, qbIsActive body with
  | Null, _ | _, Null => None
  | marks, isActive =>
    Some (mkQuestion (qId q) (qAssessmentId q)
            (match qbQuestionText body with
             | Val s => if isEmptyString s then qText q else s
             | _ => qText q
             end)
            (match qbQuestionType body with Val t => t | _ => qType q end)
            (match marks with Val m => m | _ => qMarks q end)
            (qOrder q)
            (match isActive with Val b => b | _ => qIsActive q end)
            (onUpdate (qbExplanation body) (qExplanation q))
            (onUpdate (qbImageUrl body) (qImageUrl q)))
  end.

Definition set_questions (db : DB) (l : list Question) : DB :=
  mkDB (courses db) (assessments db) l (options db)
       (enrollments db) (submissions db) (answers db).

(** PUT /admin/questions/:id: three separate writes, the question, then
    [deleteMany] and [createMany] on its options, and a final read.  The
    keys of the new options continue the sequence past every key in use
    before the deletion. *)
Definition updateQuestion (id : Z) (body : QuestionBody) (db : DB)
  : Outcome (Question * list QuestionOption) * DB :=
  match findQuestion db id with
  | None => (Err InternalError, db)
  | Some question =>
    match questionData body question with
    | None => (Err InternalError, db)
    | Some updated =>
      let db1 :=
        set_questions db
          (map (fun q => if qId q =? id then updated else q) (questions db)) in
      match qbOptions body with
      | [] =>
          (Ok (updated,
               sortBy (fun a b => oOrder a <=? oOrder b) (optionsOf db1 updated)),
           db1)
      | _ :: _ =>
        let db2 := deleteOptions (fun o => oQuestionId o =? id) db1 in
        match newOptions id (nextId (map oId (options db))) 0 (qbOptions body) with
        | None => (Err InternalError, db2)
        | Some opts =>
          let db3 :=
            mkDB (courses db2) (assessments db2) (questions db2) (options db2 ++ opts)
                 (enrollments db2) (submissions db2) (answers db2) in
          (Ok (updated,
               sortBy (fun a b => oOrder a <=? oOrder b) (optionsOf db3 updated)),
           db3)
        end
      end
    end
  end.

(** *** Duplicating an assessment *)

(** [q.options.map(opt => ({ optionText, isCorrect, order }))], the rows
    keyed from [firstId] on. *)
Fixpoint copyOptions (questionId firstId : Z) (l : list QuestionOption)
  : list QuestionOption :=
  match l with
  | [] => []
  | opt :: r =>
      mkOption firstId questionId (oText opt) (oIsCorrect opt) (oOrder opt)
      :: copyOptions questionId (firstId + 1) r
  end.

(** [original.questions.map(q => ({ questionText, questionType, marks, order,
    explanation, imageUrl, options }))]: isActive is not among the copied
    columns and takes the column default. *)
Fixpoint copyQuestions (db : DB) (assessmentId firstQuestionId firstOptionId : Z)
    (l : list Question) : list (Question * list QuestionOption) :=
  match l with
  | [] => []
  | q :: r =>
      let opts := copyOptions firstQuestionId firstOptionId (optionsOf db q) in
      (mkQuestion firstQuestionId assessmentId (qText q) (qType q) (qMarks q)
         (qOrder q) true (qExplanation q) (qImageUrl q), opts)
      :: copyQuestions db assessmentId (firstQuestionId + 1)
           (firstOptionId + Z.of_nat (List.length opts)) r
  end.

(** POST /admin/assessments/:id/duplicate *)
Definition duplicate (id : Z) (db : DB)
  : Outcome (Assessment * list (Question * list QuestionOption)) * DB :=
  match findAssessment db id with
  | None => (Err AssessmentNotFound, db)
  | Some original =>
      let copy :=
        mkAssessment (nextId (map aId (assessments db)))
          (String.append (aTitle original) " (Copy)") (aDescription original)
          (aCourseId original) (aTimeLimit original) (aTotalMarks original)
          (aPassingMarks original) (aAttempts original) false
          (aRandomizeQuestions original) None None in
      let rows :=
        copyQuestions db (aId copy) (nextId (map qId (questions db)))
          (nextId (map oId (options db)))
          (filter (fun q => qAssessmentId q =? aId original) (questions db)) in
      (Ok (copy, rows),
       mkDB (courses db) (assessments db ++ [copy])
            (questions db ++ map fst rows) (options db ++ List.concat (map snd rows))
            (enrollments db) (submissions db) (answers db))
  end.

(** ** The grade request as it arrives

    [gradeAnswer] takes the marks as the integer a well-formed body
    carries.  In the body [marksObtained] can also be missing or null.  A
    missing value passes the range test (both comparisons with [undefined]
    are false); the answer is then updated with
    [isCorrect: undefined === question.marks], that is false, its marks
    left alone, and the update of the submission fails on
    [obtainedMarks: parseInt(NaN)]: the call ends in the catch block with
    the first write in place.  A null passes the test unless the
    question's marks are negative and is refused by the first update, the
    column not being nullable. *)



(** ** GET /student/my-assessments *)













(** * Properties *)

Unset Implicit Arguments.

(** ** Facts about the store primitives *)

Section ListFacts.
Context {A : Type}.

Lemma fold_sum_acc (f : A -> Z) (l : list A) (acc : Z) :
  fold_left (fun total x => total + f x) l acc = acc + sumZ f l.
Proof.
  unfold sumZ. revert acc.
  induction l as [|x l IH]; intros acc; simpl; [lia|].
  rewrite (IH (acc + f x)), (IH (f x)). lia.
Qed.


Lemma sumZ_cons (f : A -> Z) (x : A) (l : list A) :
  sumZ f (x :: l) = f x + sumZ f l.
Proof. unfold sumZ at 1. simpl. rewrite fold_sum_acc. lia. Qed.


Lemma sumZ_ext (f g : A -> Z) (l : list A) :
  (forall x, In x l -> f x = g x) -> sumZ f l = sumZ g l.
Proof.
  induction l as [|x l IH]; intros H; [reflexivity|].
  rewrite !sumZ_cons, (H x (or_introl eq_refl)), IH; [reflexivity|].
  intros y Hy. apply H. now right.
Qed.

Lemma find_app_found (p : A -> bool) (l1 l2 : list A) (x : A) :
  find p l1 = Some x -> find p (l1 ++ l2) = Some x.
Proof.
  induction l1 as [|y l1 IH]; simpl; [discriminate|].
  destruct (p y); auto.
Qed.

Lemma find_app_missing (p : A -> bool) (l1 l2 : list A) :
  find p l1 = None -> find p (l1 ++ l2) = find p l2.
Proof.
  induction l1 as [|y l1 IH]; simpl; [reflexivity|].
  destruct (p y); [discriminate|auto].
Qed.

(** A row found under a weak condition is the row found under a stronger
    one that it also meets. *)
Lemma find_narrow (p q : A -> bool) (l : list A) (x : A) :
  find p l = Some x -> q x = true ->
  (forall y, q y = true -> p y = true) ->
  find q l = Some x.
Proof.
  induction l as [|y l IH]; simpl; [discriminate|].
  intros Hf Hq Himp. destruct (p y) eqn:Hp.
  - inversion Hf; subst. now rewrite Hq.
  - destruct (q y) eqn:Hqy; [|now apply IH].
    apply Himp in Hqy. congruence.
Qed.

Lemma find_map_stable (p : A -> bool) (g : A -> A) (l : list A) :
  (forall x, p (g x) = p x) ->
  find p (map g l) = option_map g (find p l).
Proof.
  intros Hp. induction l as [|y l IH]; simpl; [reflexivity|].
  rewrite Hp. destruct (p y); [reflexivity|exact IH].
Qed.

Lemma filter_map_stable (p : A -> bool) (g : A -> A) (l : list A) :
  (forall x, p (g x) = p x) ->
  filter p (map g l) = map g (filter p l).
Proof.
  intros Hp. induction l as [|y l IH]; simpl; [reflexivity|].
  rewrite Hp. destruct (p y); simpl; now rewrite IH.
Qed.

Lemma map_unchanged (g : A -> A) (l : list A) :
  (forall x, In x l -> g x = x) -> map g l = l.
Proof.
  induction l as [|y l IH]; intros H; simpl; [reflexivity|].
  rewrite (H y (or_introl eq_refl)), IH; [reflexivity|].
  intros x Hx. apply H. now right.
Qed.

Lemma existsb_false_all (p : A -> bool) (l : list A) (x : A) :
  existsb p l = false -> In x l -> p x = false.
Proof.
  intros He Hin. destruct (p x) eqn:Hp; [|reflexivity].
  assert (existsb p l = true) by (apply existsb_exists; eauto).
  congruence.
Qed.
End ListFacts.

Lemma maxId_bound (ids : list Z) (i : Z) : In i ids -> i <= maxId ids.
Proof.
  induction ids as [|j ids IH]; simpl; [tauto|].
  intros [->|H]; [lia|]. specialize (IH H). lia.
Qed.

Lemma maxId_nonneg (ids : list Z) : 0 <= maxId ids.
Proof. induction ids as [|j ids IH]; simpl; lia. Qed.

Lemma nextId_fresh (ids : list Z) (i : Z) : In i ids -> i <> nextId ids.
Proof. intros H. apply maxId_bound in H. unfold nextId. lia. Qed.

Lemma nextId_positive (ids : list Z) : 0 < nextId ids.
Proof. pose proof (maxId_nonneg ids). unfold nextId. lia. Qed.

Lemma distinct_fresh (ids : list Z) (i : Z) :
  distinct ids = true -> ~ In i ids -> distinct (ids ++ [i]) = true.
Proof.
  induction ids as [|j ids IH]; simpl; intros Hd Hn; [reflexivity|].
  apply andb_true_iff in Hd as [Hj Hd].
  apply andb_true_iff. split; [|apply IH; tauto].
  rewrite existsb_app, negb_true_iff, orb_false_iff. split.
  - now apply negb_true_iff.
  - simpl. rewrite orb_false_r. apply Z.eqb_neq. intros ->. tauto.
Qed.

Lemma distinct_unique {A} (key : A -> Z) (l : list A) (x y : A) :
  distinct (map key l) = true -> In x l -> In y l -> key x = key y -> x = y.
Proof.
  induction l as [|z l IH]; simpl; [tauto|].
  intros Hd Hx Hy Hk. apply andb_true_iff in Hd as [Hz Hd].
  apply negb_true_iff in Hz.
  assert (Hout : forall w, In w l -> key z <> key w).
  { intros w Hw Heq.
    assert (existsb (Z.eqb (key z)) (map key l) = true); [|congruence].
    apply existsb_exists. exists (key w). split; [now apply in_map|].
    now apply Z.eqb_eq. }
  destruct Hx as [->|Hx], Hy as [->|Hy]; auto.
  - exfalso. now apply (Hout y).
  - exfalso. apply (Hout x Hx). congruence.
Qed.

Lemma find_by_key {A} (key : A -> Z) (l : list A) (x : A) :
  distinct (map key l) = true -> In x l ->
  find (fun y => key y =? key x) l = Some x.
Proof.
  intros Hd Hin.
  destruct (find (fun y => key y =? key x) l) as [y|] eqn:Hf.
  - apply find_some in Hf as [Hy Hk]. apply Z.eqb_eq in Hk.
    f_equal. eapply distinct_unique; eauto.
  - eapply find_none in Hf; eauto. rewrite Z.eqb_refl in Hf. discriminate.
Qed.


(** ** Answer recorder *)

Lemma rewritten_key body c m sid qid a :
  sameAnswerKey sid qid (rewritten body c m a) = sameAnswerKey sid qid a.
Proof. unfold rewritten. now destruct (sameAnswerKey _ _ a). Qed.

Lemma upsertAnswer_cases db body c m db' :
  upsertAnswer db body c m = Some db' ->
  optionRefOk db (bSelectedOptionId body) = true /\
  ((existsb (sameAnswerKey (bSubmissionId body) (bQuestionId body)) (answers db) = true /\
    db' = set_answers db (map (rewritten body c m) (answers db)))
   \/
   (existsb (sameAnswerKey (bSubmissionId body) (bQuestionId body)) (answers db) = false /\
    db' = set_answers db
            (answers db ++
             [mkAnswer (nextId (map anId (answers db))) (bSubmissionId body)
                (bQuestionId body) (onCreate (bSelectedOptionId body))
                (onCreate (bTextAnswer body)) c m (onCreate (bTimeSpent body))]))).
Proof.
  unfold upsertAnswer.
  destruct (optionRefOk db (bSelectedOptionId body)); simpl; [|discriminate].
  destruct (fitsInteger (bTimeSpent body)); simpl; [|discriminate].
  destruct (existsb _ (answers db)); intros H; inversion H; subst; auto.
Qed.

Lemma upsertAnswer_timeSpent db body c m db' :
  upsertAnswer db body c m = Some db' -> fitsInteger (bTimeSpent body) = true.
Proof.
  unfold upsertAnswer.
  destruct (optionRefOk db (bSelectedOptionId body)); simpl; [|discriminate].
  now destruct (fitsInteger (bTimeSpent body)).
Qed.

Lemma upsertAnswer_total db body c m :
  optionRefOk db (bSelectedOptionId body) = true ->
  fitsInteger (bTimeSpent body) = true ->
  exists db', upsertAnswer db body c m = Some db'.
Proof.
  intros H Ht. unfold upsertAnswer. rewrite H, Ht. simpl.
  destruct (existsb _ (answers db)); eauto.
Qed.

Lemma upsertAnswer_stored db body c m db' :
  upsertAnswer db body c m = Some db' ->
  submissions db' = submissions db /\
  (exists a, In a (answers db') /\
             sameAnswerKey (bSubmissionId body) (bQuestionId body) a = true) /\
  (forall a, In a (answers db') ->
             sameAnswerKey (bSubmissionId body) (bQuestionId body) a = true ->
             anIsCorrect a = c /\ anMarksObtained a = m).
Proof.
  intros H. apply upsertAnswer_cases in H as [_ [[He ->]|[He ->]]]; simpl.
  - split; [reflexivity|]. split.
    + apply existsb_exists in He as [x [Hx Hk]].
      exists (rewritten body c m x). split; [now apply in_map|].
      now rewrite rewritten_key.
    + intros a Ha Hk. apply in_map_iff in Ha as [x [<- Hx]].
      rewrite rewritten_key in Hk. unfold rewritten. rewrite Hk. now simpl.
  - split; [reflexivity|]. split.
    + eexists. split; [apply in_or_app; right; left; reflexivity|].
      unfold sameAnswerKey. simpl. now rewrite !Z.eqb_refl.
    + intros a Ha Hk. apply in_app_or in Ha as [Ha|[<-|[]]]; [|now simpl].
      rewrite (existsb_false_all _ _ _ He Ha) in Hk. discriminate.
Qed.

Lemma saveAnswer_ok userId body db submission question :
  find (fun s => (sId s =? bSubmissionId body) && (sUserId s =? userId)
                 && isInProgress (sStatus s)) (submissions db) = Some submission ->
  findQuestion db (bQuestionId body) = Some question ->
  saveAnswer userId body db =
    match upsertAnswer db body (isCorrect db question (bSelectedOptionId body))
            (marksObtained db question (bSelectedOptionId body)) with
    | None => (Err InternalError, db)
    | Some db' => (Ok tt, db')
    end.
Proof. intros Hs Hq. unfold saveAnswer. now rewrite Hs, Hq. Qed.

Lemma saveAnswer_inv userId body db db' :
  saveAnswer userId body db = (Ok tt, db') ->
  exists submission question,
    find (fun s => (sId s =? bSubmissionId body) && (sUserId s =? userId)
                   && isInProgress (sStatus s)) (submissions db) = Some submission /\
    findQuestion db (bQuestionId body) = Some question /\
    upsertAnswer db body (isCorrect db question (bSelectedOptionId body))
      (marksObtained db question (bSelectedOptionId body)) = Some db'.
Proof.
  unfold saveAnswer.
  destruct (find _ (submissions db)) as [s|] eqn:Hs; [|discriminate].
  destruct (findQuestion db (bQuestionId body)) as [q|] eqn:Hq; [|discriminate].
  destruct (upsertAnswer _ _ _ _) as [d|] eqn:Hu; [|discriminate].
  intros H. inversion H; subst. exists s, q. auto.
Qed.

(** C5. A successful save-answer call stores, under the key (submissionId,
    questionId), an answer graded by the question's type: for a
    MULTIPLE_CHOICE or TRUE_FALSE question isCorrect is the isCorrect flag of
    the selected option (false when there is none) and marksObtained is
    question.marks when correct and 0 otherwise, hence one of the two values
    and never a partial one; for a SHORT_ANSWER or LONG_ANSWER question
    isCorrect is false and marksObtained is 0. *)
Theorem C5_save_answer_grading userId body db db' :
  saveAnswer userId body db = (Ok tt, db') ->
  exists question,
    findQuestion db (bQuestionId body) = Some question /\
    (exists a, In a (answers db') /\
               sameAnswerKey (bSubmissionId body) (bQuestionId body) a = true) /\
    forall a, In a (answers db') ->
      sameAnswerKey (bSubmissionId body) (bQuestionId body) a = true ->
      (isObjective (qType question) = true ->
         anIsCorrect a =
           match selectedOption db question (bSelectedOptionId body) with
           | Some opt => oIsCorrect opt
           | None => false
           end /\
         anMarksObtained a = (if anIsCorrect a then qMarks question else 0) /\
         (anMarksObtained a = 0 \/ anMarksObtained a = qMarks question)) /\
      (isFreeText (qType question) = true ->
         anIsCorrect a = false /\ anMarksObtained a = 0).
Proof.
  intros H. apply saveAnswer_inv in H as (s & q & _ & Hq & Hu).
  exists q. split; [exact Hq|].
  apply upsertAnswer_stored in Hu as (_ & Hex & Hall).
  split; [exact Hex|].
  intros a Ha Hk. destruct (Hall a Ha Hk) as [Hc Hm].
  unfold marksObtained in Hm. rewrite <- Hc in Hm.
  split.
  - intros Hobj. unfold isCorrect in Hc. rewrite Hobj in Hc.
    repeat split; auto. rewrite Hm. destruct (anIsCorrect a); auto.
  - intros Hft. unfold isCorrect in Hc.
    assert (isObjective (qType q) = false) as Hno by (destruct (qType q); auto; discriminate).
    rewrite Hno in Hc. rewrite Hm, Hc. auto.
Qed.

(** Option 102 is the correct option of the 5-mark question 11; the text of
    question 12 is stored ungraded. *)
Lemma C5_save_answer_grading_witness :
  (exists a,
     In a (answers (snd (saveAnswer 7 (mkSaveAnswerBody 1 11 (Val 102) Absent Absent)
                           startedDb))) /\
     anQuestionId a = 11 /\ anIsCorrect a = true /\ anMarksObtained a = 5) /\
  (exists a,
     In a (answers (snd (saveAnswer 7
                           (mkSaveAnswerBody 1 12 Absent (Val "because"%string) Absent)
                           startedDb))) /\
     anQuestionId a = 12 /\ anIsCorrect a = false /\ anMarksObtained a = 0).
Proof.
  split.
  - destruct (C5_save_answer_grading 7 (mkSaveAnswerBody 1 11 (Val 102) Absent Absent)
                startedDb _ eq_refl) as (q & Hq & [a [Ha Hk]] & Hall).
    vm_compute in Hq. inversion Hq; subst q. clear Hq.
    destruct (Hall a Ha Hk) as [Hobj _]. destruct (Hobj eq_refl) as (Hc & Hm & _).
    exists a. split; [exact Ha|].
    apply andb_true_iff in Hk as [_ Hk]. apply Z.eqb_eq in Hk.
    split; [exact Hk|]. split; [exact Hc|]. rewrite Hm, Hc. reflexivity.
  - destruct (C5_save_answer_grading 7
                (mkSaveAnswerBody 1 12 Absent (Val "because"%string) Absent)
                startedDb _ eq_refl) as (q & Hq & [a [Ha Hk]] & Hall).
    vm_compute in Hq. inversion Hq; subst q. clear Hq.
    destruct (Hall a Ha Hk) as [_ Hfree]. destruct (Hfree eq_refl) as (Hc & Hm).
    exists a. split; [exact Ha|].
    apply andb_true_iff in Hk as [_ Hk]. apply Z.eqb_eq in Hk. auto.
Defined.

Lemma upsertAnswer_frame db body c m db' :
  upsertAnswer db body c m = Some db' ->
  courses db' = courses db /\ assessments db' = assessments db /\
  questions db' = questions db /\ options db' = options db /\
  enrollments db' = enrollments db /\ submissions db' = submissions db.
Proof.
  intros H. apply upsertAnswer_cases in H as [_ [[_ ->]|[_ ->]]]; simpl; auto 10.
Qed.



Lemma key_rows_present sid qid (l : list Answer) :
  existsb (sameAnswerKey sid qid) l = true ->
  (1 <= List.length (filter (sameAnswerKey sid qid) l))%nat.
Proof.
  intros H. apply existsb_exists in H as [x [Hx Hk]].
  assert (In x (filter (sameAnswerKey sid qid) l)) as Hin by (apply filter_In; auto).
  destruct (filter (sameAnswerKey sid qid) l); [destruct Hin|simpl; lia].
Qed.


(** ** Finalizer *)

Lemma submit_ok now id submissionId userId db submission assessment :
  submissionId <> 0 ->
  find (fun s => (sId s =? submissionId) && (sUserId s =? userId)
                 && (sAssessmentId s =? id) && isInProgress (sStatus s))
       (submissions db) = Some submission ->
  findAssessment db (sAssessmentId submission) = Some assessment ->
  0 < aTotalMarks assessment ->
  submit now id submissionId userId db =
    (Ok (mkSubmitResponse submissionId now ((now - sStartTime submission) / 1000)
           (sumZ anMarksObtained (answersOf db (sId submission)))
           (aTotalMarks assessment)
           (toFixed2 (sumZ anMarksObtained (answersOf db (sId submission)))
              (aTotalMarks assessment))),
     updateSubmission db submissionId
       (finalized now (sumZ anMarksObtained (answersOf db (sId submission)))
          (toFixed2 (sumZ anMarksObtained (answersOf db (sId submission)))
             (aTotalMarks assessment))
          (aPassingMarks assessment <=? sumZ anMarksObtained (answersOf db (sId submission)))
          ((now - sStartTime submission) / 1000))).
Proof.
  intros Hid Hs Ha Ht. unfold submit.
  apply Z.eqb_neq in Hid. rewrite Hid, Hs, Ha.
  apply Z.leb_gt in Ht. now rewrite Ht.
Qed.

Lemma updateSubmission_rows db id f s' :
  In s' (submissions (updateSubmission db id f)) ->
  exists s, In s (submissions db) /\ s' = (if sId s =? id then f s else s).
Proof.
  unfold updateSubmission. cbn [submissions set_submissions].
  intros H. apply in_map_iff in H as [s [<- Hs]]. eauto.
Qed.

(** The percentage written by the finalizer is the two-decimal number
    nearest to obtained / total * 100. *)
(** ** Rounding *)





(*END*)





(** ** Answers to questions of another assessment *)



(** ** Selected options that are not the question's own *)

(** C10, as amended.  For a MULTIPLE_CHOICE or TRUE_FALSE question the
    handler accepts any selected option: when selectedOptionId is missing or
    null, or names a stored option that is not one of the question's own,
    the call succeeds (timeSpent, when given, fitting the INTEGER column)
    and records isCorrect = false and marksObtained = 0, as for a wrong
    answer.  An identifier that names no stored option at all is turned
    down by the foreign key of submission_answers.selectedOptionId, a
    timeSpent outside the 32-bit range by its column, and the call ends in
    the internal error, the store unchanged. *)
Theorem C10_unmatched_option userId body db submission question :
  find (fun s => (sId s =? bSubmissionId body) && (sUserId s =? userId)
                 && isInProgress (sStatus s)) (submissions db) = Some submission ->
  findQuestion db (bQuestionId body) = Some question ->
  isObjective (qType question) = true ->
  selectedOption db question (bSelectedOptionId body) = None ->
  (optionRefOk db (bSelectedOptionId body) = true ->
   fitsInteger (bTimeSpent body) = true ->
   exists db',
     saveAnswer userId body db = (Ok tt, db') /\
     (exists a, In a (answers db') /\
                sameAnswerKey (bSubmissionId body) (bQuestionId body) a = true) /\
     (forall a, In a (answers db') ->
                sameAnswerKey (bSubmissionId body) (bQuestionId body) a = true ->
                anIsCorrect a = false /\ anMarksObtained a = 0)) /\
  (optionRefOk db (bSelectedOptionId body) = false \/
   fitsInteger (bTimeSpent body) = false ->
   saveAnswer userId body db = (Err InternalError, db)).
Proof.
  intros Hs Hq Hobj Hsel.
  rewrite (saveAnswer_ok userId body db submission question Hs Hq).
  assert (Hc : isCorrect db question (bSelectedOptionId body) = false)
    by (unfold isCorrect; now rewrite Hobj, Hsel).
  assert (Hm : marksObtained db question (bSelectedOptionId body) = 0)
    by (unfold marksObtained; now rewrite Hc).
  rewrite Hc, Hm. split.
  - intros Href Hfits.
    destruct (upsertAnswer_total db body false 0 Href Hfits) as [db' Hu].
    exists db'. rewrite Hu. split; [reflexivity|].
    now apply upsertAnswer_stored in Hu as (_ & Hex & Hall).
  - intros [Href|Hfits]; unfold upsertAnswer.
    + now rewrite Href.
    + rewrite Hfits. now destruct (optionRefOk db (bSelectedOptionId body)).
Qed.

(** Option 201 belongs to question 21; sent for question 11 it is recorded
    as a wrong answer. *)
Lemma C10_unmatched_option_witness :
  exists db',
    saveAnswer 7 (mkSaveAnswerBody 1 11 (Val 201) Absent Absent) startedDb = (Ok tt, db') /\
    map (fun a => (anQuestionId a, anSelectedOptionId a, anIsCorrect a, anMarksObtained a))
        (answers db') = [(11, Some 201, false, 0)].
Proof.
  destruct (C10_unmatched_option 7 (mkSaveAnswerBody 1 11 (Val 201) Absent Absent)
              startedDb
              (mkSubmission 1 1 7 1000 None IN_PROGRESS 10 0 (Pct 0)
                 false 1 None false None None)
              (mkQuestion 11 1 "Pick" MULTIPLE_CHOICE 5 1 true None None))
    as [Hok _]; [reflexivity | reflexivity | reflexivity | reflexivity |].
  destruct (Hok eq_refl eq_refl) as (db' & Hsave & _).
  exists db'. split; [exact Hsave|].
  vm_compute in Hsave. now inversion Hsave.
Defined.

(** C10 as stated fails: identifier 999 is not an option of question 11 (nor
    of any question), and the call does not succeed. *)
Lemma C10_dangling_option_fails :
  exists question,
    findQuestion startedDb 11 = Some question /\
    isObjective (qType question) = true /\
    selectedOption startedDb question (Val 999) = None /\
    saveAnswer 7 (mkSaveAnswerBody 1 11 (Val 999) Absent Absent) startedDb
      = (Err InternalError, startedDb).
Proof.
  eexists. split; [reflexivity|]. repeat split.
Qed.

(** ** Grading workbench *)

Lemma gradeAnswer_eq id marks db answer question assessment :
  findAnswer db id = Some answer ->
  findQuestion db (anQuestionId answer) = Some question ->
  assessmentOfAnswer db answer = Some assessment ->
  gradeAnswer id marks db =
    if (marks <? 0) || (qMarks question <? marks)
    then (Err MarksOutOfRange, db)
    else
      let db1 := updateAnswer db id (graded marks (marks =? qMarks question)) in
      let total := totalObtained db1 id marks (anSubmissionId answer) in
      (Ok (mkGradeResponse marks (qMarks question) total
             (toFixed2 total (aTotalMarks assessment))
             (aPassingMarks assessment <=? total)),
       updateSubmission db1 (anSubmissionId answer)
         (rescored total (toFixed2 total (aTotalMarks assessment))
            (aPassingMarks assessment <=? total))).
Proof. intros Ha Hq Hs. unfold gradeAnswer. now rewrite Ha, Hq, Hs. Qed.

Lemma gradeAnswer_inv id marks db r db' :
  gradeAnswer id marks db = (Ok r, db') ->
  exists answer question assessment,
    findAnswer db id = Some answer /\
    findQuestion db (anQuestionId answer) = Some question /\
    assessmentOfAnswer db answer = Some assessment /\
    0 <= marks <= qMarks question /\
    db' = updateSubmission
            (updateAnswer db id (graded marks (marks =? qMarks question)))
            (anSubmissionId answer)
            (rescored (grNewTotalScore r) (grNewPercentage r) (grIsPassed r)).
Proof.
  unfold gradeAnswer.
  destruct (findAnswer db id) as [answer|] eqn:Ha; [|discriminate].
  destruct (findQuestion db (anQuestionId answer)) as [question|] eqn:Hq; [|discriminate].
  destruct (assessmentOfAnswer db answer) as [assessment|] eqn:Hs; [|discriminate].
  destruct ((marks <? 0) || (qMarks question <? marks)) eqn:Hr; [discriminate|].
  intros H. inversion H; subst. cbn.
  apply orb_false_iff in Hr as [H1 H2].
  apply Z.ltb_ge in H1. apply Z.ltb_ge in H2.
  exists answer, question, assessment. repeat split; auto.
Qed.



(** ** How each handler changes the submissions table *)

Lemma createSubmission_inv db now assessmentId userId totalMarks attemptNumber s db' :
  createSubmission db now assessmentId userId totalMarks attemptNumber = Some (s, db') ->
  s = mkSubmission (nextId (map sId (submissions db))) assessmentId userId
        now None IN_PROGRESS totalMarks 0 (Pct 0) false attemptNumber
        None false None None /\
  db' = set_submissions db (submissions db ++ [s]) /\
  existsb (fun x => sameAttemptPair assessmentId userId x
                    && (sAttemptNumber x =? attemptNumber)) (submissions db) = false.
Proof.
  unfold createSubmission. destruct (existsb _ (submissions db)); [discriminate|].
  intros H. inversion H; subst. auto.
Qed.

Lemma startAttempt_store shuffle now id userId db :
  snd (startAttempt shuffle now id userId db) = db \/
  exists s, sId s = nextId (map sId (submissions db)) /\
            sStatus s = IN_PROGRESS /\
            snd (startAttempt shuffle now id userId db)
              = set_submissions db (submissions db ++ [s]).
Proof.
  unfold startAttempt.
  destruct (find _ (assessments db)) as [a|]; [|now left].
  destruct (negb (isEnrolled db userId (aCourseId a))); [now left|].
  destruct (notStartedYet a now); [now left|].
  destruct (hasEnded a now); [now left|].
  destruct (existingAttempts db id userId >=? aAttempts a); [now left|].
  destruct (inProgressSubmission db id userId); [now left|].
  destruct (aTotalMarks a <=? 0); [now left|].
  destruct (createSubmission _ _ _ _ _ _) as [[s db']|] eqn:Hc; [|now left].
  apply createSubmission_inv in Hc as (-> & -> & _).
  right. eexists. split; [|split]; [| |cbn; reflexivity]; reflexivity.
Qed.

Lemma saveAnswer_submissions userId body db :
  submissions (snd (saveAnswer userId body db)) = submissions db.
Proof.
  unfold saveAnswer.
  destruct (find _ (submissions db)); [|reflexivity].
  destruct (findQuestion db (bQuestionId body)); [|reflexivity].
  destruct (upsertAnswer _ _ _ _) as [d|] eqn:Hu; [|reflexivity].
  now apply upsertAnswer_frame in Hu.
Qed.

Lemma submit_store now id submissionId userId db :
  snd (submit now id submissionId userId db) = db \/
  exists submission m p b t,
    In submission (submissions db) /\ sId submission = submissionId /\
    sStatus submission = IN_PROGRESS /\
    snd (submit now id submissionId userId db)
      = updateSubmission db submissionId (finalized now m p b t).
Proof.
  unfold submit.
  destruct (submissionId =? 0); [now left|].
  destruct (find _ (submissions db)) as [s|] eqn:Hs; [|now left].
  destruct (findAssessment db (sAssessmentId s)); [|now left].
  destruct (aTotalMarks a <=? 0); [now left|].
  right. apply find_some in Hs as [Hin Hp].
  apply andb_true_iff in Hp as [Hp Hprog]. apply andb_true_iff in Hp as [Hp _].
  apply andb_true_iff in Hp as [Hp _]. apply Z.eqb_eq in Hp.
  exists s. do 4 eexists. repeat split; auto.
  destruct (sStatus s); try discriminate; reflexivity.
Qed.

Lemma gradeAnswer_store id marks db :
  snd (gradeAnswer id marks db) = db \/
  exists sid b m p t,
    snd (gradeAnswer id marks db)
      = updateSubmission (updateAnswer db id (graded marks b)) sid (rescored m p t).
Proof.
  unfold gradeAnswer.
  destruct (findAnswer db id) as [a|]; [|now left].
  destruct (findQuestion db (anQuestionId a)); [|now left].
  destruct (assessmentOfAnswer db a); [|now left].
  destruct ((marks <? 0) || (qMarks q <? marks)); [now left|].
  right. do 5 eexists. reflexivity.
Qed.

Lemma approveReview_store now id teacherId db :
  snd (approveReview now id teacherId db) = db \/
  snd (approveReview now id teacherId db) = updateSubmission db id (approved teacherId now).
Proof.
  unfold approveReview.
  destruct (findSubmission db id) as [s|]; [|now left].
  destruct (findAssessment db (sAssessmentId s)); [|now left].
  destruct (ungradedAnswers db (answersOf db (sId s))); [|now left].
  destruct (negb (isCompleted (sStatus s))); [now left|].
  destruct (0 <? Z.of_nat (List.length l)); [now left|now right].
Qed.

(** ** The approval is kept *)

Lemma approvedRows_update db id target f :
  (forall s, sId (f s) = sId s) ->
  (forall s, sId s = id -> sId s = target ->
             sIsCheckedByTeacher s = true -> sStatus s = COMPLETED ->
             sIsCheckedByTeacher (f s) = true /\ sStatus (f s) = COMPLETED) ->
  approvedRows db id -> approvedRows (updateSubmission db target f) id.
Proof.
  intros Hid Hf [[s0 [Hin0 Hs0]] Hall]. split.
  - exists (if sId s0 =? target then f s0 else s0). split.
    + unfold updateSubmission. cbn [submissions set_submissions].
      apply in_map_iff. now exists s0.
    + destruct (sId s0 =? target); [now rewrite Hid|exact Hs0].
  - intros s' Hin Hs'. apply updateSubmission_rows in Hin as [s [Hin ->]].
    destruct (sId s =? target) eqn:He.
    + rewrite Hid in Hs'. destruct (Hall s Hin Hs') as [Hc Hst].
      apply Z.eqb_eq in He. now apply Hf.
    + now apply Hall.
Qed.

Lemma approvedRows_answers db id l :
  approvedRows db id -> approvedRows (set_answers db l) id.
Proof. intros H. exact H. Qed.

Lemma exec_keeps_approved op db id :
  approvedRows db id -> approvedRows (exec op db) id.
Proof.
  intros Happ. destruct op as [shuffle now aid uid|uid body|now aid sid uid|aid m|now sid tid];
    cbn [exec].
  - destruct (startAttempt_store shuffle now aid uid db) as [->|[s [Hs [_ ->]]]];
      [exact Happ|].
    destruct Happ as [[s0 [Hin0 Hs0]] Hall]. split.
    + exists s0. split; [|exact Hs0]. cbn. apply in_or_app. now left.
    + intros s' Hin Hs'. cbn in Hin. apply in_app_or in Hin as [Hin|[<-|[]]];
        [now apply Hall|].
      exfalso. apply (nextId_fresh (map sId (submissions db)) id).
      * rewrite <- Hs0. now apply in_map.
      * congruence.
  - destruct Happ as [[s0 [Hin0 Hs0]] Hall]. unfold approvedRows.
    rewrite saveAnswer_submissions. split; eauto.
  - destruct (submit_store now aid sid uid db)
      as [->|(s & m & p & b & t & Hin & Hsid & Hst & ->)]; [exact Happ|].
    apply approvedRows_update; [reflexivity| |exact Happ].
    intros x Hx Hx' _ _. exfalso.
    destruct Happ as [_ Hall]. destruct (Hall s Hin) as [_ Hc]; [congruence|].
    congruence.
  - destruct (gradeAnswer_store aid m db) as [->|(sid & b & tot & p & t & ->)];
      [exact Happ|].
    apply approvedRows_update; [reflexivity| |].
    + intros x _ _ Hc Hst. now cbn.
    + unfold updateAnswer. now apply approvedRows_answers.
  - destruct (approveReview_store now sid tid db) as [->| ->]; [exact Happ|].
    apply approvedRows_update; [reflexivity| |exact Happ].
    intros x _ _ _ Hst. now cbn.
Qed.

Lemma run_keeps_approved ops db id :
  approvedRows db id -> approvedRows (run ops db) id.
Proof.
  unfold run. revert db. induction ops as [|op ops IH]; intros db H; [exact H|].
  cbn [fold_left]. apply IH. now apply exec_keeps_approved.
Qed.

(** ** Review gate *)

Lemma needsGrading_awaits db answer question :
  findQuestion db (anQuestionId answer) = Some question ->
  (needsGrading question answer = true <-> awaitsGrading db answer).
Proof.
  intros Hq. unfold needsGrading, awaitsGrading, hasText. split.
  - intros H. apply andb_true_iff in H as [H Hm]. apply andb_true_iff in H as [Ht Hx].
    exists question. repeat split; auto.
    + destruct (anTextAnswer answer); [discriminate|discriminate Hx].
    + now apply Z.eqb_eq.
  - intros (q & Hq' & Ht & Hx & Hm). assert (q = question) as -> by congruence.
    rewrite Ht, Hm. destruct (anTextAnswer answer); [reflexivity|contradiction].
Qed.

Lemma ungradedAnswers_spec db l ungraded :
  ungradedAnswers db l = Some ungraded ->
  (ungraded <> [] <-> exists a, In a l /\ awaitsGrading db a).
Proof.
  revert ungraded. induction l as [|a l IH]; intros ungraded; cbn [ungradedAnswers].
  - intros H. inversion H; subst. split; [congruence|]. now intros [a [[] _]].
  - destruct (findQuestion db (anQuestionId a)) as [q|] eqn:Hq; [|discriminate].
    destruct (ungradedAnswers db l) as [rest|]; [|discriminate].
    intros H. inversion H; subst. specialize (IH rest eq_refl).
    pose proof (needsGrading_awaits db a q Hq) as Hn.
    destruct (needsGrading q a) eqn:Hg.
    + split; [|congruence]. intros _. exists a. split; [now left|]. now apply Hn.
    + split.
      * intros Hr. apply IH in Hr as [x [Hx Hw]]. exists x. split; [now right|exact Hw].
      * intros [x [[<-|Hx] Hw]].
        -- apply Hn in Hw. congruence.
        -- apply IH. eauto.
Qed.

Lemma ungradedAnswers_resolves db l :
  (forall a, In a l -> findQuestion db (anQuestionId a) <> None) ->
  exists ungraded, ungradedAnswers db l = Some ungraded.
Proof.
  induction l as [|a l IH]; intros H; cbn [ungradedAnswers]; [eauto|].
  destruct (findQuestion db (anQuestionId a)) as [q|] eqn:Hq.
  - destruct IH as [rest ->]; [intros x Hx; apply H; now right|]. eauto.
  - exfalso. apply (H a); [now left|exact Hq].
Qed.

Lemma findSubmission_unique db id s s' :
  wf_db db = true -> findSubmission db id = Some s ->
  In s' (submissions db) -> sId s' = id -> s' = s.
Proof.
  unfold wf_db, findSubmission. intros Hwf Hf Hin Hid.
  apply andb_true_iff in Hwf as [Hd _].
  apply find_some in Hf as [Hs Hk]. apply Z.eqb_eq in Hk.
  eapply distinct_unique; eauto. congruence.
Qed.

(** C7. On a COMPLETED submission approve-review answers GradingIncomplete
    exactly when some SHORT_ANSWER or LONG_ANSWER answer of the submission
    has a text and marksObtained = 0.  Otherwise it succeeds and sets
    isCheckedByTeacher = true, checkedBy = the reviewer, checkedAt = now;
    after that, whatever start, save-answer, submit, grade and approve
    calls follow, the submission is still stored with
    isCheckedByTeacher = true. *)
Theorem C7_approve_review now id teacherId db submission assessment :
  wf_db db = true ->
  findSubmission db id = Some submission ->
  sStatus submission = COMPLETED ->
  findAssessment db (sAssessmentId submission) = Some assessment ->
  (forall a, In a (answersOf db id) -> findQuestion db (anQuestionId a) <> None) ->
  (fst (approveReview now id teacherId db) = Err GradingIncomplete
   <-> exists a, In a (answersOf db id) /\ awaitsGrading db a) /\
  ((~ exists a, In a (answersOf db id) /\ awaitsGrading db a) ->
   exists r db',
     approveReview now id teacherId db = (Ok r, db') /\
     (exists s, findSubmission db' id = Some s /\
                sIsCheckedByTeacher s = true /\
                sCheckedBy s = Some teacherId /\
                sCheckedAt s = Some now) /\
     forall ops,
       (exists s, findSubmission (run ops db') id = Some s) /\
       (forall s, In s (submissions (run ops db')) -> sId s = id ->
                  sIsCheckedByTeacher s = true)).
Proof.
  intros Hwf Hs Hst Ha Hrefs.
  pose proof (find_some _ _ Hs) as [Hin Hk]. apply Z.eqb_eq in Hk.
  destruct (ungradedAnswers_resolves db (answersOf db id) Hrefs) as [ungraded Hu].
  pose proof (ungradedAnswers_spec db _ _ Hu) as Hspec.
  assert (Hrun : approveReview now id teacherId db =
                 if 0 <? Z.of_nat (List.length ungraded)
                 then (Err GradingIncomplete, db)
                 else (Ok (mkApproveResponse (sId submission) now
                             (sObtainedMarks submission) (sTotalMarks submission)
                             (sPercentage submission) (sIsPassed submission)),
                       updateSubmission db id (approved teacherId now))).
  { unfold approveReview. rewrite Hs, Ha, Hk, Hu, Hst. reflexivity. }
  assert (Hlen : (0 <? Z.of_nat (List.length ungraded)) = true <-> ungraded <> []).
  { destruct ungraded as [|u ungraded].
    - cbn. split; [discriminate|congruence].
    - split; [discriminate|]. intros _. apply Z.ltb_lt. cbn [List.length]. lia. }
  split.
  - rewrite Hrun, <- Hspec, <- Hlen.
    destruct (0 <? Z.of_nat (List.length ungraded)); cbn [fst];
      split; congruence.
  - intros Hnone. rewrite Hrun.
    destruct (0 <? Z.of_nat (List.length ungraded)) eqn:Hl.
    { exfalso. apply Hnone, Hspec, Hlen. reflexivity. }
    do 2 eexists. split; [reflexivity|].
    assert (Hfound : findSubmission (updateSubmission db id (approved teacherId now)) id
                     = Some (approved teacherId now submission)).
    { unfold findSubmission, updateSubmission. cbn [submissions set_submissions].
      rewrite find_map_stable.
      - fold (findSubmission db id). rewrite Hs. cbn [option_map].
        apply Z.eqb_eq in Hk. now rewrite Hk.
      - intros x. cbn beta. destruct (sId x =? id) eqn:E; [cbn [approved sId]|]; exact E. }
    assert (Happ : approvedRows (updateSubmission db id (approved teacherId now)) id).
    { split.
      - exists (approved teacherId now submission). split; [|exact Hk].
        apply find_some in Hfound. tauto.
      - intros s' Hin' Hid'. apply updateSubmission_rows in Hin' as [s [Hsin ->]].
        destruct (sId s =? id) eqn:He; [|apply Z.eqb_neq in He; contradiction].
        apply Z.eqb_eq in He.
        assert (s = submission) as -> by (eapply findSubmission_unique; eauto).
        now cbn. }
    split.
    + exists (approved teacherId now submission). now cbn.
    + intros ops. pose proof (run_keeps_approved ops _ _ Happ) as [[s [Hsin Hsid]] Hall].
      split.
      * destruct (findSubmission (run ops (updateSubmission db id (approved teacherId now))) id)
          as [x|] eqn:Hf; [eauto|].
        unfold findSubmission in Hf. eapply find_none in Hf; [|exact Hsin].
        apply Z.eqb_neq in Hf. contradiction.
      * intros x Hx Hxid. now apply Hall.
Qed.

(** The text answer blocks the approval until it is graded; once approved,
    a later grade and a stale submit leave the approval in place. *)
Lemma C7_approve_review_witness :
  fst (approveReview 6000 1 99 submittedDb) = Err GradingIncomplete /\
  exists r db',
    approveReview 6000 1 99 gradedDb = (Ok r, db') /\
    forall s, In s (submissions (run [GradeAnswer 2 1; Submit 7000 1 1 7] db')) ->
              sId s = 1 -> sIsCheckedByTeacher s = true.
Proof.
  split.
  - apply (C7_approve_review 6000 1 99 submittedDb
             (mkSubmission 1 1 7 1000 (Some 5000) COMPLETED 10 5 (Pct 5000) true 1
                (Some 4) false None None)
             (mkAssessment 1 "Quiz" None 1 None 10 5 2 true true None None));
      try reflexivity.
    + intros a Ha. vm_compute in Ha. destruct Ha as [<-|[<-|[]]]; discriminate.
    + exists (mkAnswer 2 1 12 None (Some "because"%string) false 0 None).
      split; [vm_compute; tauto|].
      exists (mkQuestion 12 1 "Explain" LONG_ANSWER 5 2 true None None).
      repeat split. discriminate.
  - destruct (C7_approve_review 6000 1 99 gradedDb
                (mkSubmission 1 1 7 1000 (Some 5000) COMPLETED 10 10 (Pct 10000) true 1
                   (Some 4) false None None)
                (mkAssessment 1 "Quiz" None 1 None 10 5 2 true true None None))
      as [_ Hok]; try reflexivity.
    + intros a Ha. vm_compute in Ha. destruct Ha as [<-|[<-|[]]]; discriminate.
    + destruct Hok as (r & db' & Hrun & _ & Hkeep).
      * intros [a [Ha (q & Hq & Hft & Htx & Hm)]]. vm_compute in Ha.
        destruct Ha as [<-|[<-|[]]]; vm_compute in Hm; discriminate.
      * exists r, db'. split; [exact Hrun|]. apply Hkeep.
Defined.

(** ** Scores after the approval *)

Lemma findSubmission_present db id s :
  In s (submissions db) -> sId s = id -> exists x, findSubmission db id = Some x.
Proof.
  intros Hin Hid. destruct (findSubmission db id) as [x|] eqn:Hf; [eauto|].
  unfold findSubmission in Hf. eapply find_none in Hf; [|exact Hin].
  apply Z.eqb_neq in Hf. contradiction.
Qed.

Lemma findSubmission_update db target f id :
  (forall s, sId (f s) = sId s) ->
  findSubmission (updateSubmission db target f) id
  = option_map (fun s => if sId s =? target then f s else s) (findSubmission db id).
Proof.
  intros Hid. unfold findSubmission, updateSubmission. cbn [submissions set_submissions].
  apply find_map_stable. intros x. cbn beta.
  destruct (sId x =? target); [now rewrite Hid|reflexivity].
Qed.

Lemma exec_keeps_scores op db id :
  approvedRows db id -> isGradeAnswer op = false ->
  option_map scores (findSubmission (exec op db) id)
  = option_map scores (findSubmission db id).
Proof.
  intros [[s0 [Hin0 Hs0]] Hall] Hop.
  destruct (findSubmission_present db id s0 Hin0 Hs0) as [x Hx].
  pose proof (find_some _ _ Hx) as [Hxin Hxid]. apply Z.eqb_eq in Hxid.
  destruct op as [shuffle now aid uid|uid body|now aid sid uid|aid m|now sid tid];
    cbn [exec]; [| | |discriminate|].
  - destruct (startAttempt_store shuffle now aid uid db) as [->|[s [_ [_ ->]]]];
      [reflexivity|].
    unfold findSubmission in *. cbn [submissions set_submissions].
    now rewrite (find_app_found _ _ [s] _ Hx), Hx.
  - unfold findSubmission. now rewrite saveAnswer_submissions.
  - destruct (submit_store now aid sid uid db)
      as [->|(s & m & p & b & t & Hin & Hsid & Hst & ->)]; [reflexivity|].
    rewrite findSubmission_update by reflexivity. rewrite Hx. cbn [option_map].
    destruct (sId x =? sid) eqn:He; [|reflexivity].
    exfalso. apply Z.eqb_eq in He.
    destruct (Hall s Hin) as [_ Hc]; congruence.
  - destruct (approveReview_store now sid tid db) as [->| ->]; [reflexivity|].
    rewrite findSubmission_update by reflexivity. rewrite Hx. cbn [option_map].
    now destruct (sId x =? sid).
Qed.

(** C3, as amended.  For a submission that is approved (and so completed),
    start, save-answer, submit and approve-review calls leave obtainedMarks,
    percentage and isPassed as they are.  The grade handler does not look at
    the approval: it keeps isCheckedByTeacher, and a successful call on one
    of the submission's answers overwrites the three fields with the
    recomputed aggregate. *)
Theorem C3_scores_after_approval db id :
  approvedRows db id ->
  (forall op, isGradeAnswer op = false ->
     option_map scores (findSubmission (exec op db) id)
     = option_map scores (findSubmission db id)) /\
  (forall aid marks, approvedRows (exec (GradeAnswer aid marks) db) id) /\
  (forall aid marks r db' answer,
     gradeAnswer aid marks db = (Ok r, db') ->
     findAnswer db aid = Some answer -> anSubmissionId answer = id ->
     exists s, findSubmission db' id = Some s /\
               scores s = (grNewTotalScore r, grNewPercentage r, grIsPassed r) /\
               sIsCheckedByTeacher s = true).
Proof.
  intros Happ. split; [|split].
  - intros op Hop. now apply exec_keeps_scores.
  - intros aid marks. now apply exec_keeps_approved.
  - intros aid marks r db' answer Hrun Ha Hid.
    apply gradeAnswer_inv in Hrun as (a & q & asm & Ha' & _ & _ & _ & ->).
    assert (a = answer) as -> by congruence.
    destruct Happ as [[s0 [Hin0 Hs0]] Hall].
    destruct (findSubmission_present db id s0 Hin0 Hs0) as [x Hx].
    pose proof (find_some _ _ Hx) as [Hxin Hxid].
    rewrite findSubmission_update by reflexivity.
    replace (findSubmission (updateAnswer db aid _) id) with (Some x) by (symmetry; exact Hx).
    cbn [option_map]. rewrite Hid, Hxid.
    eexists. split; [reflexivity|]. split; [reflexivity|].
    cbn. apply Z.eqb_eq in Hxid. now apply Hall.
Qed.

Lemma approvedDb_rows : approvedRows approvedDb 1.
Proof.
  split.
  - eexists. split; [left; reflexivity|reflexivity].
  - intros s [<-|[]] _. now split.
Qed.

(** On the approved sample submission a stale submit changes nothing, and
    regrading the text to 1 mark moves the aggregate from 10 to 6. *)
Lemma C3_scores_after_approval_witness :
  option_map scores (findSubmission (exec (Submit 7000 1 1 7) approvedDb) 1)
    = Some (10, Pct 10000, true) /\
  exists s, findSubmission (snd (gradeAnswer 2 1 approvedDb)) 1 = Some s /\
            scores s = (6, Pct 6000, true) /\ sIsCheckedByTeacher s = true.
Proof.
  destruct (C3_scores_after_approval approvedDb 1 approvedDb_rows) as (Hkeep & _ & Hgrade).
  split.
  - rewrite (Hkeep (Submit 7000 1 1 7) eq_refl). reflexivity.
  - exact (Hgrade 2 1 (mkGradeResponse 1 5 6 (Pct 6000) true)
             (snd (gradeAnswer 2 1 approvedDb))
             (mkAnswer 2 1 12 None (Some "because"%string) true 5 None)
             eq_refl eq_refl eq_refl).
Defined.

(** C3 as stated fails: the review gate approves the sample submission with
    10 marks, and a later grade call on its text answer brings the stored
    aggregate to 6 marks and 60 percent. *)
Lemma C3_grade_after_approval :
  (exists r, approveReview 6000 1 99 gradedDb = (Ok r, approvedDb)) /\
  map (fun s => (sId s, sIsCheckedByTeacher s, scores s)) (submissions approvedDb)
    = [(1, true, (10, Pct 10000, true))] /\
  exists r db',
    gradeAnswer 2 1 approvedDb = (Ok r, db') /\
    map (fun s => (sId s, sIsCheckedByTeacher s, scores s)) (submissions db')
      = [(1, true, (6, Pct 6000, true))].
Proof.
  split; [eexists; reflexivity|]. split; [reflexivity|].
  do 2 eexists. split; reflexivity.
Qed.

(** ** Sorting keeps the rows *)

Section SortFacts.
Context {A : Type}.
Variable before : A -> A -> bool.

Lemma insertSorted_In (x y : A) (l : list A) :
  In y (insertSorted before x l) <-> y = x \/ In y l.
Proof.
  induction l as [|z l IH]; cbn [insertSorted].
  - simpl. intuition.
  - destruct (before z x); simpl; rewrite ?IH; intuition.
Qed.

Lemma fold_insert_In (y : A) (l acc : list A) :
  In y (fold_left (fun acc x => insertSorted before x acc) l acc) <-> In y l \/ In y acc.
Proof.
  revert acc. induction l as [|x l IH]; intros acc; cbn [fold_left].
  - simpl. intuition.
  - rewrite IH, insertSorted_In. simpl. intuition.
Qed.

Lemma sortBy_In (y : A) (l : list A) : In y (sortBy before l) <-> In y l.
Proof. unfold sortBy. rewrite fold_insert_In. simpl. intuition. Qed.

Variable g : A -> A.
Hypothesis before_g : forall x y, before (g x) (g y) = before x y.

Lemma insertSorted_map (x : A) (l : list A) :
  insertSorted before (g x) (map g l) = map g (insertSorted before x l).
Proof.
  induction l as [|z l IH]; cbn [map insertSorted]; [reflexivity|].
  rewrite before_g. destruct (before z x); cbn [map]; now rewrite ?IH.
Qed.

Lemma fold_insert_map (l acc : list A) :
  fold_left (fun acc x => insertSorted before x acc) (map g l) (map g acc)
  = map g (fold_left (fun acc x => insertSorted before x acc) l acc).
Proof.
  revert acc. induction l as [|x l IH]; intros acc; cbn [map fold_left]; [reflexivity|].
  now rewrite insertSorted_map, IH.
Qed.

Lemma sortBy_map (l : list A) : sortBy before (map g l) = map g (sortBy before l).
Proof. unfold sortBy. exact (fold_insert_map l []). Qed.
End SortFacts.

(** ** Student result queries *)






(** ** The queries do not read what is withheld *)

Lemma withheld_frame s :
  sId (withheld s) = sId s /\ sUserId (withheld s) = sUserId s /\
  sStatus (withheld s) = sStatus s /\ sEndTime (withheld s) = sEndTime s /\
  sAssessmentId (withheld s) = sAssessmentId s /\
  sIsCheckedByTeacher (withheld s) = sIsCheckedByTeacher s.
Proof. unfold withheld. destruct (pendingReview s); cbn; auto 10. Qed.











(** ** Attempt manager *)

Lemma startAttempt_inv shuffle now id userId db r db' :
  startAttempt shuffle now id userId db = (Ok r, db') ->
  exists assessment,
    find (fun a => (aId a =? id) && aIsActive a) (assessments db) = Some assessment /\
    isEnrolled db userId (aCourseId assessment) = true /\
    notStartedYet assessment now = false /\ hasEnded assessment now = false /\
    existingAttempts db id userId < aAttempts assessment /\
    ((exists submission,
        inProgressSubmission db id userId = Some submission /\ db' = db /\
        r = startResponse db assessment submission (activeQuestions db assessment))
     \/
     (exists submission,
        inProgressSubmission db id userId = None /\
        0 < aTotalMarks assessment /\
        createSubmission db now id userId (aTotalMarks assessment)
          (existingAttempts db id userId + 1) = Some (submission, db') /\
        r = startResponse db assessment submission
              (if aRandomizeQuestions assessment
               then shuffle (activeQuestions db assessment)
               else activeQuestions db assessment))).
Proof.
  unfold startAttempt.
  destruct (find _ (assessments db)) as [a|] eqn:Ha; [|discriminate].
  destruct (isEnrolled db userId (aCourseId a)) eqn:He; cbn [negb]; [|discriminate].
  destruct (notStartedYet a now) eqn:Hn; [discriminate|].
  destruct (hasEnded a now) eqn:Hd; [discriminate|].
  destruct (existingAttempts db id userId >=? aAttempts a) eqn:Hc; [discriminate|].
  assert (existingAttempts db id userId < aAttempts a)
    by (rewrite Z.geb_leb in Hc; apply Z.leb_gt in Hc; lia).
  destruct (inProgressSubmission db id userId) as [s|] eqn:Hp.
  - intros H'. inversion H'; subst. exists a.
    do 5 (split; [assumption || reflexivity|]). left. exists s. auto.
  - destruct (aTotalMarks a <=? 0) eqn:Ht; [discriminate|]. apply Z.leb_gt in Ht.
    destruct (createSubmission _ _ _ _ _ _) as [[s d]|] eqn:Hcr; [|discriminate].
    intros H'. inversion H'; subst. exists a.
    do 5 (split; [assumption || reflexivity|]). right. exists s. auto.
Qed.

Lemma startAttempt_resume shuffle now id userId db assessment submission :
  find (fun a => (aId a =? id) && aIsActive a) (assessments db) = Some assessment ->
  isEnrolled db userId (aCourseId assessment) = true ->
  notStartedYet assessment now = false -> hasEnded assessment now = false ->
  existingAttempts db id userId < aAttempts assessment ->
  inProgressSubmission db id userId = Some submission ->
  startAttempt shuffle now id userId db =
    (Ok (startResponse db assessment submission (activeQuestions db assessment)), db).
Proof.
  intros Ha He Hn Hd Hc Hp. unfold startAttempt. rewrite Ha, He, Hn, Hd, Hp. cbn [negb].
  assert ((existingAttempts db id userId >=? aAttempts assessment) = false) as ->
    by (rewrite Z.geb_leb; apply Z.leb_gt; lia).
  reflexivity.
Qed.

(** C1, as amended.  After a successful start, a second start for the same
    assessment and user, inside the time window and with the pair's
    submissions still below assessment.attempts, returns the same
    submissionId and leaves the store as it is (no new submission).  It
    returns the active questions in ascending order, without shuffling, so
    every resume shows the same order; this is the order of the first call
    exactly when the first call was a resume itself, or randomizeQuestions
    is off, or the shuffle left the order shown alone. *)
Theorem C1_start_then_resume shuffle1 shuffle2 now1 now2 id userId db assessment r1 db1 :
  find (fun a => (aId a =? id) && aIsActive a) (assessments db) = Some assessment ->
  startAttempt shuffle1 now1 id userId db = (Ok r1, db1) ->
  notStartedYet assessment now2 = false -> hasEnded assessment now2 = false ->
  existingAttempts db1 id userId < aAttempts assessment ->
  exists r2,
    startAttempt shuffle2 now2 id userId db1 = (Ok r2, db1) /\
    srSubmissionId r2 = srSubmissionId r1 /\
    srQuestions r2 = formattedQuestions db1 (activeQuestions db1 assessment) /\
    (srQuestions r2 = srQuestions r1 <->
     db1 = db \/ aRandomizeQuestions assessment = false \/
     formattedQuestions db (shuffle1 (activeQuestions db assessment))
     = formattedQuestions db (activeQuestions db assessment)).
Proof.
  intros Ha Hrun Hn2 Hd2 Hc2.
  apply startAttempt_inv in Hrun
    as (a & Ha' & He & _ & _ & _ & [(s & Hp & -> & ->)|(s & Hp & Ht & Hcr & ->)]).
  - assert (a = assessment) as -> by congruence.
    rewrite (startAttempt_resume shuffle2 now2 id userId db assessment s Ha He Hn2 Hd2 Hc2 Hp).
    eexists. split; [reflexivity|]. repeat split. now left.
  - assert (a = assessment) as -> by congruence.
    apply createSubmission_inv in Hcr as (Hs & -> & _).
    assert (Hp1 : inProgressSubmission (set_submissions db (submissions db ++ [s])) id userId
                  = Some s).
    { unfold inProgressSubmission in *. cbn [submissions set_submissions].
      rewrite (find_app_missing _ _ _ Hp). rewrite Hs. cbn.
      unfold sameAttemptPair. cbn. now rewrite !Z.eqb_refl. }
    rewrite (startAttempt_resume shuffle2 now2 id userId
               (set_submissions db (submissions db ++ [s])) assessment s
               Ha He Hn2 Hd2 Hc2 Hp1).
    eexists. split; [reflexivity|]. split; [reflexivity|]. split; [reflexivity|].
    cbn [srQuestions startResponse].
    change (formattedQuestions (set_submissions db (submissions db ++ [s]))
              (activeQuestions (set_submissions db (submissions db ++ [s])) assessment))
      with (formattedQuestions db (activeQuestions db assessment)).
    change (formattedQuestions (set_submissions db (submissions db ++ [s])))
      with (formattedQuestions db).
    split.
    + intros Heq. right. destruct (aRandomizeQuestions assessment); [right|now left].
      now symmetry.
    + intros [Hdb|[Hr|Hsh]].
      * exfalso. apply (f_equal (fun d => List.length (submissions d))) in Hdb.
        cbn [submissions set_submissions] in Hdb. rewrite length_app in Hdb.
        cbn [List.length] in Hdb. lia.
      * now rewrite Hr.
      * destruct (aRandomizeQuestions assessment); [now symmetry|reflexivity].
Qed.

(** Assessment 2 is not shuffled; with its limit lifted to two attempts the
    second start resumes submission 1 with the questions as first shown. *)
Lemma C1_start_then_resume_witness :
  let db :=
    mkDB (courses quizDb)
         [mkAssessment 2 "Final" None 1 None 50 25 2 true false None None]
         (questions quizDb) (options quizDb) (enrollments quizDb) [] [] in
  exists r1 db1 r2,
    startAttempt reversed 1000 2 7 db = (Ok r1, db1) /\
    startAttempt reversed 2000 2 7 db1 = (Ok r2, db1) /\
    srSubmissionId r2 = 1 /\ srSubmissionId r1 = 1 /\
    srQuestions r2 = srQuestions r1.
Proof.
  intros db.
  destruct (startAttempt reversed 1000 2 7 db) as [o db1] eqn:Hrun.
  vm_compute in Hrun. inversion Hrun; subst o db1. clear Hrun.
  match goal with |- context [(Ok ?r, ?d)] => set (r1 := r); set (db1 := d) end.
  destruct (C1_start_then_resume reversed reversed 1000 2000 2 7 db
              (mkAssessment 2 "Final" None 1 None 50 25 2 true false None None) r1 db1)
    as (r2 & Hrun2 & Hid & _ & Hq); try reflexivity.
  exists r1, db1, r2. split; [reflexivity|]. split; [exact Hrun2|].
  split; [rewrite Hid; reflexivity|]. split; [reflexivity|].
  apply Hq. right. left. reflexivity.
Defined.

(** C1 as stated fails twice over.  With shuffling on, the first call shows
    the questions in the shuffled order 12, 11 and the resuming call in the
    stored order 11, 12.  And for assessment 2, limited to one attempt, the
    second call is refused although submission 1 is still in progress. *)
Lemma C1_resume_not_idempotent :
  (exists r1 r2,
     startAttempt reversed 1000 1 7 quizDb = (Ok r1, startedDb) /\
     startAttempt reversed 2000 1 7 startedDb = (Ok r2, startedDb) /\
     srSubmissionId r1 = srSubmissionId r2 /\
     map fqId (srQuestions r1) = [12; 11] /\
     map fqId (srQuestions r2) = [11; 12]) /\
  (exists r1 db1 s,
     startAttempt reversed 1000 2 7 quizDb = (Ok r1, db1) /\
     inProgressSubmission db1 2 7 = Some s /\ sId s = srSubmissionId r1 /\
     startAttempt reversed 2000 2 7 db1 = (Err AttemptsExceeded, db1)).
Proof.
  split.
  - do 2 eexists. repeat split.
  - do 3 eexists. repeat split.
Qed.

(** ** The attempt limit *)

Lemma startable_found db assessment now id userId :
  startable db assessment now id userId ->
  find (fun a => (aId a =? id) && aIsActive a) (assessments db) = Some assessment.
Proof.
  intros (Ha & Hact & _). eapply find_narrow; [exact Ha| |].
  - apply find_some in Ha as [_ Hid]. now rewrite Hid, Hact.
  - intros y Hy. now apply andb_true_iff in Hy as [Hy _].
Qed.

Lemma startAttempt_guard shuffle now id userId db assessment :
  startable db assessment now id userId ->
  (fst (startAttempt shuffle now id userId db) = Err AttemptsExceeded
   <-> aAttempts assessment <= existingAttempts db id userId) /\
  (aAttempts assessment <= existingAttempts db id userId ->
   startAttempt shuffle now id userId db = (Err AttemptsExceeded, db)).
Proof.
  intros Hst. pose proof (startable_found _ _ _ _ _ Hst) as Hf.
  destruct Hst as (_ & _ & He & Hn & Hd & Ht).
  unfold startAttempt. rewrite Hf, He, Hn, Hd. cbn [negb].
  rewrite Z.geb_leb.
  destruct (aAttempts assessment <=? existingAttempts db id userId) eqn:Hc.
  - apply Z.leb_le in Hc. cbn [fst]. tauto.
  - apply Z.leb_gt in Hc. split; [|lia]. split; [|lia].
    destruct (inProgressSubmission db id userId); [discriminate|].
    destruct (aTotalMarks assessment <=? 0); [discriminate|].
    destruct (createSubmission _ _ _ _ _ _) as [[s d]|]; discriminate.
Qed.

Lemma find_all_false {A} (p : A -> bool) (l : list A) :
  (forall x, In x l -> p x = false) -> find p l = None.
Proof.
  induction l as [|y l IH]; intros H; cbn [find]; [reflexivity|].
  rewrite (H y (or_introl eq_refl)). apply IH. intros x Hx. apply H. now right.
Qed.

Lemma existsb_all_false {A} (p : A -> bool) (l : list A) :
  (forall x, In x l -> p x = false) -> existsb p l = false.
Proof.
  induction l as [|y l IH]; intros H; cbn [existsb]; [reflexivity|].
  rewrite (H y (or_introl eq_refl)). apply IH. intros x Hx. apply H. now right.
Qed.

Lemma startable_frame db db' assessment now id userId :
  assessments db' = assessments db -> enrollments db' = enrollments db ->
  startable db assessment now id userId -> startable db' assessment now id userId.
Proof.
  intros Ha He (H1 & H2 & H3 & H4). unfold startable, findAssessment, isEnrolled in *.
  rewrite Ha, He. auto.
Qed.

(** A settled pair with a free attempt: the start creates attempt [k + 1],
    the submit closes it, and the pair is settled again. *)
Lemma attempt_step shuffle now id userId db assessment k :
  startable db assessment now id userId ->
  settled db id userId k -> k < aAttempts assessment ->
  exists db',
    attempt shuffle now id userId db = Some db' /\
    startable db' assessment now id userId /\
    settled db' id userId (k + 1).
Proof.
  intros Hst (Hcount & Hnone & Hnum) Hfree.
  pose proof (startable_found _ _ _ _ _ Hst) as Hf.
  pose proof Hst as (Ha & _ & He & Hn & Hd & Ht).
  set (new := mkSubmission (nextId (map sId (submissions db))) id userId now None
                IN_PROGRESS (aTotalMarks assessment) 0 (Pct 0) false (k + 1)
                None false None None).
  set (db1 := set_submissions db (submissions db ++ [new])).
  assert (Hcreate : createSubmission db now id userId (aTotalMarks assessment) (k + 1)
                    = Some (new, db1)).
  { unfold createSubmission. rewrite existsb_all_false; [reflexivity|].
    intros x Hx. destruct (sameAttemptPair id userId x) eqn:Hpair; [|reflexivity].
    cbn [andb]. apply Z.eqb_neq. specialize (Hnum x Hx Hpair). lia. }
  assert (Hstart : startAttempt shuffle now id userId db =
                   (Ok (startResponse db assessment new
                          (if aRandomizeQuestions assessment
                           then shuffle (activeQuestions db assessment)
                           else activeQuestions db assessment)), db1)).
  { unfold startAttempt. rewrite Hf, He, Hn, Hd, Hnone, Hcount. cbn [negb].
    assert ((k >=? aAttempts assessment) = false) as ->
      by (rewrite Z.geb_leb; apply Z.leb_gt; lia).
    assert ((aTotalMarks assessment <=? 0) = false) as -> by (apply Z.leb_gt; lia).
    now rewrite Hcreate. }
  assert (Hfresh : forall x, In x (submissions db) -> (sId x =? sId new) = false).
  { intros x Hx. apply Z.eqb_neq. apply nextId_fresh. now apply in_map. }
  assert (Hfind : find (fun s => (sId s =? sId new) && (sUserId s =? userId)
                                 && (sAssessmentId s =? id) && isInProgress (sStatus s))
                       (submissions db1) = Some new).
  { cbn [submissions set_submissions db1]. rewrite find_app_missing.
    - cbn. now rewrite !Z.eqb_refl.
    - apply find_all_false. intros x Hx. now rewrite (Hfresh x Hx). }
  assert (Hnz : sId new <> 0)
    by (pose proof (nextId_positive (map sId (submissions db))); cbn; lia).
  pose proof (submit_ok now id (sId new) userId db1 new assessment Hnz Hfind Ha Ht) as Hsub.
  unfold attempt. rewrite Hstart. cbn [srSubmissionId startResponse].
  rewrite Hsub. eexists. split; [reflexivity|]. clear Hsub Hstart.
  split; [eapply startable_frame; [| |exact Hst]; reflexivity|].
  unfold settled, existingAttempts, inProgressSubmission, updateSubmission.
  cbn [submissions set_submissions db1]. repeat split.
  - rewrite filter_map_stable by (intros x; now destruct (sId x =? sId new)).
    rewrite length_map, filter_app, length_app. unfold existingAttempts in Hcount.
    cbn [filter]. unfold sameAttemptPair at 2. cbn [new sAssessmentId sUserId].
    rewrite !Z.eqb_refl. cbn [andb List.length]. lia.
  - apply find_all_false. intros x Hx. apply in_map_iff in Hx as [y [<- Hy]].
    apply in_app_or in Hy as [Hy|[<-|[]]].
    + rewrite (Hfresh y Hy). unfold inProgressSubmission in Hnone.
      exact (find_none _ _ Hnone y Hy).
    + rewrite Z.eqb_refl. cbn. now rewrite andb_false_r.
  - intros x Hx Hpair. apply in_map_iff in Hx as [y [<- Hy]].
    apply in_app_or in Hy as [Hy|[<-|[]]].
    + rewrite (Hfresh y Hy) in *. specialize (Hnum y Hy Hpair). lia.
    + rewrite Z.eqb_refl. cbn. lia.
Qed.

Lemma attempts_run shuffle now id userId assessment n :
  forall db k,
    startable db assessment now id userId ->
    settled db id userId k -> k + Z.of_nat n <= aAttempts assessment ->
    exists db',
      attempts n shuffle now id userId db = Some db' /\
      startable db' assessment now id userId /\
      settled db' id userId (k + Z.of_nat n).
Proof.
  induction n as [|n IH]; intros db k Hst Hset Hle.
  - exists db. cbn [attempts]. rewrite Z.add_0_r. auto.
  - destruct (attempt_step shuffle now id userId db assessment k Hst Hset)
      as (db1 & Hrun & Hst1 & Hset1); [lia|].
    destruct (IH db1 (k + 1) Hst1 Hset1) as (db' & Hruns & Hst' & Hset'); [lia|].
    exists db'. cbn [attempts]. rewrite Hrun.
    replace (k + Z.of_nat (S n)) with (k + 1 + Z.of_nat n) by lia. auto.
Qed.

Lemma settled_initially db id userId :
  existingAttempts db id userId = 0 -> settled db id userId 0.
Proof.
  unfold existingAttempts. intros H.
  assert (Hnil : filter (sameAttemptPair id userId) (submissions db) = [])
    by (destruct (filter _ _); [reflexivity|cbn [List.length] in H; lia]).
  assert (Hno : forall x, In x (submissions db) -> sameAttemptPair id userId x = false).
  { intros x Hx. destruct (sameAttemptPair id userId x) eqn:Hp; [|reflexivity].
    assert (In x (filter (sameAttemptPair id userId) (submissions db)))
      by (apply filter_In; auto).
    rewrite Hnil in *. contradiction. }
  unfold settled, existingAttempts, inProgressSubmission. rewrite Hnil. repeat split.
  - apply find_all_false. intros x Hx. now rewrite (Hno x Hx).
  - intros s Hs Hp. rewrite (Hno s Hs) in Hp. discriminate.
Qed.

(** C2, as amended.  The start handler counts every submission of the
    (assessment, user) pair, whatever its status, and answers
    AttemptsExceeded exactly when that count has reached
    assessment.attempts.  When the user has no submission yet and every
    started attempt is submitted before the next start, the first N =
    attempts starts succeed, each creating a new submission, and the start
    after them fails with AttemptsExceeded. *)
Theorem C2_attempt_limit shuffle now id userId db assessment :
  startable db assessment now id userId ->
  (fst (startAttempt shuffle now id userId db) = Err AttemptsExceeded
   <-> aAttempts assessment <= existingAttempts db id userId) /\
  (existingAttempts db id userId = 0 ->
   exists dbN,
     attempts (Z.to_nat (aAttempts assessment)) shuffle now id userId db = Some dbN /\
     existingAttempts dbN id userId = Z.max 0 (aAttempts assessment) /\
     startAttempt shuffle now id userId dbN = (Err AttemptsExceeded, dbN)).
Proof.
  intros Hst. split; [now apply startAttempt_guard|].
  intros Hzero.
  destruct (Z.le_gt_cases 0 (aAttempts assessment)) as [Hpos|Hneg].
  - destruct (attempts_run shuffle now id userId assessment
                (Z.to_nat (aAttempts assessment)) db 0 Hst (settled_initially _ _ _ Hzero))
      as (dbN & Hrun & HstN & (Hcount & _)); [lia|].
    exists dbN. split; [exact Hrun|].
    assert (Hn : existingAttempts dbN id userId = Z.max 0 (aAttempts assessment))
      by (rewrite Hcount; lia).
    split; [exact Hn|].
    apply (startAttempt_guard shuffle now id userId dbN assessment HstN). lia.
  - exists db. replace (Z.to_nat (aAttempts assessment)) with 0%nat by lia.
    split; [reflexivity|]. split; [lia|].
    apply (startAttempt_guard shuffle now id userId db assessment Hst). lia.
Qed.

Lemma quizDb_startable : startable quizDb
  (mkAssessment 1 "Quiz" None 1 None 10 5 2 true true None None) 1000 1 7.
Proof. repeat split. Qed.

(** Assessment 1 allows two attempts: user 7 takes two, and the third start
    is refused. *)
Lemma C2_attempt_limit_witness :
  exists db2,
    attempts 2 reversed 1000 1 7 quizDb = Some db2 /\
    map (fun s => (sAttemptNumber s, sStatus s)) (submissions db2)
      = [(1, COMPLETED); (2, COMPLETED)] /\
    startAttempt reversed 1000 1 7 db2 = (Err AttemptsExceeded, db2).
Proof.
  destruct (C2_attempt_limit reversed 1000 1 7 quizDb _ quizDb_startable) as [_ Hseq].
  destruct (Hseq eq_refl) as (db2 & Hrun & _ & Hfail).
  exists db2. split; [exact Hrun|]. split; [|exact Hfail].
  vm_compute in Hrun. now inversion Hrun.
Defined.

(** C2 as stated fails: assessment 1 allows two attempts, yet a third
    consecutive start succeeds, since the second and the third resume the
    submission the first one created. *)
Lemma C2_third_start_succeeds :
  map aAttempts (filter (fun a => aId a =? 1) (assessments quizDb)) = [2] /\
  exists r1 r2 r3,
    startAttempt reversed 1000 1 7 quizDb = (Ok r1, startedDb) /\
    startAttempt reversed 2000 1 7 startedDb = (Ok r2, startedDb) /\
    startAttempt reversed 3000 1 7 startedDb = (Ok r3, startedDb) /\
    existingAttempts startedDb 1 7 = 1.
Proof.
  split; [reflexivity|]. do 3 eexists. repeat split.
Qed.

(** * Further properties of the handlers *)

(** ** The order of the questions shown *)

Section SortByKey.
Context {A : Type}.
Variable key : A -> Z.

Let before := fun a b : A => key a <=? key b.

Lemma insertSorted_perm (x : A) (l : list A) :
  Permutation (insertSorted before x l) (x :: l).
Proof.
  induction l as [|y l IH]; cbn [insertSorted]; [reflexivity|].
  destruct (before y x); [|reflexivity].
  rewrite IH. apply perm_swap.
Qed.

Lemma fold_insert_perm (l acc : list A) :
  Permutation (fold_left (fun acc x => insertSorted before x acc) l acc) (l ++ acc).
Proof.
  revert acc. induction l as [|x l IH]; intros acc; cbn [fold_left app]; [reflexivity|].
  rewrite IH, insertSorted_perm. apply Permutation_sym, Permutation_middle.
Qed.

Lemma sortBy_perm (l : list A) : Permutation (sortBy before l) l.
Proof. unfold sortBy. rewrite fold_insert_perm. now rewrite app_nil_r. Qed.

Lemma insertSorted_sorted (x : A) (l : list A) :
  StronglySorted (fun a b => key a <= key b) l ->
  StronglySorted (fun a b => key a <= key b) (insertSorted before x l).
Proof.
  induction l as [|y l IH]; intros Hs; cbn [insertSorted].
  - repeat constructor.
  - apply StronglySorted_inv in Hs as [Hl Hy]. unfold before at 1.
    destruct (key y <=? key x) eqn:Hc.
    + apply Z.leb_le in Hc. constructor; [now apply IH|].
      rewrite Forall_forall in *. intros z Hz.
      apply insertSorted_In in Hz as [->|Hz]; auto.
    + apply Z.leb_gt in Hc. constructor; [now constructor|].
      constructor; [lia|]. rewrite Forall_forall in *. intros z Hz.
      specialize (Hy z Hz). lia.
Qed.

Lemma fold_insert_sorted (l acc : list A) :
  StronglySorted (fun a b => key a <= key b) acc ->
  StronglySorted (fun a b => key a <= key b)
    (fold_left (fun acc x => insertSorted before x acc) l acc).
Proof.
  revert acc. induction l as [|x l IH]; intros acc Hs; cbn [fold_left]; [exact Hs|].
  apply IH. now apply insertSorted_sorted.
Qed.

Lemma sortBy_sorted (l : list A) :
  StronglySorted (fun a b => key a <= key b) (sortBy before l).
Proof. unfold sortBy. apply fold_insert_sorted. constructor. Qed.
End SortByKey.

Lemma activeQuestions_perm db assessment :
  Permutation (activeQuestions db assessment)
    (filter (fun q => (qAssessmentId q =? aId assessment) && qIsActive q) (questions db)).
Proof. unfold activeQuestions. apply (sortBy_perm qOrder). Qed.

Lemma activeQuestions_sorted db assessment :
  StronglySorted (fun a b => qOrder a <= qOrder b) (activeQuestions db assessment).
Proof. unfold activeQuestions. apply (sortBy_sorted qOrder). Qed.

(** X1. A successful start shows every active question of the assessment
    exactly once and no other question: the identifiers returned are a
    rearrangement of those of the assessment's active questions (the random
    sort rearranging its input).  Unless the call creates a submission for
    a shuffled assessment, they come in ascending [order]. *)
Theorem start_shows_active_questions shuffle now id userId db r db' :
  (forall l, Permutation (shuffle l) l) ->
  startAttempt shuffle now id userId db = (Ok r, db') ->
  exists assessment qs,
    find (fun a => (aId a =? id) && aIsActive a) (assessments db) = Some assessment /\
    srQuestions r = formattedQuestions db qs /\
    map fqId (srQuestions r) = map qId qs /\
    Permutation qs
      (filter (fun q => (qAssessmentId q =? id) && qIsActive q) (questions db)) /\
    (aRandomizeQuestions assessment = false \/ db' = db ->
     StronglySorted (fun a b => qOrder a <= qOrder b) qs).
Proof.
  intros Hsh Hrun.
  apply startAttempt_inv in Hrun
    as (a & Ha & _ & _ & _ & _ & [(s & _ & -> & ->)|(s & _ & _ & Hcr & ->)]).
  - pose proof (find_some _ _ Ha) as [_ Hid]. apply andb_true_iff in Hid as [Hid _].
    apply Z.eqb_eq in Hid.
    exists a, (activeQuestions db a). split; [exact Ha|]. split; [reflexivity|].
    split; [cbn; unfold formattedQuestions; now rewrite map_map|].
    split; [rewrite <- Hid; apply activeQuestions_perm|].
    intros _. apply activeQuestions_sorted.
  - pose proof (find_some _ _ Ha) as [_ Hid]. apply andb_true_iff in Hid as [Hid _].
    apply Z.eqb_eq in Hid.
    exists a, (if aRandomizeQuestions a then shuffle (activeQuestions db a)
               else activeQuestions db a).
    split; [exact Ha|]. split; [reflexivity|].
    split; [cbn; unfold formattedQuestions; now rewrite map_map|].
    split.
    + rewrite <- Hid. destruct (aRandomizeQuestions a);
        [rewrite Hsh|]; apply activeQuestions_perm.
    + intros [Hr|Hdb].
      * rewrite Hr. apply activeQuestions_sorted.
      * exfalso. apply createSubmission_inv in Hcr as (_ & Hdb' & _).
        rewrite Hdb' in Hdb. apply (f_equal submissions) in Hdb.
        cbn in Hdb. apply (f_equal (@List.length _)) in Hdb.
        rewrite length_app in Hdb. cbn in Hdb. lia.
Qed.

(** On the sample store the shuffled first start shows 12, 11: both active
    questions of assessment 1 and not question 21. *)
Lemma start_shows_active_questions_witness :
  exists r db', startAttempt reversed 1000 1 7 quizDb = (Ok r, db') /\
    Permutation (map fqId (srQuestions r)) [11; 12].
Proof.
  destruct (startAttempt reversed 1000 1 7 quizDb) as [o db'] eqn:Hrun.
  assert (Hok : exists r, o = Ok r) by (vm_compute in Hrun; inversion Hrun; eauto).
  destruct Hok as [r ->]. exists r, db'. split; [reflexivity|].
  destruct (start_shows_active_questions reversed 1000 1 7 quizDb r db')
    as (a & qs & _ & _ & Hids & Hperm & _).
  - intros l. unfold reversed. apply Permutation_sym, Permutation_rev.
  - exact Hrun.
  - rewrite Hids. apply (Permutation_map qId) in Hperm. exact Hperm.
Defined.

(** ** Saving twice *)

Lemma rewritten_twice body c m a :
  rewritten body c m (rewritten body c m a) = rewritten body c m a.
Proof.
  unfold rewritten at 1. rewrite rewritten_key. unfold rewritten.
  destruct (sameAnswerKey _ _ a) eqn:Hk; [|reflexivity].
  cbn. destruct (bSelectedOptionId body), (bTextAnswer body), (bTimeSpent body);
    reflexivity.
Qed.

Lemma upsertAnswer_again db body c m db1 :
  upsertAnswer db body c m = Some db1 -> upsertAnswer db1 body c m = Some db1.
Proof.
  intros H. pose proof (upsertAnswer_timeSpent db body c m db1 H) as Hfits.
  apply upsertAnswer_cases in H as [Href [[He ->]|[He ->]]];
    unfold upsertAnswer; cbn [options answers set_answers]; fold (options db);
    unfold optionRefOk in *; cbn [options set_answers]; rewrite Href, Hfits;
    cbn [negb].
  - assert (existsb (sameAnswerKey (bSubmissionId body) (bQuestionId body))
              (map (rewritten body c m) (answers db)) = true) as ->.
    { apply existsb_exists in He as [x [Hx Hk]]. apply existsb_exists.
      exists (rewritten body c m x). split; [now apply in_map|].
      now rewrite rewritten_key. }
    unfold set_answers. cbn. rewrite map_map.
    f_equal. f_equal. apply map_ext. intros a. apply rewritten_twice.
  - rewrite existsb_app. cbn [existsb]. unfold sameAnswerKey at 2. cbn.
    rewrite !Z.eqb_refl, orb_true_r. unfold set_answers. cbn. f_equal. f_equal.
    rewrite map_app. cbn [map]. f_equal.
    + apply map_unchanged. intros x Hx. unfold rewritten.
      now rewrite (existsb_false_all _ _ _ He Hx).
    + unfold rewritten, sameAnswerKey. cbn. rewrite !Z.eqb_refl. cbn.
      destruct (bSelectedOptionId body), (bTextAnswer body), (bTimeSpent body);
        reflexivity.
Qed.

(** X2. Saving the same answer twice is the same as saving it once: the
    second call ends as the first did and leaves the store the first call
    left, whatever the body and whether or not the first call succeeded. *)
Theorem save_answer_idempotent userId body db :
  saveAnswer userId body (snd (saveAnswer userId body db))
  = (fst (saveAnswer userId body db), snd (saveAnswer userId body db)).
Proof.
  unfold saveAnswer at 2 3 4.
  destruct (find _ (submissions db)) as [s|] eqn:Hs.
  2:{ cbn [fst snd]. unfold saveAnswer. now rewrite Hs. }
  destruct (findQuestion db (bQuestionId body)) as [q|] eqn:Hq.
  2:{ cbn [fst snd]. unfold saveAnswer. now rewrite Hs, Hq. }
  destruct (upsertAnswer db body _ _) as [db1|] eqn:Hu; cbn [fst snd].
  2:{ unfold saveAnswer. now rewrite Hs, Hq, Hu. }
  pose proof (upsertAnswer_frame _ _ _ _ _ Hu) as (_ & _ & Hqs & Hos & _ & Hsubs).
  apply upsertAnswer_again in Hu.
  unfold saveAnswer. rewrite Hsubs, Hs. unfold findQuestion in *. rewrite Hqs, Hq.
  unfold isCorrect, marksObtained, isCorrect, selectedOption, optionsOf in *.
  rewrite Hos, Hu. reflexivity.
Qed.

(** ** Calls that fail *)

(** Every error branch of the five handlers returns the store it was given. *)
Lemma error_keeps_store op db e :
  execError op db = Some e -> exec op db = db.
Proof.
  destruct op as [shuffle now aid uid|uid body|now aid sid uid|aid m|now sid tid];
    unfold execError, errorOf; cbn [exec].
  - unfold startAttempt.
    destruct (find _ (assessments db)) as [a|]; [|reflexivity].
    destruct (negb (isEnrolled db uid (aCourseId a))); [reflexivity|].
    destruct (notStartedYet a now); [reflexivity|].
    destruct (hasEnded a now); [reflexivity|].
    destruct (existingAttempts db aid uid >=? aAttempts a); [reflexivity|].
    destruct (inProgressSubmission db aid uid); [reflexivity|].
    destruct (aTotalMarks a <=? 0); [reflexivity|].
    destruct (createSubmission _ _ _ _ _ _) as [[s d]|]; [discriminate|reflexivity].
  - unfold saveAnswer.
    destruct (find _ (submissions db)); [|reflexivity].
    destruct (findQuestion db (bQuestionId body)); [|reflexivity].
    destruct (upsertAnswer _ _ _ _); [discriminate|reflexivity].
  - unfold submit.
    destruct (sid =? 0); [reflexivity|].
    destruct (find _ (submissions db)) as [s|]; [|reflexivity].
    destruct (findAssessment db (sAssessmentId s)); [|reflexivity].
    destruct (aTotalMarks a <=? 0); [reflexivity|discriminate].
  - unfold gradeAnswer.
    destruct (findAnswer db aid) as [a|]; [|reflexivity].
    destruct (findQuestion db (anQuestionId a)); [|reflexivity].
    destruct (assessmentOfAnswer db a); [|reflexivity].
    destruct ((m <? 0) || (qMarks q <? m)); [reflexivity|discriminate].
  - unfold approveReview.
    destruct (findSubmission db sid) as [s|]; [|reflexivity].
    destruct (findAssessment db (sAssessmentId s)); [|reflexivity].
    destruct (ungradedAnswers db (answersOf db (sId s))); [|reflexivity].
    destruct (negb (isCompleted (sStatus s))); [reflexivity|].
    destruct (0 <? Z.of_nat (List.length l)); [reflexivity|discriminate].
Qed.

(** ** A finalized submission is closed *)

Lemma submit_inv now id submissionId userId db r db' :
  submit now id submissionId userId db = (Ok r, db') ->
  exists submission assessment,
    submissionId <> 0 /\
    find (fun s => (sId s =? submissionId) && (sUserId s =? userId)
                   && (sAssessmentId s =? id) && isInProgress (sStatus s))
         (submissions db) = Some submission /\
    findAssessment db (sAssessmentId submission) = Some assessment /\
    0 < aTotalMarks assessment /\
    db' = updateSubmission db submissionId
            (finalized now (subObtainedMarks r) (subPercentage r)
               (aPassingMarks assessment <=? subObtainedMarks r) (subTimeSpent r)).
Proof.
  unfold submit. destruct (submissionId =? 0) eqn:Hz; [discriminate|].
  destruct (find _ (submissions db)) as [s|] eqn:Hs; [|discriminate].
  destruct (findAssessment db (sAssessmentId s)) as [a|] eqn:Ha; [|discriminate].
  destruct (aTotalMarks a <=? 0) eqn:Ht; [discriminate|].
  intros H. inversion H; subst. cbn. exists s, a.
  apply Z.eqb_neq in Hz. apply Z.leb_gt in Ht. auto 10.
Qed.

(** X4. Once submit has succeeded for a submission, the submission is
    closed: every later submit for it and every later save-answer into it is
    answered with the not-found error, by whatever user and for whatever
    question, and changes nothing. *)
Theorem submit_closes now id submissionId userId db r db' :
  submit now id submissionId userId db = (Ok r, db') ->
  (forall s, In s (submissions db') -> sId s = submissionId -> sStatus s = COMPLETED) /\
  (forall now' id' userId',
     submit now' id' submissionId userId' db' = (Err SubmissionNotFound, db')) /\
  (forall userId' body,
     bSubmissionId body = submissionId ->
     saveAnswer userId' body db' = (Err SubmissionNotFound, db')).
Proof.
  intros Hrun. apply submit_inv in Hrun as (s0 & a & Hnz & _ & _ & _ & ->).
  apply Z.eqb_neq in Hnz.
  assert (Hdone : forall s, In s (submissions (updateSubmission db submissionId
                     (finalized now (subObtainedMarks r) (subPercentage r)
                        (aPassingMarks a <=? subObtainedMarks r) (subTimeSpent r)))) ->
                   sId s = submissionId -> sStatus s = COMPLETED).
  { intros s Hin Hid. apply updateSubmission_rows in Hin as [x [_ ->]].
    destruct (sId x =? submissionId) eqn:He; [reflexivity|].
    apply Z.eqb_neq in He. contradiction. }
  split; [exact Hdone|]. split.
  - intros now' id' userId'. unfold submit.
    rewrite Hnz, find_all_false; [reflexivity|].
    intros x Hx. destruct (sId x =? submissionId) eqn:He; [|reflexivity].
    apply Z.eqb_eq in He. rewrite (Hdone x Hx He). cbn. now rewrite !andb_false_r.
  - intros userId' body Hb. unfold saveAnswer. rewrite find_all_false; [reflexivity|].
    intros x Hx. rewrite Hb. destruct (sId x =? submissionId) eqn:He; [|reflexivity].
    apply Z.eqb_eq in He. rewrite (Hdone x Hx He). cbn. now rewrite !andb_false_r.
Qed.

(** After the sample submission is submitted, changing the choice for
    question 11 is refused. *)
Lemma submit_closes_witness :
  saveAnswer 7 (mkSaveAnswerBody 1 11 (Val 101) Absent Absent) submittedDb
    = (Err SubmissionNotFound, submittedDb) /\
  submit 9000 1 1 7 submittedDb = (Err SubmissionNotFound, submittedDb).
Proof.
  destruct (submit 5000 1 1 7 answeredDb) as [o db'] eqn:Hrun.
  assert (Hdb : db' = submittedDb) by (unfold submittedDb; now rewrite Hrun).
  assert (Hok : exists r, o = Ok r) by (vm_compute in Hrun; inversion Hrun; eauto).
  destruct Hok as [r ->]. subst db'.
  destruct (submit_closes 5000 1 1 7 answeredDb r submittedDb Hrun) as (_ & Hsub & Hsave).
  split; [apply Hsave; reflexivity|apply Hsub].
Defined.

(** ** What stays of a completed submission *)

Lemma completedRows_update db id target f :
  (forall s, sId (f s) = sId s) ->
  (forall s, sId s = id -> sId s = target -> sStatus s = COMPLETED ->
             sStatus (f s) = COMPLETED) ->
  completedRows db id -> completedRows (updateSubmission db target f) id.
Proof.
  intros Hid Hf [[s0 [Hin0 Hs0]] Hall]. split.
  - exists (if sId s0 =? target then f s0 else s0). split.
    + unfold updateSubmission. cbn [submissions set_submissions].
      apply in_map_iff. now exists s0.
    + destruct (sId s0 =? target); [now rewrite Hid|exact Hs0].
  - intros s' Hin Hs'. apply updateSubmission_rows in Hin as [s [Hin ->]].
    destruct (sId s =? target) eqn:He.
    + rewrite Hid in Hs'. apply Z.eqb_eq in He. apply Hf; auto.
    + now apply Hall.
Qed.

Lemma exec_keeps_completed op db id :
  completedRows db id ->
  completedRows (exec op db) id /\
  option_map sealed (findSubmission (exec op db) id)
  = option_map sealed (findSubmission db id).
Proof.
  intros Hc. pose proof Hc as [[s0 [Hin0 Hs0]] Hall].
  destruct (findSubmission_present db id s0 Hin0 Hs0) as [x Hx].
  pose proof (find_some _ _ Hx) as [Hxin Hxid]. apply Z.eqb_eq in Hxid.
  destruct op as [shuffle now aid uid|uid body|now aid sid uid|aid m|now sid tid];
    cbn [exec].
  - destruct (startAttempt_store shuffle now aid uid db) as [->|[s [Hs [_ ->]]]];
      [now split|]. split.
    + split.
      * exists s0. split; [|exact Hs0]. cbn. apply in_or_app. now left.
      * intros s' Hin Hs'. cbn in Hin. apply in_app_or in Hin as [Hin|[<-|[]]];
          [now apply Hall|].
        exfalso. apply (nextId_fresh (map sId (submissions db)) id).
        -- rewrite <- Hs0. now apply in_map.
        -- congruence.
    + unfold findSubmission in *. cbn [submissions set_submissions].
      now rewrite (find_app_found _ _ [s] _ Hx), Hx.
  - split.
    + unfold completedRows. rewrite saveAnswer_submissions. exact Hc.
    + unfold findSubmission. now rewrite saveAnswer_submissions.
  - destruct (submit_store now aid sid uid db)
      as [->|(s & m & p & b & t & Hin & Hsid & Hst & ->)]; [now split|].
    assert (Hne : sid <> id).
    { intros ->. specialize (Hall s Hin Hsid). congruence. }
    split.
    + apply completedRows_update; [reflexivity| |exact Hc]. intros; congruence.
    + rewrite findSubmission_update by reflexivity. rewrite Hx. cbn [option_map].
      destruct (sId x =? sid) eqn:He; [|reflexivity].
      apply Z.eqb_eq in He. congruence.
  - destruct (gradeAnswer_store aid m db) as [->|(sid & b & tot & p & t & ->)];
      [now split|]. split.
    + apply completedRows_update; [reflexivity| |exact Hc]. intros; now cbn.
    + rewrite findSubmission_update by reflexivity.
      replace (findSubmission (updateAnswer db aid (graded m b)) id) with (Some x)
        by (symmetry; exact Hx).
      rewrite Hx. cbn [option_map]. destruct (sId x =? sid); reflexivity.
  - destruct (approveReview_store now sid tid db) as [->| ->]; [now split|]. split.
    + apply completedRows_update; [reflexivity| |exact Hc]. intros; now cbn.
    + rewrite findSubmission_update by reflexivity. rewrite Hx. cbn [option_map].
      now destruct (sId x =? sid).
Qed.

Lemma run_keeps_completed ops db id :
  completedRows db id ->
  completedRows (run ops db) id /\
  option_map sealed (findSubmission (run ops db) id)
  = option_map sealed (findSubmission db id).
Proof.
  unfold run. revert db. induction ops as [|op ops IH]; intros db Hc; [now split|].
  cbn [fold_left]. destruct (exec_keeps_completed op db id Hc) as [Hc1 Hs1].
  destruct (IH (exec op db) Hc1) as [Hc2 Hs2]. split; [exact Hc2|congruence].
Qed.

(** X5. COMPLETED is final.  Whatever start, save-answer, submit, grade and
    approve-review calls follow, a completed submission stays stored and
    completed, and its assessment, user, attempt number, start and end
    time, time spent and marks snapshot stay as they were; only the
    aggregate and the approval can still change. *)
Theorem completed_is_final db s ops :
  wf_db db = true -> In s (submissions db) -> sStatus s = COMPLETED ->
  exists s',
    findSubmission (run ops db) (sId s) = Some s' /\
    sealed s' = sealed s /\
    forall x, In x (submissions (run ops db)) -> sId x = sId s -> sStatus x = COMPLETED.
Proof.
  intros Hwf Hin Hst.
  assert (Hfind : findSubmission db (sId s) = Some s).
  { unfold wf_db in Hwf. apply andb_true_iff in Hwf as [Hd _].
    exact (find_by_key sId _ s Hd Hin). }
  assert (Hc : completedRows db (sId s)).
  { split; [eauto|]. intros x Hx Hid.
    assert (x = s) as -> by (eapply findSubmission_unique; eauto). exact Hst. }
  destruct (run_keeps_completed ops db (sId s) Hc) as [[_ Hall] Hseal].
  rewrite Hfind in Hseal. cbn [option_map] in Hseal.
  destruct (findSubmission (run ops db) (sId s)) as [y|]; [|discriminate].
  exists y. split; [reflexivity|]. cbn [option_map] in Hseal.
  split; [congruence|exact Hall].
Qed.

(** The submitted sample submission through a grade, an approval, a stale
    submit and a new start. *)
Lemma completed_is_final_witness :
  exists s',
    findSubmission
      (run [GradeAnswer 2 5; ApproveReview 6000 1 99; Submit 7000 1 1 7;
            StartAttempt reversed 8000 1 7] submittedDb) 1 = Some s' /\
    sStatus s' = COMPLETED /\ sEndTime s' = Some 5000 /\ sTimeSpent s' = Some 4.
Proof.
  destruct (completed_is_final submittedDb
              (mkSubmission 1 1 7 1000 (Some 5000) COMPLETED 10 5 (Pct 5000) true 1
                 (Some 4) false None None)
              [GradeAnswer 2 5; ApproveReview 6000 1 99; Submit 7000 1 1 7;
               StartAttempt reversed 8000 1 7])
    as (s' & Hf & Hseal & _); [reflexivity|left; reflexivity|reflexivity|].
  exists s'. split; [exact Hf|]. unfold sealed in Hseal. now inversion Hseal.
Defined.

(** ** Grading recomputes from the stored answers *)

Lemma findAnswer_update db id f target :
  (forall a, anId (f a) = anId a) ->
  findAnswer (updateAnswer db target f) id
  = option_map (fun a => if anId a =? target then f a else a) (findAnswer db id).
Proof.
  intros Hid. unfold findAnswer, updateAnswer. cbn [answers set_answers].
  apply find_map_stable. intros x. cbn beta.
  destruct (anId x =? target); [now rewrite Hid|reflexivity].
Qed.

Lemma answersOf_update db id f sid :
  (forall a, anSubmissionId (f a) = anSubmissionId a) ->
  answersOf (updateAnswer db id f) sid
  = map (fun a => if anId a =? id then f a else a) (answersOf db sid).
Proof.
  intros Hs. unfold answersOf, updateAnswer. cbn [answers set_answers].
  apply filter_map_stable. intros x. cbn beta.
  destruct (anId x =? id); [now rewrite Hs|reflexivity].
Qed.

Lemma totalObtained_stored db id marks correct sid :
  totalObtained (updateAnswer db id (graded marks correct)) id marks sid
  = sumZ anMarksObtained (answersOf (updateAnswer db id (graded marks correct)) sid).
Proof.
  unfold totalObtained. apply sumZ_ext. intros x Hx.
  rewrite answersOf_update in Hx by reflexivity.
  apply in_map_iff in Hx as [a [<- _]].
  destruct (anId a =? id) eqn:He; cbn [graded anId anMarksObtained]; now rewrite He.
Qed.

(** X6. After a successful grade call the answer carries the marks given,
    with isCorrect set exactly for full marks, and the total the call
    reports and writes to the submission is the sum of the marks now stored
    for the submission's answers. *)
Theorem grade_recomputes_from_store id marks db r db' :
  gradeAnswer id marks db = (Ok r, db') ->
  exists answer question,
    findAnswer db id = Some answer /\
    findQuestion db (anQuestionId answer) = Some question /\
    (exists a, findAnswer db' id = Some a /\ anMarksObtained a = marks /\
               anIsCorrect a = (marks =? qMarks question)) /\
    grNewTotalScore r = sumZ anMarksObtained (answersOf db' (anSubmissionId answer)) /\
    (forall s, In s (submissions db') -> sId s = anSubmissionId answer ->
               sObtainedMarks s = sumZ anMarksObtained (answersOf db' (sId s))).
Proof.
  intros Hrun.
  destruct (gradeAnswer_inv id marks db r db' Hrun)
    as (answer & question & assessment & Ha & Hq & Hs & Hr & Hdb).
  rewrite (gradeAnswer_eq id marks db answer question assessment Ha Hq Hs) in Hrun.
  assert ((marks <? 0) || (qMarks question <? marks) = false) as Hin
    by (apply orb_false_iff; split; apply Z.ltb_ge; lia).
  rewrite Hin in Hrun. cbv zeta in Hrun. inversion Hrun as [[Hresp Hstore]].
  clear Hrun Hdb. exists answer, question. split; [exact Ha|]. split; [exact Hq|].
  cbn [grNewTotalScore]. split; [|split].
  - exists (graded marks (marks =? qMarks question) answer).
    unfold findAnswer, updateSubmission. cbn [answers set_submissions].
    fold (findAnswer (updateAnswer db id (graded marks (marks =? qMarks question))) id).
    rewrite findAnswer_update by reflexivity. rewrite Ha. cbn [option_map].
    apply find_some in Ha as [_ Hid]. now rewrite Hid.
  - apply totalObtained_stored.
  - intros s Hsin Hsid. apply updateSubmission_rows in Hsin as [s0 [_ ->]].
    destruct (sId s0 =? anSubmissionId answer) eqn:He.
    + cbn [rescored sObtainedMarks sId]. apply Z.eqb_eq in He. rewrite He.
      apply totalObtained_stored.
    + apply Z.eqb_neq in He. contradiction.
Qed.

(** Grading the sample text with 3 of 5 marks gives a total of 8, the sum of
    the 5 stored for the choice and the 3 stored for the text. *)
Lemma grade_recomputes_from_store_witness :
  exists r db',
    gradeAnswer 2 3 submittedDb = (Ok r, db') /\
    grNewTotalScore r = 8 /\
    map anMarksObtained (answersOf db' 1) = [5; 3] /\
    map sObtainedMarks (submissions db') = [8].
Proof.
  destruct (gradeAnswer 2 3 submittedDb) as [o db'] eqn:Hrun.
  assert (Hok : exists r, o = Ok r) by (vm_compute in Hrun; inversion Hrun; eauto).
  destruct Hok as [r ->]. exists r, db'. split; [reflexivity|].
  destruct (grade_recomputes_from_store 2 3 submittedDb r db' Hrun)
    as (a & q & Ha & _ & _ & Htot & _).
  vm_compute in Ha. inversion Ha; subst a. cbn [anSubmissionId] in Htot.
  vm_compute in Hrun. inversion Hrun; subst. repeat split.
Defined.

(** ** Grading again *)



(** ** Primary keys stay unique *)


Lemma updateSubmission_ids db target f :
  (forall s, sId (f s) = sId s) ->
  map sId (submissions (updateSubmission db target f)) = map sId (submissions db).
Proof.
  intros Hid. unfold updateSubmission. cbn [submissions set_submissions].
  rewrite map_map. apply map_ext. intros s.
  destruct (sId s =? target); [apply Hid|reflexivity].
Qed.

Lemma saveAnswer_store userId body db :
  snd (saveAnswer userId body db) = db \/
  exists submission c m,
    In submission (submissions db) /\ sId submission = bSubmissionId body /\
    sStatus submission = IN_PROGRESS /\
    upsertAnswer db body c m = Some (snd (saveAnswer userId body db)).
Proof.
  unfold saveAnswer.
  destruct (find _ (submissions db)) as [s|] eqn:Hs; [|now left].
  destruct (findQuestion db (bQuestionId body)) as [q|]; [|now left].
  destruct (upsertAnswer _ _ _ _) as [d|] eqn:Hu; [|now left].
  right. apply find_some in Hs as [Hin Hp].
  apply andb_true_iff in Hp as [Hp Hprog]. apply andb_true_iff in Hp as [Hp _].
  apply Z.eqb_eq in Hp. exists s. do 2 eexists. repeat split; eauto.
  destruct (sStatus s); try discriminate; reflexivity.
Qed.

Lemma upsertAnswer_ids db body c m db' :
  upsertAnswer db body c m = Some db' ->
  distinct (map anId (answers db)) = true -> distinct (map anId (answers db')) = true.
Proof.
  intros H Hd. apply upsertAnswer_cases in H as [_ [[_ ->]|[_ ->]]];
    cbn [answers set_answers].
  - rewrite map_map.
    replace (map (fun x => anId (rewritten body c m x)) (answers db))
      with (map anId (answers db)); [exact Hd|].
    apply map_ext. intros a. unfold rewritten. now destruct (sameAnswerKey _ _ a).
  - rewrite map_app. cbn [map anId]. apply distinct_fresh; [exact Hd|].
    intros Hin. now apply (nextId_fresh _ _ Hin).
Qed.

Lemma exec_keeps_wf op db : wf_db db = true -> wf_db (exec op db) = true.
Proof.
  unfold wf_db. intros H. apply andb_true_iff in H as [Hs Ha].
  destruct op as [shuffle now aid uid|uid body|now aid sid uid|aid m|now sid tid];
    cbn [exec].
  - destruct (startAttempt_store shuffle now aid uid db) as [->|[s [Hid [_ ->]]]];
      [now rewrite Hs, Ha|].
    cbn [submissions answers set_submissions]. rewrite Ha, andb_true_r.
    rewrite map_app. cbn [map]. apply distinct_fresh; [exact Hs|].
    rewrite Hid. intros Hin. now apply (nextId_fresh _ _ Hin).
  - rewrite saveAnswer_submissions, Hs. cbn [andb].
    destruct (saveAnswer_store uid body db) as [->|(s & c & m & _ & _ & _ & Hu)];
      [exact Ha|].
    exact (upsertAnswer_ids _ _ _ _ _ Hu Ha).
  - destruct (submit_store now aid sid uid db)
      as [->|(s & m & p & b & t & _ & _ & _ & ->)]; [now rewrite Hs, Ha|].
    rewrite updateSubmission_ids by reflexivity.
    unfold updateSubmission. cbn [answers set_submissions]. now rewrite Hs, Ha.
  - destruct (gradeAnswer_store aid m db) as [->|(sid & b & tot & p & t & ->)];
      [now rewrite Hs, Ha|].
    rewrite updateSubmission_ids by reflexivity.
    unfold updateSubmission, updateAnswer. cbn [submissions answers set_answers set_submissions].
    rewrite Hs. cbn [andb]. rewrite map_map.
    replace (map (fun x => anId (if anId x =? aid then graded m b x else x)) (answers db))
      with (map anId (answers db)); [exact Ha|].
    apply map_ext. intros a. now destruct (anId a =? aid).
  - destruct (approveReview_store now sid tid db) as [->| ->]; [now rewrite Hs, Ha|].
    rewrite updateSubmission_ids by reflexivity.
    unfold updateSubmission. cbn [answers set_submissions]. now rewrite Hs, Ha.
Qed.

Lemma run_keeps_wf ops db : wf_db db = true -> wf_db (run ops db) = true.
Proof.
  unfold run. revert db. induction ops as [|op ops IH]; intros db H; [exact H|].
  cbn [fold_left]. apply IH. now apply exec_keeps_wf.
Qed.

(** ** The stored aggregate follows the stored answers *)






(** ** Attempt numbers never collide *)

Lemma existingAttempts_update db target f assessmentId userId :
  (forall s, sameAttemptPair assessmentId userId (f s)
             = sameAttemptPair assessmentId userId s) ->
  existingAttempts (updateSubmission db target f) assessmentId userId
  = existingAttempts db assessmentId userId.
Proof.
  intros Hp. unfold existingAttempts, updateSubmission. cbn [submissions set_submissions].
  rewrite filter_map_stable; [now rewrite length_map|].
  intros x. destruct (sId x =? target); [apply Hp|reflexivity].
Qed.

Lemma existingAttempts_grows db s assessmentId userId :
  existingAttempts db assessmentId userId
  <= existingAttempts (set_submissions db (submissions db ++ [s])) assessmentId userId.
Proof.
  unfold existingAttempts. cbn [submissions set_submissions].
  rewrite filter_app, length_app. lia.
Qed.

Lemma existingAttempts_new db s :
  existingAttempts (set_submissions db (submissions db ++ [s]))
    (sAssessmentId s) (sUserId s)
  = existingAttempts db (sAssessmentId s) (sUserId s) + 1.
Proof.
  unfold existingAttempts. cbn [submissions set_submissions].
  rewrite filter_app, length_app. cbn [filter]. unfold sameAttemptPair at 2.
  rewrite !Z.eqb_refl. cbn [andb List.length]. lia.
Qed.

Lemma numberedRows_same db db' :
  (forall a u, existingAttempts db' a u = existingAttempts db a u) ->
  (forall s', In s' (submissions db') ->
     exists s, In s (submissions db) /\ sAssessmentId s' = sAssessmentId s /\
               sUserId s' = sUserId s /\ sAttemptNumber s' = sAttemptNumber s) ->
  numberedRows db -> numberedRows db'.
Proof.
  intros Hcount Hrows Hn s' Hin.
  destruct (Hrows s' Hin) as (s & Hs & -> & -> & ->). rewrite Hcount. now apply Hn.
Qed.

Lemma numberedRows_update db target f :
  (forall s, sAssessmentId (f s) = sAssessmentId s /\ sUserId (f s) = sUserId s /\
             sAttemptNumber (f s) = sAttemptNumber s) ->
  numberedRows db -> numberedRows (updateSubmission db target f).
Proof.
  intros Hf. apply numberedRows_same.
  - intros a u. apply existingAttempts_update. intros s. unfold sameAttemptPair.
    destruct (Hf s) as (-> & -> & _). reflexivity.
  - intros s' Hin. apply updateSubmission_rows in Hin as [s [Hs ->]]. exists s.
    destruct (sId s =? target); [|auto]. destruct (Hf s) as (-> & -> & ->). auto.
Qed.

Lemma exec_keeps_numbered op db : numberedRows db -> numberedRows (exec op db).
Proof.
  intros Hn.
  destruct op as [shuffle now aid uid|uid body|now aid sid uid|aid m|now sid tid];
    cbn [exec].
  - destruct (startAttempt shuffle now aid uid db) as [[r|e] db'] eqn:Hrun; cbn [snd].
    2:{ pose proof (error_keeps_store (StartAttempt shuffle now aid uid) db e) as Hf.
        unfold execError, errorOf in Hf. cbn [exec] in Hf. rewrite Hrun in Hf.
        cbn [fst snd] in Hf. now rewrite Hf. }
    apply startAttempt_inv in Hrun
      as (a & _ & _ & _ & _ & _ & [(s & _ & -> & _)|(s & _ & _ & Hcr & _)]); [exact Hn|].
    apply createSubmission_inv in Hcr as (Hs & -> & _).
    intros x Hx. cbn [submissions set_submissions] in Hx.
    apply in_app_or in Hx as [Hx|[<-|[]]].
    + specialize (Hn x Hx).
      pose proof (existingAttempts_grows db s (sAssessmentId x) (sUserId x)). lia.
    + rewrite existingAttempts_new. rewrite Hs. cbn [sAttemptNumber sAssessmentId sUserId].
      assert (0 <= existingAttempts db aid uid) by (unfold existingAttempts; lia). lia.
  - apply (numberedRows_same db); [| |exact Hn].
    + intros a u. unfold existingAttempts. now rewrite saveAnswer_submissions.
    + intros s' Hin. rewrite saveAnswer_submissions in Hin. exists s'. auto.
  - destruct (submit_store now aid sid uid db)
      as [->|(s & m & p & b & t & _ & _ & _ & ->)]; [exact Hn|].
    apply numberedRows_update; [|exact Hn]. intros x. now cbn.
  - destruct (gradeAnswer_store aid m db) as [->|(sid & b & tot & p & t & ->)];
      [exact Hn|].
    apply numberedRows_update; [intros x; now cbn|exact Hn].
  - destruct (approveReview_store now sid tid db) as [->| ->]; [exact Hn|].
    apply numberedRows_update; [|exact Hn]. intros x. now cbn.
Qed.

Lemma run_keeps_numbered ops db : numberedRows db -> numberedRows (run ops db).
Proof.
  unfold run. revert db. induction ops as [|op ops IH]; intros db H; [exact H|].
  cbn [fold_left]. apply IH. now apply exec_keeps_numbered.
Qed.

(** X9. Counting first and numbering the new attempt count + 1 never runs
    into the unique index on (assessmentId, userId, attemptNumber): from a
    store whose attempt numbers lie within the counts of their pairs (an
    empty submissions table, for one), no sequence of start, save-answer,
    submit, grade and approve-review calls leads to a start that ends in the
    internal error. *)
Theorem start_never_collides db ops shuffle now id userId :
  numberedRows db ->
  fst (startAttempt shuffle now id userId (run ops db)) <> Err InternalError.
Proof.
  intros Hn. apply (run_keeps_numbered ops) in Hn.
  set (d := run ops db) in *. unfold startAttempt.
  destruct (find _ (assessments d)) as [a|]; [|discriminate].
  destruct (negb (isEnrolled d userId (aCourseId a))); [discriminate|].
  destruct (notStartedYet a now); [discriminate|].
  destruct (hasEnded a now); [discriminate|].
  destruct (existingAttempts d id userId >=? aAttempts a); [discriminate|].
  destruct (inProgressSubmission d id userId); [discriminate|].
  destruct (aTotalMarks a <=? 0); [discriminate|].
  unfold createSubmission. rewrite existsb_all_false; [discriminate|].
  intros x Hx. destruct (sameAttemptPair id userId x) eqn:Hp; [|reflexivity].
  cbn [andb]. apply Z.eqb_neq. specialize (Hn x Hx).
  unfold sameAttemptPair in Hp. apply andb_true_iff in Hp as [Ha Hu].
  apply Z.eqb_eq in Ha. apply Z.eqb_eq in Hu. rewrite Ha, Hu in Hn. lia.
Qed.

(** After one finished attempt on the sample store the second start gets
    attempt number 2. *)
Lemma start_never_collides_witness :
  let ops := [StartAttempt reversed 1000 1 7; Submit 5000 1 1 7] in
  fst (startAttempt reversed 6000 1 7 (run ops quizDb)) <> Err InternalError /\
  map sAttemptNumber (submissions (snd (startAttempt reversed 6000 1 7 (run ops quizDb))))
    = [1; 2].
Proof.
  intros ops. split; [|reflexivity].
  apply (start_never_collides quizDb ops reversed 6000 1 7). intros s [].
Defined.

(** ** What a save leaves alone *)

(** X10. A successful save-answer call writes one answer row and nothing
    else: every submission stays as it is, every answer stored under
    another (submission, question) key stays as it is, and no answer under
    another key appears; with the key stored at most once before, it is
    stored exactly once after. *)
Theorem save_answer_frame userId body db db' :
  saveAnswer userId body db = (Ok tt, db') ->
  submissions db' = submissions db /\
  (forall a, sameAnswerKey (bSubmissionId body) (bQuestionId body) a = false ->
             (In a (answers db') <-> In a (answers db))) /\
  ((List.length (filter (sameAnswerKey (bSubmissionId body) (bQuestionId body))
                   (answers db)) <= 1)%nat ->
   List.length (filter (sameAnswerKey (bSubmissionId body) (bQuestionId body))
                  (answers db')) = 1%nat).
Proof.
  intros H. apply saveAnswer_inv in H as (s & q & _ & _ & Hu).
  pose proof (upsertAnswer_frame _ _ _ _ _ Hu) as (_ & _ & _ & _ & _ & Hsubs).
  split; [exact Hsubs|].
  apply upsertAnswer_cases in Hu as [_ [[He ->]|[He ->]]]; cbn [answers set_answers].
  - split.
    + intros a Hk. rewrite in_map_iff. split.
      * intros [x [<- Hx]]. rewrite rewritten_key in Hk. unfold rewritten.
        now rewrite Hk.
      * intros Ha. exists a. split; [|exact Ha]. unfold rewritten. now rewrite Hk.
    + intros Huniq. rewrite filter_map_stable by (intros; apply rewritten_key).
      rewrite length_map. apply key_rows_present in He. lia.
  - split.
    + intros a Hk. rewrite in_app_iff. split; [|tauto].
      intros [Ha|[<-|[]]]; [exact Ha|].
      unfold sameAnswerKey in Hk. cbn in Hk. now rewrite !Z.eqb_refl in Hk.
    + intros _. rewrite filter_app, length_app. cbn [filter].
      unfold sameAnswerKey at 2. cbn. rewrite !Z.eqb_refl. cbn.
      assert (filter (sameAnswerKey (bSubmissionId body) (bQuestionId body)) (answers db) = [])
        as ->; [|reflexivity].
      destruct (filter _ (answers db)) as [|x l] eqn:Hf; [reflexivity|].
      assert (In x (filter (sameAnswerKey (bSubmissionId body) (bQuestionId body))
                      (answers db))) as Hx by (rewrite Hf; now left).
      apply filter_In in Hx as [Hx Hk].
      rewrite (existsb_false_all _ _ _ He Hx) in Hk. discriminate.
Qed.

(** Changing the choice for question 11 from option 102 to option 101
    leaves the text answer of question 12 as stored. *)
Lemma save_answer_frame_witness :
  exists db',
    saveAnswer 7 (mkSaveAnswerBody 1 11 (Val 101) Absent Absent) answeredDb = (Ok tt, db') /\
    In (mkAnswer 2 1 12 None (Some "because"%string) false 0 None) (answers db') /\
    List.length (filter (sameAnswerKey 1 11) (answers db')) = 1%nat.
Proof.
  destruct (saveAnswer 7 (mkSaveAnswerBody 1 11 (Val 101) Absent Absent) answeredDb)
    as [o db'] eqn:Hrun.
  assert (Hok : o = Ok tt) by (vm_compute in Hrun; now inversion Hrun).
  subst o. exists db'. split; [reflexivity|].
  destruct (save_answer_frame 7 _ answeredDb db' Hrun) as (_ & Hother & Hone).
  split.
  - apply Hother; [reflexivity|]. vm_compute. tauto.
  - apply Hone. vm_compute. lia.
Defined.

(** ** Approving again *)

Lemma approveReview_inv now id teacherId db r db' :
  approveReview now id teacherId db = (Ok r, db') ->
  exists submission assessment,
    findSubmission db id = Some submission /\
    findAssessment db (sAssessmentId submission) = Some assessment /\
    ungradedAnswers db (answersOf db (sId submission)) = Some [] /\
    sStatus submission = COMPLETED /\
    db' = updateSubmission db id (approved teacherId now).
Proof.
  unfold approveReview.
  destruct (findSubmission db id) as [s|] eqn:Hs; [|discriminate].
  destruct (findAssessment db (sAssessmentId s)) as [a|] eqn:Ha; [|discriminate].
  destruct (ungradedAnswers db (answersOf db (sId s))) as [u|] eqn:Hu; [|discriminate].
  destruct (isCompleted (sStatus s)) eqn:Hc; cbn [negb]; [|discriminate].
  destruct u as [|x u]; cbn [List.length]; [|discriminate].
  cbn. intros H. inversion H; subst. exists s, a. repeat split; auto.
  destruct (sStatus s); try discriminate; reflexivity.
Qed.

Lemma ungradedAnswers_frame db db' l :
  questions db' = questions db -> ungradedAnswers db' l = ungradedAnswers db l.
Proof.
  intros Hq. induction l as [|a l IH]; cbn [ungradedAnswers]; [reflexivity|].
  unfold findQuestion. now rewrite Hq, IH.
Qed.

(** X11. Nothing stops a second approval: an approve-review call that
    directly follows a successful one for the same submission succeeds
    again and overwrites checkedBy and checkedAt with the new teacher and
    time. *)
Theorem approve_again_overwrites now id teacherId db r db' now2 teacherId2 :
  approveReview now id teacherId db = (Ok r, db') ->
  exists r2 db2,
    approveReview now2 id teacherId2 db' = (Ok r2, db2) /\
    forall s, In s (submissions db2) -> sId s = id ->
      sIsCheckedByTeacher s = true /\ sCheckedBy s = Some teacherId2 /\
      sCheckedAt s = Some now2.
Proof.
  intros Hrun. apply approveReview_inv in Hrun as (s & a & Hs & Ha & Hu & Hc & ->).
  pose proof (find_some _ _ Hs) as [_ Hid]. 
  assert (Hs' : findSubmission (updateSubmission db id (approved teacherId now)) id
                = Some (approved teacherId now s)).
  { rewrite findSubmission_update by reflexivity. rewrite Hs. cbn [option_map].
    now rewrite Hid. }
  set (db1 := updateSubmission db id (approved teacherId now)) in *.
  assert (Ha1 : findAssessment db1 (sAssessmentId (approved teacherId now s))
                = Some a) by exact Ha.
  assert (Hu1 : ungradedAnswers db1 (answersOf db1 (sId (approved teacherId now s)))
                = Some []) by (rewrite (ungradedAnswers_frame db db1) by reflexivity; exact Hu).
  unfold approveReview. rewrite Hs', Ha1, Hu1.
  cbn [approved sStatus]. rewrite Hc. cbn [isCompleted negb List.length Z.of_nat Z.ltb Z.compare].
  do 2 eexists. split; [reflexivity|].
  intros x Hx Hxid. apply updateSubmission_rows in Hx as [y [_ ->]].
  destruct (sId y =? id) eqn:He; [now cbn|].
  apply Z.eqb_neq in He. contradiction.
Qed.

(** Teacher 98 approves the sample submission after teacher 99. *)
Lemma approve_again_overwrites_witness :
  exists r2 db2,
    approveReview 7000 1 98 approvedDb = (Ok r2, db2) /\
    map sCheckedBy (submissions db2) = [Some 98].
Proof.
  destruct (approveReview 6000 1 99 gradedDb) as [o db'] eqn:Hrun.
  assert (Hdb : db' = approvedDb) by (unfold approvedDb; now rewrite Hrun).
  assert (Hok : exists r, o = Ok r) by (vm_compute in Hrun; inversion Hrun; eauto).
  destruct Hok as [r ->]. subst db'.
  destruct (approve_again_overwrites 6000 1 99 gradedDb r approvedDb 7000 98 Hrun)
    as (r2 & db2 & Hrun2 & _).
  exists r2, db2. split; [exact Hrun2|].
  vm_compute in Hrun2. now inversion Hrun2.
Defined.

(** ** The details query and the start *)

(** X12. The details query counts the attempts as the start handler does.
    When it answers, attemptsUsed is the number of the user's submissions
    for the assessment and attemptsRemaining is attempts - attemptsUsed; a
    start at a time inside the reported window is then never refused as not
    found or not enrolled, and it is refused with AttemptsExceeded exactly
    when attemptsRemaining is zero or less. *)
Theorem details_agree_with_start shuffle now id userId db d :
  assessmentDetails id userId db = Ok d ->
  adAttemptsUsed d = existingAttempts db id userId /\
  adAttemptsRemaining d = adAttempts d - adAttemptsUsed d /\
  ((match adStartDate d with Some t => t <= now | None => True end) ->
   (match adEndDate d with Some t => now <= t | None => True end) ->
   (fst (startAttempt shuffle now id userId db) = Err AttemptsExceeded
    <-> adAttemptsRemaining d <= 0) /\
   fst (startAttempt shuffle now id userId db) <> Err AssessmentNotFound /\
   fst (startAttempt shuffle now id userId db) <> Err NotEnrolled /\
   fst (startAttempt shuffle now id userId db) <> Err NotStartedYet /\
   fst (startAttempt shuffle now id userId db) <> Err AssessmentEnded).
Proof.
  unfold assessmentDetails.
  destruct (find _ (assessments db)) as [a|] eqn:Ha; [|discriminate].
  destruct (findCourse db (aCourseId a)) as [c|]; [|discriminate].
  destruct (isEnrolled db userId (aCourseId a)) eqn:He; cbn [negb]; [|discriminate].
  intros H. inversion H; subst d. clear H. cbn.
  pose proof (find_some _ _ Ha) as [_ Hid]. apply andb_true_iff in Hid as [Hid _].
  apply Z.eqb_eq in Hid.
  assert (Hused : Z.of_nat (List.length
                    (filter (fun s => (sAssessmentId s =? aId a) && (sUserId s =? userId))
                            (submissions db))) = existingAttempts db id userId).
  { unfold existingAttempts, sameAttemptPair. now rewrite Hid. }
  rewrite Hused. split; [reflexivity|]. split; [reflexivity|].
  intros Hstart Hend. unfold startAttempt. rewrite Ha, He. cbn [negb].
  assert (notStartedYet a now = false) as ->
    by (unfold notStartedYet; destruct (aStartDate a); [apply Z.ltb_ge; lia|reflexivity]).
  assert (hasEnded a now = false) as ->
    by (unfold hasEnded; destruct (aEndDate a); [apply Z.ltb_ge; lia|reflexivity]).
  rewrite Z.geb_leb.
  destruct (aAttempts a <=? existingAttempts db id userId) eqn:Hc.
  - apply Z.leb_le in Hc. cbn [fst]. repeat split; try discriminate; lia.
  - apply Z.leb_gt in Hc.
    destruct (inProgressSubmission db id userId); cbn [fst].
    + repeat split; try discriminate; lia.
    + destruct (aTotalMarks a <=? 0); cbn [fst];
        [repeat split; try discriminate; lia|].
      destruct (createSubmission _ _ _ _ _ _) as [[s d]|]; cbn [fst];
        repeat split; try discriminate; lia.
Qed.

(** On the sample store assessment 2 shows one attempt left before the
    start and none after it. *)
Lemma details_agree_with_start_witness :
  (exists d, assessmentDetails 2 7 quizDb = Ok d /\ adAttemptsRemaining d = 1 /\
             fst (startAttempt reversed 1000 2 7 quizDb) <> Err AttemptsExceeded) /\
  (exists d, assessmentDetails 2 7 (snd (startAttempt reversed 1000 2 7 quizDb)) = Ok d /\
             adAttemptsRemaining d = 0 /\
             fst (startAttempt reversed 2000 2 7 (snd (startAttempt reversed 1000 2 7 quizDb)))
             = Err AttemptsExceeded).
Proof.
  split.
  - destruct (assessmentDetails 2 7 quizDb) as [d|e] eqn:Hd;
      [|vm_compute in Hd; discriminate].
    destruct (details_agree_with_start reversed 1000 2 7 quizDb d Hd) as (_ & _ & Hw).
    assert (Hrem : adAttemptsRemaining d = 1) by (vm_compute in Hd; now inversion Hd).
    assert (Hs : adStartDate d = None) by (vm_compute in Hd; now inversion Hd).
    assert (He : adEndDate d = None) by (vm_compute in Hd; now inversion Hd).
    rewrite Hs, He in Hw. destruct (Hw I I) as (Hiff & _).
    exists d. split; [reflexivity|]. split; [exact Hrem|].
    intros Hc. apply Hiff in Hc. lia.
  - set (db1 := snd (startAttempt reversed 1000 2 7 quizDb)).
    destruct (assessmentDetails 2 7 db1) as [d|e] eqn:Hd;
      [|vm_compute in Hd; discriminate].
    destruct (details_agree_with_start reversed 2000 2 7 db1 d Hd) as (_ & _ & Hw).
    assert (Hrem : adAttemptsRemaining d = 0) by (vm_compute in Hd; now inversion Hd).
    assert (Hs : adStartDate d = None) by (vm_compute in Hd; now inversion Hd).
    assert (He : adEndDate d = None) by (vm_compute in Hd; now inversion Hd).
    rewrite Hs, He in Hw. destruct (Hw I I) as (Hiff & _).
    exists d. split; [reflexivity|]. split; [exact Hrem|].
    apply Hiff. lia.
Defined.

(** ** The progress query *)

Lemma maxPercentage_either a b :
  maxPercentage a b = a \/ maxPercentage a b = b.
Proof.
  destruct a as [x|[|]|], b as [y|[|]|]; cbn; auto.
  destruct (Z.max_spec x y) as [[_ ->]|[_ ->]]; auto.
Qed.

Lemma fold_max_member l acc :
  fold_left maxPercentage l acc = acc \/ In (fold_left maxPercentage l acc) l.
Proof.
  revert acc. induction l as [|x l IH]; intros acc; cbn [fold_left]; [now left|].
  destruct (IH (maxPercentage acc x)) as [H|H]; [|right; now right].
  rewrite H. destruct (maxPercentage_either acc x) as [-> | ->]; [now left|].
  right. now left.
Qed.

Lemma maxOf_member l : l <> [] -> In (maxOf l) l.
Proof.
  destruct l as [|x l]; [congruence|]. intros _. unfold maxOf. cbn [fold_left].
  destruct (fold_max_member l (maxPercentage (PctInfinity true) x)) as [H|H];
    [|now right].
  rewrite H. left. now destruct x as [y|[|]|].
Qed.

Lemma withheld_checked s : sIsCheckedByTeacher s = true -> withheld s = s.
Proof.
  intros H. unfold withheld, pendingReview. now rewrite H, andb_false_r.
Qed.

Lemma withheld_pending_fields s :
  sAttemptNumber (withheld s) = sAttemptNumber s /\
  progressStatus (Some (withheld s)) = progressStatus (Some s) /\
  latestAttempt (withheld s) = latestAttempt s.
Proof.
  unfold withheld, pendingReview.
  destruct (isCompleted (sStatus s)) eqn:Hc; cbn [andb]; [|auto].
  destruct (sIsCheckedByTeacher s) eqn:Hk; cbn [negb]; [auto|].
  unfold progressStatus, latestAttempt. cbn. rewrite Hk. auto.
Qed.

Lemma withheld_bestScore l : bestScore (map withheld l) = bestScore l.
Proof.
  unfold bestScore.
  rewrite (filter_map_stable (fun s => isCompleted (sStatus s)) withheld)
    by (intros x; destruct (withheld_frame x) as (_ & _ & -> & _); reflexivity).
  rewrite (filter_map_stable sIsCheckedByTeacher withheld)
    by (intros x; destruct (withheld_frame x) as (_ & _ & _ & _ & _ & ->); reflexivity).
  rewrite length_map, map_map.
  replace (map (fun x => sPercentage (withheld x))
               (filter sIsCheckedByTeacher (filter (fun s => isCompleted (sStatus s)) l)))
    with (map sPercentage
               (filter sIsCheckedByTeacher (filter (fun s => isCompleted (sStatus s)) l)));
    [reflexivity|].
  apply map_ext_in. intros x Hx. apply filter_In in Hx as [_ Hx].
  now rewrite withheld_checked.
Qed.

Lemma withheld_attemptsOf db assessment userId :
  attemptsOf (withheldDb db) assessment userId
  = map withheld (attemptsOf db assessment userId).
Proof.
  unfold attemptsOf. cbn [submissions withheldDb].
  rewrite filter_map_stable
    by (intros x; destruct (withheld_frame x) as (_ & -> & _ & _ & -> & _); reflexivity).
  apply sortBy_map. intros x y.
  destruct (withheld_pending_fields x) as (-> & _).
  destruct (withheld_pending_fields y) as (-> & _). reflexivity.
Qed.

Lemma withheld_progressEntry db userId assessment :
  progressEntry (withheldDb db) userId assessment = progressEntry db userId assessment.
Proof.
  unfold progressEntry. rewrite withheld_attemptsOf, withheld_bestScore, length_map.
  destruct (attemptsOf db assessment userId) as [|s l]; [reflexivity|].
  cbn [map hd_error option_map].
  destruct (withheld_pending_fields s) as (_ & -> & ->). reflexivity.
Qed.

(** X13. The progress query shows no score before the approval.  For a
    latest attempt that is not approved, obtainedMarks, percentage and
    isPassed are null and the status is IN_PROGRESS or PENDING_REVIEW; a
    best score, when shown, is the percentage of a completed and approved
    submission of the user for that assessment; and the whole answer is the
    same on two stores that differ only in the score fields of unapproved
    submissions and of their answers. *)
Theorem progress_withholds :
  (forall courseId userId db entries e,
     courseProgress courseId userId db = Ok entries -> In e entries ->
     (forall la, peLatestAttempt e = Some la -> laIsCheckedByTeacher la = false ->
        laObtainedMarks la = None /\ laPercentage la = None /\ laIsPassed la = None /\
        (peStatus e = ProgressInProgress \/ peStatus e = ProgressPendingReview)) /\
     (forall p, peBestScore e = Some p ->
        exists s, In s (submissions db) /\ sAssessmentId s = peAssessmentId e /\
                  sUserId s = userId /\ sStatus s = COMPLETED /\
                  sIsCheckedByTeacher s = true /\ sPercentage s = p)) /\
  (forall courseId userId db1 db2,
     withheldDb db1 = withheldDb db2 ->
     courseProgress courseId userId db1 = courseProgress courseId userId db2).
Proof.
  split.
  - intros courseId userId db entries e. unfold courseProgress.
    destruct (negb (isEnrolled db userId courseId)); [discriminate|].
    intros H He. inversion H; subst entries. clear H.
    apply in_map_iff in He as [a [<- _]]. unfold progressEntry. cbn. split.
    + intros la Hla Hun. destruct (attemptsOf db a userId) as [|s l]; [discriminate|].
      cbn in Hla. inversion Hla; subst la. cbn in Hun. unfold latestAttempt. cbn.
      rewrite Hun. repeat split. destruct (isInProgress (sStatus s)); auto.
    + intros p Hp. unfold bestScore in Hp.
      set (checked := filter sIsCheckedByTeacher
                        (filter (fun s => isCompleted (sStatus s)) (attemptsOf db a userId)))
        in *.
      destruct checked as [|s0 l0] eqn:Hck; [discriminate|].
      cbn [List.length] in Hp.
      assert ((0 <? Z.of_nat (S (List.length l0))) = true) as Hlt by (apply Z.ltb_lt; lia).
      rewrite Hlt in Hp. inversion Hp as [Hmax].
      assert (Hin : In (maxOf (map sPercentage (s0 :: l0))) (map sPercentage (s0 :: l0)))
        by (apply maxOf_member; discriminate).
      apply in_map_iff in Hin as [s [Hs Hsin]]. rewrite <- Hck in Hsin.
      unfold checked in Hsin. apply filter_In in Hsin as [Hsin Hchk].
      apply filter_In in Hsin as [Hsin Hcomp]. unfold attemptsOf in Hsin.
      apply sortBy_In in Hsin. apply filter_In in Hsin as [Hsin Hpair].
      apply andb_true_iff in Hpair as [Ha Hu].
      exists s. repeat split; auto; try (now apply Z.eqb_eq).
      destruct (sStatus s); try discriminate; reflexivity.
  - intros courseId userId db1 db2 Heq.
    assert (Hw : forall db, courseProgress courseId userId (withheldDb db)
                            = courseProgress courseId userId db).
    { intros db. unfold courseProgress. cbn [assessments withheldDb].
      change (isEnrolled (withheldDb db) userId courseId) with (isEnrolled db userId courseId).
      destruct (negb (isEnrolled db userId courseId)); [reflexivity|].
      f_equal. apply map_ext. intros a. apply withheld_progressEntry. }
    now rewrite <- (Hw db1), Heq, Hw.
Qed.

(** The progress of user 7 in course 1 reads the same before and after the
    sample text is graded, and shows no score. *)
Lemma progress_withholds_witness :
  courseProgress 1 7 submittedDb = courseProgress 1 7 gradedDb /\
  exists entries,
    courseProgress 1 7 gradedDb = Ok entries /\
    map peStatus entries = [ProgressPendingReview; ProgressPending] /\
    map peBestScore entries = [None; None].
Proof.
  destruct progress_withholds as [_ Hsame]. split.
  - apply Hsame. reflexivity.
  - eexists. split; [reflexivity|]. split; reflexivity.
Defined.

(** ** The grading queue and the approval gate *)

Lemma ungraded_rows db l rows :
  withQuestions db l = Some rows ->
  ungradedAnswers db l = Some (map fst (ungradedQuestions rows)).
Proof.
  revert rows. induction l as [|a l IH]; intros rows; cbn [withQuestions ungradedAnswers].
  - intros H. inversion H. reflexivity.
  - destruct (findQuestion db (anQuestionId a)) as [q|]; [|discriminate].
    destruct (withQuestions db l) as [rest|]; [|discriminate].
    intros H. inversion H; subst. rewrite (IH rest eq_refl).
    unfold ungradedQuestions, manualQuestions, needsGrading, isManual.
    cbn [filter fst snd].
    destruct (isFreeText (qType q) && hasText a); cbn [andb filter fst snd map];
      [|reflexivity].
    destruct (anMarksObtained a =? 0); reflexivity.
Qed.

Lemma formattedQueue_In users db subs queue e :
  formattedQueue users db subs = Some queue ->
  (In e queue <-> exists s, In s subs /\ queueRow users db s = Some e).
Proof.
  revert queue. induction subs as [|s subs IH]; intros queue; cbn [formattedQueue].
  - intros H. inversion H. split; [intros []|]. now intros [s [[] _]].
  - destruct (queueRow users db s) as [x|] eqn:Hx; [|discriminate].
    destruct (formattedQueue users db subs) as [rest|]; [|discriminate].
    intros H. inversion H; subst. specialize (IH rest eq_refl). split.
    + intros [<-|Hin].
      * exists s. split; [now left|exact Hx].
      * apply IH in Hin as [y [Hy Hr]]. exists y. split; [now right|exact Hr].
    + intros [y [[<-|Hy] Hr]].
      * left. congruence.
      * right. apply IH. eauto.
Qed.

Lemma formattedQueue_resolves users db subs :
  (forall s, In s subs -> queueRow users db s <> None) ->
  exists queue, formattedQueue users db subs = Some queue.
Proof.
  induction subs as [|s subs IH]; intros H; cbn [formattedQueue]; [eauto|].
  destruct (queueRow users db s) as [x|] eqn:Hx.
  - destruct IH as [rest ->]; [intros y Hy; apply H; now right|]. eauto.
  - exfalso. apply (H s); [now left|exact Hx].
Qed.

Lemma formattedQueue_rows users db subs queue s :
  formattedQueue users db subs = Some queue -> In s subs ->
  queueRow users db s <> None.
Proof.
  revert queue. induction subs as [|x subs IH]; intros queue; cbn [formattedQueue];
    [intros _ []|].
  destruct (queueRow users db x) as [e|] eqn:Hx; [|discriminate].
  destruct (formattedQueue users db subs) as [rest|]; [|discriminate].
  intros _ [<-|Hin]; [congruence|]. now apply (IH rest).
Qed.

Lemma queueRow_id users db s e : queueRow users db s = Some e -> qeSubmissionId e = sId s.
Proof.
  unfold queueRow. destruct (findUser users (sUserId s)); [|discriminate].
  destruct (assessmentAndCourse db s) as [[a c]|]; [|discriminate].
  destruct (withQuestions db (answersOf db (sId s))); [|discriminate].
  intros H. inversion H. reflexivity.
Qed.

Lemma pendingSubmissions_In db s :
  In s (pendingSubmissions db) <->
  In s (submissions db) /\ sStatus s = COMPLETED /\ sIsCheckedByTeacher s = false.
Proof.
  unfold pendingSubmissions. rewrite sortBy_In, filter_In, andb_true_iff, negb_true_iff.
  split; intros (Hin & Hc & Hk); repeat split; auto.
  - destruct (sStatus s); try discriminate; reflexivity.
  - now rewrite Hc.
Qed.

Lemma pendingSubmissions_approved db id teacherId now s :
  In s (pendingSubmissions (updateSubmission db id (approved teacherId now))) <->
  In s (pendingSubmissions db) /\ sId s <> id.
Proof.
  rewrite !pendingSubmissions_In. unfold updateSubmission.
  cbn [submissions set_submissions]. rewrite in_map_iff. split.
  - intros ((x & Hx & Hin) & Hc & Hk).
    destruct (sId x =? id) eqn:Hid.
    + subst s. discriminate Hk.
    + subst s. apply Z.eqb_neq in Hid. repeat split; assumption.
  - intros ((Hin & Hc & Hk) & Hid). repeat split; auto.
    exists s. apply Z.eqb_neq in Hid. rewrite Hid. split; [reflexivity|exact Hin].
Qed.

Lemma queueRow_frame users db db' s :
  assessments db' = assessments db -> courses db' = courses db ->
  questions db' = questions db -> answers db' = answers db ->
  queueRow users db' s = queueRow users db s.
Proof.
  intros Ha Hc Hq Hn. unfold queueRow, assessmentAndCourse, findAssessment, findCourse,
    answersOf. rewrite Ha, Hc, Hn.
  assert (Hw : forall l, withQuestions db' l = withQuestions db l).
  { induction l as [|a l IH]; cbn [withQuestions]; [reflexivity|].
    unfold findQuestion. now rewrite Hq, IH. }
  now rewrite Hw.
Qed.

(** X14. The grading queue and the approval gate agree.  On a store with
    unique ids, the queue lists exactly the COMPLETED submissions not yet
    approved; an entry is marked fully graded exactly when approve-review
    would succeed on its submission, and otherwise approve-review answers
    GradingIncomplete; and after a successful approval the queue is the
    former queue without that submission. *)
Theorem queue_matches_approval users now teacherId db queue :
  wf_db db = true ->
  pendingGrading users db = Ok queue ->
  (forall s, In s (submissions db) -> sStatus s = COMPLETED ->
     sIsCheckedByTeacher s = false ->
     exists e, In e queue /\ qeSubmissionId e = sId s) /\
  (forall e, In e queue ->
     (exists s, findSubmission db (qeSubmissionId e) = Some s /\
                sStatus s = COMPLETED /\ sIsCheckedByTeacher s = false) /\
     0 <= qeUngradedQuestions e <= qeTotalManualQuestions e /\
     (qeIsFullyGraded e = true ->
        qeUngradedQuestions e = 0 /\
        exists r, approveReview now (qeSubmissionId e) teacherId db
                  = (Ok r, updateSubmission db (qeSubmissionId e) (approved teacherId now))) /\
     (qeIsFullyGraded e = false ->
        0 < qeUngradedQuestions e /\
        approveReview now (qeSubmissionId e) teacherId db = (Err GradingIncomplete, db))) /\
  (forall e r db', In e queue ->
     approveReview now (qeSubmissionId e) teacherId db = (Ok r, db') ->
     exists queue', pendingGrading users db' = Ok queue' /\
       forall e', In e' queue' <->
                  In e' queue /\ qeSubmissionId e' <> qeSubmissionId e).
Proof.
  intros Hwf Hq. unfold pendingGrading in Hq.
  destruct (formattedQueue users db (pendingSubmissions db)) as [fq|] eqn:Hfq;
    [|discriminate].
  inversion Hq; subst fq. clear Hq.
  split; [|split].
  - intros s Hin Hc Hk.
    assert (Hp : In s (pendingSubmissions db)) by (apply pendingSubmissions_In; auto).
    pose proof (formattedQueue_rows users db _ queue s Hfq Hp) as Hrow.
    destruct (queueRow users db s) as [e|] eqn:He; [|congruence].
    exists e. split; [|now apply (queueRow_id users db)].
    apply (formattedQueue_In users db _ queue e Hfq). eauto.
  - intros e Hin.
    apply (formattedQueue_In users db _ queue e Hfq) in Hin as (s & Hp & Hrow).
    apply pendingSubmissions_In in Hp as (Hs & Hc & Hk).
    pose proof (queueRow_id users db s e Hrow) as Hid.
    assert (Hfind : findSubmission db (sId s) = Some s).
    { unfold wf_db in Hwf. apply andb_true_iff in Hwf as [Hd _].
      unfold findSubmission. now apply (find_by_key sId). }
    unfold queueRow in Hrow.
    destruct (findUser users (sUserId s)) as [u|]; [|discriminate].
    destruct (assessmentAndCourse db s) as [[a c]|] eqn:Hac; [|discriminate].
    destruct (withQuestions db (answersOf db (sId s))) as [rows|] eqn:Hrows;
      [|discriminate].
    inversion Hrow; subst e. clear Hrow Hid. unfold queueEntry.
    cbn [qeSubmissionId qeUngradedQuestions qeTotalManualQuestions qeIsFullyGraded].
    assert (Ha : findAssessment db (sAssessmentId s) = Some a).
    { unfold assessmentAndCourse in Hac.
      destruct (findAssessment db (sAssessmentId s)) as [a'|]; [|discriminate].
      destruct (findCourse db (aCourseId a')); [|discriminate]. congruence. }
    pose proof (ungraded_rows db _ rows Hrows) as Hu.
    assert (Hle : (List.length (ungradedQuestions rows)
                   <= List.length (manualQuestions rows))%nat)
      by apply filter_length_le.
    split; [exists s; auto|]. split; [lia|].
    unfold approveReview. rewrite Hfind, Ha, Hu, Hc. cbn [isCompleted negb].
    rewrite length_map. split.
    + intros Hz. apply Z.eqb_eq in Hz. rewrite Hz. cbn. split; [reflexivity|].
      eexists. reflexivity.
    + intros Hz. apply Z.eqb_neq in Hz.
      assert (Hpos : 0 < Z.of_nat (List.length (ungradedQuestions rows))) by lia.
      split; [exact Hpos|]. apply Z.ltb_lt in Hpos. now rewrite Hpos.
  - intros e r db' Hin Hrun.
    apply approveReview_inv in Hrun as (s0 & a0 & _ & _ & _ & _ & ->).
    set (id := qeSubmissionId e).
    set (db' := updateSubmission db id (approved teacherId now)).
    assert (Hrow : forall s, queueRow users db' s = queueRow users db s)
      by (intros s; apply queueRow_frame; reflexivity).
    destruct (formattedQueue_resolves users db' (pendingSubmissions db')) as [queue' Hq'].
    { intros s Hs. rewrite Hrow.
      apply pendingSubmissions_approved in Hs as [Hs _].
      exact (formattedQueue_rows users db _ queue s Hfq Hs). }
    exists queue'. unfold pendingGrading. rewrite Hq'. split; [reflexivity|].
    intros e'. rewrite (formattedQueue_In users db' _ queue' e' Hq').
    rewrite (formattedQueue_In users db _ queue e' Hfq). split.
    + intros (s & Hs & Hr). rewrite Hrow in Hr.
      apply pendingSubmissions_approved in Hs as [Hs Hne].
      split; [eauto|]. now rewrite (queueRow_id users db s e' Hr).
    + intros ((s & Hs & Hr) & Hne). exists s. rewrite Hrow. split; [|exact Hr].
      apply pendingSubmissions_approved. split; [exact Hs|].
      now rewrite <- (queueRow_id users db s e' Hr).
Qed.

(** On the submitted sample store the one queued submission still has an
    ungraded text and approval is refused; once graded and approved it is
    no longer queued. *)
Lemma queue_matches_approval_witness :
  approveReview 6000 1 99 submittedDb = (Err GradingIncomplete, submittedDb) /\
  exists queue', pendingGrading quizUsers approvedDb = Ok queue' /\
    forall e', In e' queue' -> qeSubmissionId e' <> 1.
Proof.
  split.
  - destruct (queue_matches_approval quizUsers 6000 99 submittedDb _ eq_refl eq_refl)
      as (_ & Hgate & _).
    destruct (Hgate _ (or_introl eq_refl)) as (_ & _ & _ & Hno).
    exact (proj2 (Hno eq_refl)).
  - destruct (queue_matches_approval quizUsers 6000 99 gradedDb _ eq_refl eq_refl)
      as (_ & _ & Hafter).
    destruct (Hafter _ (mkApproveResponse 1 6000 10 10 (Pct 10000) true) approvedDb
                (or_introl eq_refl) eq_refl)
      as (queue' & Hq' & Hin).
    exists queue'. split; [exact Hq'|]. intros e' He'. now apply Hin in He'.
Defined.

(** ** The teacher's view of one submission *)

Lemma filter_split_length {A} (p : A -> bool) (l : list A) :
  (List.length (filter (fun x => negb (p x)) l) + List.length (filter p l)
   = List.length l)%nat.
Proof.
  induction l as [|x l IH]; cbn [filter]; [reflexivity|].
  destruct (p x); cbn [negb List.length]; lia.
Qed.

Lemma filter_perm {A} (p : A -> bool) (l l' : list A) :
  Permutation l l' -> Permutation (filter p l) (filter p l').
Proof.
  induction 1 as [|x l l' _ IH|x y l|l l' l'' _ IH1 _ IH2]; cbn [filter].
  - constructor.
  - destruct (p x); [now constructor|exact IH].
  - destruct (p x), (p y); try reflexivity. constructor.
  - now transitivity (filter p l').
Qed.

Lemma filter_map_swap {A B} (p : B -> bool) (g : A -> B) (l : list A) :
  filter p (map g l) = map g (filter (fun x => p (g x)) l).
Proof.
  induction l as [|x l IH]; cbn [filter map]; [reflexivity|].
  destruct (p (g x)); cbn [map]; now rewrite IH.
Qed.

Lemma ungradedQuestions_flagged db rows :
  filter (fun aq => faNeedsGrading (formattedAnswer db (fst aq) (snd aq))) rows
  = ungradedQuestions rows.
Proof.
  unfold ungradedQuestions, manualQuestions, isManual.
  induction rows as [|[a q] rows IH]; cbn [filter]; [reflexivity|].
  rewrite IH. cbn [fst snd formattedAnswer faNeedsGrading].
  destruct (isFreeText (qType q)), (hasText a), (anMarksObtained a =? 0) eqn:Hm;
    cbn [andb filter fst snd]; try rewrite Hm; reflexivity.
Qed.

Lemma formattedAnswers_flagged db rows :
  List.length (filter faNeedsGrading (formattedAnswers db rows))
  = List.length (ungradedQuestions rows).
Proof.
  unfold formattedAnswers. rewrite filter_map_swap, length_map.
  rewrite <- ungradedQuestions_flagged with (db := db).
  apply Permutation_length, filter_perm.
  exact (sortBy_perm (fun aq : Answer * Question => qOrder (snd aq)) rows).
Qed.

Lemma withQuestions_answers db l rows :
  withQuestions db l = Some rows -> map fst rows = l.
Proof.
  revert rows. induction l as [|a l IH]; intros rows; cbn [withQuestions].
  - intros H. inversion H. reflexivity.
  - destruct (findQuestion db (anQuestionId a)); [|discriminate].
    destruct (withQuestions db l) as [rest|]; [|discriminate].
    intros H. inversion H; subst. cbn [map fst]. now rewrite (IH rest eq_refl).
Qed.

(** X15. The submission details a teacher opens.  Each stored answer of
    the submission is shown exactly once; the grading status partitions
    them (graded + needsGrading = total); approve-review succeeds exactly
    when the submission is COMPLETED and needsGrading = 0; and the count
    is the one the grading queue shows for the same submission. *)
Theorem details_grading_status users now teacherId id db d :
  submissionDetails users id db = Ok d ->
  exists s,
    findSubmission db id = Some s /\
    Permutation (map faAnswerId (sdAnswers d)) (map anId (answersOf db id)) /\
    gsTotal (sdGradingStatus d) = Z.of_nat (List.length (answersOf db id)) /\
    gsGraded (sdGradingStatus d) + gsNeedsGrading (sdGradingStatus d)
      = gsTotal (sdGradingStatus d) /\
    ((exists r db', approveReview now id teacherId db = (Ok r, db')) <->
     sStatus s = COMPLETED /\ gsNeedsGrading (sdGradingStatus d) = 0) /\
    (forall queue e, wf_db db = true -> pendingGrading users db = Ok queue ->
       In e queue -> qeSubmissionId e = id ->
       qeUngradedQuestions e = gsNeedsGrading (sdGradingStatus d)).
Proof.
  unfold submissionDetails.
  destruct (findSubmission db id) as [s|] eqn:Hs; [|discriminate].
  pose proof (find_some _ _ Hs) as [Hin Hid]. apply Z.eqb_eq in Hid.
  destruct (findUser users (sUserId s)) as [u|] eqn:Hu; [|discriminate].
  destruct (assessmentAndCourse db s) as [[a c]|] eqn:Hac; [|discriminate].
  destruct (withQuestions db (answersOf db (sId s))) as [rows|] eqn:Hrows;
    [|discriminate].
  intros H. inversion H; subst d. clear H.
  cbn [sdAnswers sdGradingStatus gradingStatus gsTotal gsGraded gsNeedsGrading].
  pose proof (withQuestions_answers db _ rows Hrows) as Hfst.
  pose proof (sortBy_perm (fun aq : Answer * Question => qOrder (snd aq)) rows) as Hperm.
  pose proof (formattedAnswers_flagged db rows) as Hflag.
  assert (Ha : findAssessment db (sAssessmentId s) = Some a).
  { unfold assessmentAndCourse in Hac.
    destruct (findAssessment db (sAssessmentId s)) as [a'|]; [|discriminate].
    destruct (findCourse db (aCourseId a')); [|discriminate]. congruence. }
  rewrite Hid in *.
  exists s. split; [reflexivity|]. split; [|split; [|split; [|split]]].
  - rewrite <- Hfst, map_map. unfold formattedAnswers. rewrite map_map.
    cbn [formattedAnswer faAnswerId]. now apply Permutation_map.
  - rewrite <- Hfst. unfold formattedAnswers. rewrite !length_map.
    f_equal. now apply Permutation_length.
  - pose proof (filter_split_length faNeedsGrading (formattedAnswers db rows)). lia.
  - unfold approveReview. rewrite Hs, Ha, Hid, (ungraded_rows db _ rows Hrows), length_map.
    rewrite Hflag. split.
    + intros (r & db' & Hrun).
      destruct (sStatus s); cbn [isCompleted negb] in Hrun; try discriminate.
      split; [reflexivity|].
      destruct (0 <? Z.of_nat (List.length (ungradedQuestions rows))) eqn:Hz;
        [discriminate|]. apply Z.ltb_ge in Hz. lia.
    + intros [Hc Hz]. rewrite Hc, Hz. cbn. eauto.
  - intros queue e Hwf Hq He Heid. unfold pendingGrading in Hq.
    destruct (formattedQueue users db (pendingSubmissions db)) as [fq|] eqn:Hfq;
      [|discriminate].
    inversion Hq; subst fq.
    apply (formattedQueue_In users db _ queue e Hfq) in He as (s' & Hp & Hrow).
    apply pendingSubmissions_In in Hp as (Hs' & _).
    pose proof (queueRow_id users db s' e Hrow) as Hid'.
    assert (s' = s) as ->.
    { apply (findSubmission_unique db id); auto. congruence. }
    unfold queueRow in Hrow. rewrite Hu, Hac, Hid, Hrows in Hrow.
    inversion Hrow. cbn [qeUngradedQuestions]. now rewrite Hflag.
Qed.

(** The teacher's view of the submitted sample: two answers, one of them
    waiting for a grade, so approval is not possible yet. *)
Lemma details_grading_status_witness :
  exists d, submissionDetails quizUsers 1 submittedDb = Ok d /\
    gsTotal (sdGradingStatus d) = 2 /\ gsNeedsGrading (sdGradingStatus d) = 1 /\
    forall r db', approveReview 6000 1 99 submittedDb <> (Ok r, db').
Proof.
  destruct (details_grading_status quizUsers 6000 99 1 submittedDb _ eq_refl)
    as (s & _ & _ & _ & _ & Hgate & _).
  eexists. split; [reflexivity|]. split; [reflexivity|]. split; [reflexivity|].
  intros r db' Hrun. destruct (proj1 Hgate (ex_intro _ r (ex_intro _ db' Hrun))) as [_ Hz].
  discriminate Hz.
Defined.

(** ** Deactivating an assessment *)

Lemma withIsActive_same a : withIsActive (aIsActive a) a = a.
Proof. now destruct a. Qed.

Lemma findAssessment_update db target f id :
  (forall a, aId (f a) = aId a) ->
  findAssessment (updateAssessment db target f) id
  = option_map (fun a => if aId a =? target then f a else a) (findAssessment db id).
Proof.
  intros Hid. unfold findAssessment, updateAssessment. cbn [assessments set_assessments].
  apply find_map_stable. intros x. cbn beta.
  destruct (aId x =? target); [now rewrite Hid|reflexivity].
Qed.

Lemma saveAnswer_assessments userId body db l :
  saveAnswer userId body (set_assessments db l)
  = (fst (saveAnswer userId body db), set_assessments (snd (saveAnswer userId body db)) l).
Proof.
  unfold saveAnswer, findQuestion, set_assessments. cbn [submissions questions].
  destruct (find _ (submissions db)); [|reflexivity].
  destruct (find _ (questions db)) as [q|]; [|reflexivity].
  unfold upsertAnswer, optionRefOk, isCorrect, marksObtained, isCorrect, selectedOption,
    optionsOf, set_answers.
  cbn [options answers courses assessments questions enrollments submissions].
  destruct (negb _); [reflexivity|].
  destruct (negb (fitsInteger (bTimeSpent body))); [reflexivity|].
  destruct (existsb _ (answers db)); reflexivity.
Qed.

Lemma submit_assessments now id submissionId userId db target v :
  submit now id submissionId userId (updateAssessment db target (withIsActive v))
  = (fst (submit now id submissionId userId db),
     set_assessments (snd (submit now id submissionId userId db))
       (assessments (updateAssessment db target (withIsActive v)))).
Proof.
  unfold submit. destruct (submissionId =? 0); [reflexivity|].
  change (submissions (updateAssessment db target (withIsActive v))) with (submissions db).
  destruct (find _ (submissions db)) as [s|]; [|reflexivity].
  rewrite findAssessment_update by reflexivity.
  destruct (findAssessment db (sAssessmentId s)) as [a|]; cbn [option_map]; [|reflexivity].
  assert (Ht : aTotalMarks (if aId a =? target then withIsActive v a else a)
               = aTotalMarks a) by (destruct (aId a =? target); reflexivity).
  assert (Hp : aPassingMarks (if aId a =? target then withIsActive v a else a)
               = aPassingMarks a) by (destruct (aId a =? target); reflexivity).
  rewrite Ht, Hp. destruct (aTotalMarks a <=? 0); reflexivity.
Qed.

(** X16. Deactivating an assessment blocks new attempts only.  The toggle
    of an active assessment succeeds; afterwards start and the details
    query answer AssessmentNotFound for every user, while save-answer and
    submit answer exactly as they would have before and write the same
    rows, so attempts already running can still be saved and submitted.
    With unique assessment ids a second toggle restores the store. *)
Theorem deactivation_blocks_new_attempts_only shuffle now id db assessment :
  findAssessment db id = Some assessment ->
  aIsActive assessment = true ->
  exists updated db1,
    toggleStatus id db = (Ok updated, db1) /\
    aIsActive updated = false /\
    (forall userId,
       startAttempt shuffle now id userId db1 = (Err AssessmentNotFound, db1) /\
       assessmentDetails id userId db1 = Err AssessmentNotFound) /\
    (forall userId body,
       saveAnswer userId body db1
       = (fst (saveAnswer userId body db),
          set_assessments (snd (saveAnswer userId body db)) (assessments db1))) /\
    (forall now' aid submissionId userId,
       submit now' aid submissionId userId db1
       = (fst (submit now' aid submissionId userId db),
          set_assessments (snd (submit now' aid submissionId userId db))
            (assessments db1))) /\
    (distinct (map aId (assessments db)) = true ->
     toggleStatus id db1 = (Ok assessment, db)).
Proof.
  intros Hfind Hact. unfold toggleStatus at 1. rewrite Hfind, Hact. cbn [negb].
  eexists _, _. split; [reflexivity|]. split; [reflexivity|].
  assert (Hnone : find (fun a => (aId a =? id) && aIsActive a)
                    (assessments (updateAssessment db id (withIsActive false))) = None).
  { unfold updateAssessment. cbn [assessments set_assessments].
    apply find_all_false. intros x Hx. apply in_map_iff in Hx as (y & <- & _).
    destruct (aId y =? id) eqn:Hy; cbn [withIsActive aId aIsActive].
    - apply andb_false_r.
    - now rewrite Hy. }
  split; [|split; [|split]].
  - intros userId. unfold startAttempt, assessmentDetails. now rewrite Hnone.
  - intros userId body. apply saveAnswer_assessments.
  - intros now' aid submissionId userId. apply submit_assessments.
  - intros Hd. unfold toggleStatus. rewrite findAssessment_update by reflexivity.
    rewrite Hfind. cbn [option_map].
    pose proof (find_some _ _ Hfind) as [Hin Hid]. cbn beta in Hid. rewrite Hid.
    cbn [withIsActive aIsActive negb aId].
    rewrite <- Hact at 1. change (withIsActive (aIsActive assessment)
      (withIsActive false assessment)) with (withIsActive (aIsActive assessment) assessment).
    rewrite withIsActive_same. f_equal.
    unfold updateAssessment. cbn [assessments set_assessments].
    unfold set_assessments. cbn [courses questions options enrollments submissions answers].
    rewrite map_map.
    assert (Hmap : map (fun x => if aId (if aId x =? id then withIsActive false x else x) =? id
                                 then withIsActive true
                                        (if aId x =? id then withIsActive false x else x)
                                 else if aId x =? id then withIsActive false x else x)
                     (assessments db) = assessments db).
    { apply map_unchanged. intros x Hx. destruct (aId x =? id) eqn:Hx'.
      - cbn [withIsActive aId]. rewrite Hx'.
        assert (x = assessment) as ->.
        { apply (distinct_unique aId (assessments db)); auto.
          apply Z.eqb_eq in Hx', Hid. congruence. }
        clear -Hact. destruct assessment. cbn in Hact. now subst.
      - now rewrite Hx'. }
    rewrite Hmap. now destruct db.
Qed.

(** Assessment 1 is deactivated while student 7 has an attempt running: a
    new start is refused, the running attempt is still submitted, and a
    second toggle brings the store back. *)
Lemma deactivation_blocks_new_attempts_only_witness :
  let db1 := snd (toggleStatus 1 answeredDb) in
  fst (startAttempt reversed 5000 1 8 db1) = Err AssessmentNotFound /\
  (exists r, fst (submit 5000 1 1 7 db1) = Ok r) /\
  snd (toggleStatus 1 db1) = answeredDb.
Proof.
  intros db1.
  destruct (deactivation_blocks_new_attempts_only reversed 5000 1 answeredDb _
              eq_refl eq_refl)
    as (updated & db1' & Hrun & _ & Hstart & _ & Hsubmit & Hback).
  assert (db1' = db1) as -> by (unfold db1; now rewrite Hrun).
  split; [|split].
  - now rewrite (proj1 (Hstart 8)).
  - rewrite (Hsubmit 5000 1 1 7). cbn [fst]. eexists. reflexivity.
  - now rewrite (Hback eq_refl).
Defined.

(** ** Deleting a question *)

Lemma gone_question db id q :
  findQuestion db id = Some q ->
  forall x, existsb (fun q => (qId q =? x) && (qId q =? id)) (questions db) = (x =? id).
Proof.
  intros Hq x. pose proof (find_some _ _ Hq) as [Hin Hid]. cbn beta in Hid.
  destruct (x =? id) eqn:Hx.
  - apply existsb_exists. exists q. split; [exact Hin|].
    apply Z.eqb_eq in Hx. subst x. now rewrite Hid.
  - destruct (existsb _ (questions db)) eqn:He; [|reflexivity].
    apply existsb_exists in He as (y & _ & Hy). apply andb_true_iff in Hy as [H1 H2].
    apply Z.eqb_eq in H1, H2. apply Z.eqb_neq in Hx. congruence.
Qed.

Lemma deleted_marks (g : Answer -> Answer) (p : Answer -> bool) id (l : list Answer) :
  (forall a, anMarksObtained (g a) = anMarksObtained a) ->
  (forall a, anQuestionId (g a) = anQuestionId a) ->
  (forall a, p (g a) = p a) ->
  sumZ anMarksObtained (filter p l)
  = sumZ anMarksObtained
      (filter p (filter (fun a => negb (anQuestionId a =? id)) (map g l)))
    + sumZ anMarksObtained (filter (fun a => anQuestionId a =? id) (filter p l)).
Proof.
  intros Hm Hq Hp. induction l as [|a l IH]; cbn [map filter]; [reflexivity|].
  rewrite Hq. destruct (p a) eqn:Hpa, (anQuestionId a =? id) eqn:Hqa;
    cbn [negb filter]; rewrite ?Hp, ?Hpa, ?Hqa; cbn [filter];
    rewrite ?sumZ_cons, ?Hm; lia.
Qed.

(** X17. Deleting a question takes its options and every stored answer to
    it away, and no submission row is touched: obtainedMarks, percentage
    and isPassed are not recomputed.  The marks of the answers that remain
    for a submission fall short of the former sum by the marks of the
    answers deleted.  An identifier of no question is answered with the
    generic error and changes nothing. *)
Theorem delete_question_keeps_scores id db :
  (findQuestion db id = None -> deleteQuestion id db = (Err InternalError, db)) /\
  (forall db', deleteQuestion id db = (Ok tt, db') ->
     submissions db' = submissions db /\
     assessments db' = assessments db /\
     questions db' = filter (fun q => negb (qId q =? id)) (questions db) /\
     options db' = filter (fun o => negb (oQuestionId o =? id)) (options db) /\
     (forall a, In a (answers db') -> anQuestionId a <> id) /\
     (forall submissionId,
        sumZ anMarksObtained (answersOf db submissionId)
        = sumZ anMarksObtained (answersOf db' submissionId)
          + sumZ anMarksObtained
              (filter (fun a => anQuestionId a =? id) (answersOf db submissionId)))).
Proof.
  unfold deleteQuestion. split.
  - now intros ->.
  - intros db'. destruct (findQuestion db id) as [q|] eqn:Hq; [|discriminate].
    intros H. inversion H; subst db'. clear H.
    pose proof (gone_question db id q Hq) as Hgone.
    unfold deleteQuestions, deleteOptions. cbv beta zeta.
    cbn [courses assessments questions options enrollments submissions answers].
    split; [reflexivity|]. split; [reflexivity|]. split; [reflexivity|].
    split; [|split].
    + apply filter_ext. intros o. cbv beta. now rewrite (Hgone (oQuestionId o)).
    + intros a Ha. apply filter_In in Ha as [_ Ha]. cbv beta in Ha.
      rewrite (Hgone (anQuestionId a)) in Ha.
      apply negb_true_iff, Z.eqb_neq in Ha. exact Ha.
    + intros submissionId. unfold answersOf. cbv beta zeta.
      cbn [courses assessments questions options enrollments submissions answers].
      assert (Hf : forall l : list Answer,
                filter (fun a => negb (existsb (fun q => (qId q =? anQuestionId a)
                                                         && (qId q =? id)) (questions db))) l
                = filter (fun a => negb (anQuestionId a =? id)) l).
      { intros l. apply filter_ext. intros a. cbv beta.
        now rewrite (Hgone (anQuestionId a)). }
      rewrite Hf.
      apply deleted_marks.
      * intros a. destruct (anSelectedOptionId a); [|reflexivity].
        now destruct (existsb _ (options db)).
      * intros a. destruct (anSelectedOptionId a); [|reflexivity].
        now destruct (existsb _ (options db)).
      * intros a. destruct (anSelectedOptionId a); [|reflexivity].
        now destruct (existsb _ (options db)).
Qed.

(** Question 11 is deleted after student 7 has submitted: the submission
    still reports the 5 marks of the deleted answer, the answers left sum
    to 0. *)
Lemma delete_question_keeps_scores_witness :
  let db' := snd (deleteQuestion 11 submittedDb) in
  option_map sObtainedMarks (findSubmission db' 1) = Some 5 /\
  sumZ anMarksObtained (answersOf db' 1) = 0.
Proof.
  intros db'.
  destruct (delete_question_keeps_scores 11 submittedDb) as [_ Hdel].
  destruct (Hdel db' eq_refl) as (Hsubs & _ & _ & _ & _ & Hsum).
  split.
  - unfold findSubmission. rewrite Hsubs. reflexivity.
  - specialize (Hsum 1).
    change (5 = sumZ anMarksObtained (answersOf db' 1) + 5) in Hsum. lia.
Defined.

(** ** Deleting an assessment *)

Lemma find_filter_other {A} (p keep : A -> bool) (l : list A) :
  (forall x, p x = true -> keep x = true) ->
  find p (filter keep l) = find p l.
Proof.
  intros H. induction l as [|x l IH]; cbn [filter find]; [reflexivity|].
  destruct (p x) eqn:Hp.
  - rewrite (H x Hp). cbn [find]. now rewrite Hp.
  - destruct (keep x); cbn [find]; [rewrite Hp|]; exact IH.
Qed.

Lemma find_filter_none {A} (p keep : A -> bool) (l : list A) :
  (forall x, p x = true -> keep x = false) ->
  find p (filter keep l) = None.
Proof.
  intros H. apply find_all_false. intros x Hx. apply filter_In in Hx as [_ Hk].
  destruct (p x) eqn:Hp; [|reflexivity]. rewrite (H x Hp) in Hk. discriminate.
Qed.

Lemma results_In db subs entries e :
  results db subs = Some entries ->
  (In e entries <->
   exists sub assessment course,
     In sub subs /\ assessmentAndCourse db sub = Some (assessment, course) /\
     e = resultEntry sub assessment course).
Proof.
  revert entries. induction subs as [|sub subs IH]; intros entries; cbn [results].
  - intros H. inversion H. split; [intros []|]. now intros (s & _ & _ & [] & _).
  - destruct (assessmentAndCourse db sub) as [[a c]|] eqn:Hac; [|discriminate].
    destruct (results db subs) as [rest|]; [|discriminate].
    intros H. inversion H; subst. specialize (IH rest eq_refl). split.
    + intros [<-|Hin].
      * exists sub, a, c. split; [now left|]. split; [exact Hac|reflexivity].
      * apply IH in Hin as (s & a' & c' & Hs & Hr & ->). exists s, a', c'.
        split; [now right|]. split; [exact Hr|reflexivity].
    + intros (s & a' & c' & [<-|Hs] & Hr & ->).
      * left. congruence.
      * right. apply IH. exists s, a', c'. auto.
Qed.

Lemma results_resolves db subs :
  (forall s, In s subs -> assessmentAndCourse db s <> None) ->
  exists entries, results db subs = Some entries.
Proof.
  induction subs as [|s subs IH]; intros H; cbn [results]; [eauto|].
  destruct (assessmentAndCourse db s) as [[a c]|] eqn:Hac.
  - destruct IH as [rest ->]; [intros y Hy; apply H; now right|]. eauto.
  - exfalso. apply (H s); [now left|exact Hac].
Qed.

Lemma results_relations db subs entries s :
  results db subs = Some entries -> In s subs -> assessmentAndCourse db s <> None.
Proof.
  revert entries. induction subs as [|x subs IH]; intros entries; cbn [results];
    [intros _ []|].
  destruct (assessmentAndCourse db x) as [[a c]|] eqn:Hx; [|discriminate].
  destruct (results db subs) as [rest|]; [|discriminate].
  intros _ [<-|Hin]; [congruence|]. now apply (IH rest).
Qed.

Lemma resultEntry_assessment sub assessment course :
  reAssessmentId (resultEntry sub assessment course) = sAssessmentId sub.
Proof. unfold resultEntry. now destruct (negb (sIsCheckedByTeacher sub)). Qed.

(** X18. Deleting an assessment is not guarded by the attempts taken: on
    success its questions and all submissions for it are gone whatever
    their state, no answer of such a submission is left, start answers
    AssessmentNotFound, and every student's my-results list is the former
    list without the entries of that assessment.  An identifier of no
    assessment is answered with the generic error and changes nothing. *)
Theorem delete_assessment_erases shuffle now id db :
  (findAssessment db id = None -> deleteAssessment id db = (Err InternalError, db)) /\
  (forall db', deleteAssessment id db = (Ok tt, db') ->
     submissions db' = filter (fun s => negb (sAssessmentId s =? id)) (submissions db) /\
     questions db' = filter (fun q => negb (qAssessmentId q =? id)) (questions db) /\
     (forall a s, In a (answers db') -> In s (submissions db) ->
        sId s = anSubmissionId a -> sAssessmentId s <> id) /\
     (forall userId,
        startAttempt shuffle now id userId db' = (Err AssessmentNotFound, db')) /\
     (forall userId entries, myResults userId db = Ok entries ->
        exists entries', myResults userId db' = Ok entries' /\
          forall e, In e entries' <-> In e entries /\ reAssessmentId e <> id)).
Proof.
  unfold deleteAssessment. split; [now intros ->|].
  intros db'. destruct (findAssessment db id) as [a0|] eqn:Ha0; [|discriminate].
  intros H. inversion H; subst db'. clear H.
  unfold deleteQuestions, deleteOptions, deleteSubmissions, set_assessments.
  cbv beta zeta.
  cbn [courses assessments questions options enrollments submissions answers].
  split; [reflexivity|]. split; [reflexivity|]. split; [|split].
  - intros a s Ha Hs Hid Hdead. apply filter_In in Ha as [Ha _].
    apply in_map_iff in Ha as (b & Hb & Hin).
    apply filter_In in Hin as [_ Hgone]. cbv beta in Hgone.
    apply negb_true_iff in Hgone.
    assert (Hsame : anSubmissionId a = anSubmissionId b).
    { subst a. destruct (anSelectedOptionId b); [|reflexivity].
      match goal with |- context [if ?c then _ else _] => now destruct c end. }
    assert (Htrue : existsb (fun s => (sId s =? anSubmissionId b) && (sAssessmentId s =? id))
                      (submissions db) = true).
    { apply existsb_exists. exists s. split; [exact Hs|].
      apply andb_true_iff. split; apply Z.eqb_eq; congruence. }
    congruence.
  - intros userId. unfold startAttempt.
    cbn [courses assessments questions options enrollments submissions answers].
    rewrite find_filter_none; [reflexivity|].
    intros x Hx. apply andb_true_iff in Hx as [Hx _]. now rewrite Hx.
  - intros userId entries. unfold myResults.
    cbn [courses assessments questions options enrollments submissions answers].
    set (db' := mkDB _ _ _ _ _ _ _).
    set (mine := fun s => (sUserId s =? userId) && isCompleted (sStatus s)).
    destruct (results db (sortBy endsNoEarlier (filter mine (submissions db))))
      as [old|] eqn:Hold; [|discriminate].
    intros H. inversion H; subst old. clear H.
    assert (Hrel : forall s, sAssessmentId s <> id ->
                     assessmentAndCourse db' s = assessmentAndCourse db s).
    { intros s Hs. unfold assessmentAndCourse, findAssessment, findCourse, db'.
      cbn [courses assessments].
      rewrite find_filter_other; [reflexivity|].
      intros x Hx. apply Z.eqb_eq in Hx. apply negb_true_iff, Z.eqb_neq. congruence. }
    assert (Hsub : forall s,
              In s (sortBy endsNoEarlier
                      (filter mine (filter (fun s => negb (sAssessmentId s =? id))
                                           (submissions db))))
              <-> In s (sortBy endsNoEarlier (filter mine (submissions db)))
                  /\ sAssessmentId s <> id).
    { intros s. rewrite !sortBy_In, !filter_In, negb_true_iff, Z.eqb_neq. tauto. }
    destruct (results_resolves db'
                (sortBy endsNoEarlier
                   (filter mine (filter (fun s => negb (sAssessmentId s =? id))
                                        (submissions db))))) as [new Hnew].
    { intros s Hs. apply Hsub in Hs as [Hs Hne]. rewrite (Hrel s Hne).
      exact (results_relations db _ entries s Hold Hs). }
    exists new. rewrite Hnew. split; [reflexivity|]. intros e.
    rewrite (results_In db' _ new e Hnew), (results_In db _ entries e Hold). split.
    + intros (s & a & c & Hs & Hac & ->). apply Hsub in Hs as [Hs Hne].
      rewrite (Hrel s Hne) in Hac. rewrite resultEntry_assessment.
      split; [|exact Hne]. exists s, a, c. auto.
    + intros ((s & a & c & Hs & Hac & ->) & Hne). rewrite resultEntry_assessment in Hne.
      exists s, a, c. split; [apply Hsub; auto|]. split; [|reflexivity].
      now rewrite (Hrel s Hne).
Qed.

(** Assessment 1 is deleted after the result of student 7 was approved: the
    submission is gone and the student's result list is empty. *)
Lemma delete_assessment_erases_witness :
  let db' := snd (deleteAssessment 1 approvedDb) in
  submissions db' = [] /\ myResults 7 db' = Ok [].
Proof.
  intros db'.
  destruct (delete_assessment_erases reversed 7000 1 approvedDb) as [_ Hdel].
  destruct (Hdel db' eq_refl) as (Hsubs & _ & _ & _ & Hres).
  split.
  - rewrite Hsubs. reflexivity.
  - destruct (Hres 7 _ eq_refl) as (entries' & -> & Hin). f_equal.
    destruct entries' as [|e rest]; [reflexivity|]. exfalso.
    destruct (proj1 (Hin e) (or_introl eq_refl)) as [[<-|[]] Hne].
    now apply Hne.
Defined.

(** ** Adding a question *)

Lemma insertSorted_last {A} (before : A -> A -> bool) (x : A) (l : list A) :
  (forall y, In y l -> before y x = true) -> insertSorted before x l = l ++ [x].
Proof.
  induction l as [|y l IH]; intros H; cbn [insertSorted app]; [reflexivity|].
  rewrite (H y (or_introl eq_refl)), IH; [reflexivity|].
  intros z Hz. apply H. now right.
Qed.

Lemma sortBy_snoc {A} (before : A -> A -> bool) (x : A) (l : list A) :
  sortBy before (l ++ [x]) = insertSorted before x (sortBy before l).
Proof. unfold sortBy. now rewrite fold_left_app. Qed.

Lemma orOne_nonzero f : orOne f <> 0.
Proof.
  destruct f as [| |m]; cbn [orOne]; try lia.
  destruct (m =? 0) eqn:Hm; [lia|]. now apply Z.eqb_neq.
Qed.

Lemma newOptions_rows questionId l : forall firstId index opts,
  newOptions questionId firstId index l = Some opts ->
  List.length opts = List.length l /\
  forall o, In o opts -> oQuestionId o = questionId /\ firstId <= oId o.
Proof.
  induction l as [|b l IH]; intros firstId index opts; cbn [newOptions].
  - intros H. inversion H. split; [reflexivity|intros o []].
  - destruct (obOptionText b) as [| |text]; try discriminate.
    destruct (newOptions questionId (firstId + 1) (index + 1) l) as [rest|] eqn:Hr;
      [|discriminate].
    intros H. inversion H; subst opts. destruct (IH _ _ _ Hr) as [Hlen Hrows].
    split; [cbn [List.length]; now rewrite Hlen|].
    intros o [<-|Ho]; [cbn; split; [reflexivity|lia]|].
    destruct (Hrows o Ho). split; [assumption|lia].
Qed.

(** X19. A question added to an assessment is stored active under a key no
    question had, with marks that are never 0 (a body without marks, or
    with 0, gives 1) and with order = the number of the assessment's
    questions + 1, inactive ones counted.  Its options are stored under
    keys no option had.  Neither the assessment (its totalMarks) nor any
    submission or answer is touched.  When no question of the assessment
    has an order above their number, start presents the new question
    last. *)
Theorem added_question_comes_last id body db question opts db' :
  addQuestion id body db = (Ok (question, opts), db') ->
  (qAssessmentId question = id /\ qIsActive question = true /\
   qMarks question <> 0 /\ qOrder question = questionCount db id + 1 /\
   (forall q, In q (questions db) -> qId q <> qId question)) /\
  (questions db' = questions db ++ [question] /\
   options db' = options db ++ opts /\
   questionCount db' id = questionCount db id + 1 /\
   assessments db' = assessments db /\ submissions db' = submissions db /\
   answers db' = answers db) /\
  (List.length opts = List.length (qbOptions body) /\
   forall o, In o opts ->
     oQuestionId o = qId question /\ forall o', In o' (options db) -> oId o' <> oId o) /\
  (forall assessment,
     aId assessment = id ->
     (forall q, In q (questions db) -> qAssessmentId q = id ->
        qOrder q <= questionCount db id) ->
     activeQuestions db' assessment = activeQuestions db assessment ++ [question]).
Proof.
  unfold addQuestion.
  destruct (qbQuestionText body) as [| |text]; try discriminate.
  destruct (qbQuestionType body) as [| |type]; try discriminate.
  destruct (findAssessment db id) as [a|]; [|discriminate].
  cbn [qId].
  destruct (newOptions _ _ 0 (qbOptions body)) as [new|] eqn:Hnew; [|discriminate].
  intros H. inversion H; subst question opts db'. clear H.
  cbn [qAssessmentId qIsActive qMarks qOrder qId questions options assessments
       submissions answers].
  destruct (newOptions_rows _ _ _ _ _ Hnew) as [Hlen Hrows].
  split; [|split; [|split]].
  - repeat split; auto using orOne_nonzero.
    intros q Hq Heq. apply (nextId_fresh (map qId (questions db)) (qId q)); auto.
    now apply in_map.
  - repeat split. unfold questionCount. cbn [questions].
    rewrite filter_app, length_app. cbn [filter qAssessmentId].
    rewrite Z.eqb_refl. cbn [List.length]. lia.
  - split; [exact Hlen|]. intros o Ho. destruct (Hrows o Ho) as [Hq Hid].
    split; [exact Hq|]. intros o' Ho' Heq.
    pose proof (maxId_bound (map oId (options db)) (oId o') (in_map oId _ _ Ho')).
    unfold nextId in Hid. lia.
  - intros assessment Haid Hord. unfold activeQuestions. cbn [questions].
    rewrite filter_app. cbn [filter qAssessmentId qIsActive].
    rewrite Haid, Z.eqb_refl. cbn [andb].
    rewrite sortBy_snoc. apply insertSorted_last.
    intros y Hy. apply sortBy_In, filter_In in Hy as [Hy Hp].
    apply andb_true_iff in Hp as [Hp _]. apply Z.eqb_eq in Hp.
    cbn [qOrder]. apply Z.leb_le. specialize (Hord y Hy Hp). lia.
Qed.

(** A third question is added to assessment 1 with marks 0 in the body: it
    is stored with 1 mark and order 3, and comes last in the list start
    works from. *)
Lemma added_question_comes_last_witness :
  let body := mkQuestionBody (Val "Why"%string) (Val SHORT_ANSWER) (Val 0)
                Absent Absent Absent [] in
  exists question db',
    addQuestion 1 body quizDb = (Ok (question, []), db') /\
    qMarks question = 1 /\ qOrder question = 3 /\
    map qId (activeQuestions db' (mkAssessment 1 "Quiz"%string None 1 None 10 5 2 true
                                    true None None)) = [11; 12; qId question].
Proof.
  intros body. eexists _, _. split; [reflexivity|].
  split; [reflexivity|]. split; [reflexivity|].
  match goal with |- map qId (activeQuestions ?d ?a) = [11; 12; qId ?q] =>
    destruct (added_question_comes_last 1 body quizDb q [] d eq_refl)
      as (_ & _ & _ & Hlast)
  end.
  rewrite Hlast; [reflexivity|reflexivity|].
  intros q Hq Hid. vm_compute in Hq.
  destruct Hq as [<-|[<-|[<-|[]]]]; vm_compute; congruence.
Defined.

(** ** Replacing the options of a question *)

Lemma questionData_id body q updated :
  questionData body q = Some updated -> qId updated = qId q.
Proof.
  unfold questionData.
  destruct (qbMarks body), (qbIsActive body); try discriminate;
    intros H; inversion H; reflexivity.
Qed.

Lemma newOptions_none questionId l : forall firstId index,
  newOptions questionId firstId index l = None ->
  exists b, In b l /\ forall text, obOptionText b <> Val text.
Proof.
  induction l as [|b l IH]; intros firstId index; cbn [newOptions]; [discriminate|].
  destruct (obOptionText b) as [| |text] eqn:Hb.
  - intros _. exists b. split; [now left|]. intros text. rewrite Hb. discriminate.
  - intros _. exists b. split; [now left|]. intros text. rewrite Hb. discriminate.
  - destruct (newOptions questionId (firstId + 1) (index + 1) l) eqn:Hr; [discriminate|].
    intros _. destruct (IH _ _ Hr) as (x & Hx & Hno). exists x. split; [now right|exact Hno].
Qed.

Lemma filter_none {A} (p : A -> bool) (l : list A) :
  (forall x, In x l -> p x = false) -> filter p l = [].
Proof.
  induction l as [|x l IH]; intros H; cbn [filter]; [reflexivity|].
  rewrite (H x (or_introl eq_refl)). apply IH. intros y Hy. apply H. now right.
Qed.

Lemma filter_all {A} (p : A -> bool) (l : list A) :
  (forall x, In x l -> p x = true) -> filter p l = l.
Proof.
  induction l as [|x l IH]; intros H; cbn [filter]; [reflexivity|].
  rewrite (H x (or_introl eq_refl)), IH; [reflexivity|].
  intros y Hy. apply H. now right.
Qed.

Lemma unselected_fields (gone : Z -> bool) (l : list Answer) :
  map (fun a => (anId a, anSubmissionId a, anQuestionId a, anTextAnswer a,
                 anIsCorrect a, anMarksObtained a))
      (map (fun a => match anSelectedOptionId a with
                     | Some o => if gone o then withoutSelectedOption a else a
                     | None => a
                     end) l)
  = map (fun a => (anId a, anSubmissionId a, anQuestionId a, anTextAnswer a,
                   anIsCorrect a, anMarksObtained a)) l.
Proof.
  rewrite map_map. apply map_ext. intros a.
  destruct (anSelectedOptionId a) as [o|]; [|reflexivity]. now destruct (gone o).
Qed.

Lemma unselected_refs (gone : Z -> bool) (l : list Answer) a o :
  In a (map (fun a => match anSelectedOptionId a with
                      | Some o => if gone o then withoutSelectedOption a else a
                      | None => a
                      end) l) ->
  anSelectedOptionId a = Some o ->
  gone o = false /\ exists b, In b l /\ anSelectedOptionId b = Some o.
Proof.
  intros Ha Ho. apply in_map_iff in Ha as (b & <- & Hb).
  destruct (anSelectedOptionId b) as [x|] eqn:Hx.
  - destruct (gone x) eqn:Hg.
    + discriminate Ho.
    + rewrite Hx in Ho. inversion Ho; subst x. split; [exact Hg|]. eauto.
  - rewrite Hx in Ho. discriminate.
Qed.

(** X20. Replacing the options of a question.  When an update brings
    options, the question's former options are deleted and new ones
    created; every answer that had selected one of them loses the
    reference, while its isCorrect and marksObtained, and with them every
    submission's score, stay as they were.  With answers referring to
    stored options only, no answer points to an option of the question
    afterwards.  The writes are not one transaction: when an option comes
    without a text the call ends in the generic error after the question
    was rewritten and its options were deleted, and the question is left
    with no option at all. *)
Theorem replaced_options_unselect id body db question updated :
  findQuestion db id = Some question ->
  questionData body question = Some updated ->
  qbOptions body <> [] ->
  (forall a o, In a (answers db) -> anSelectedOptionId a = Some o ->
     exists opt, In opt (options db) /\ oId opt = o) ->
  let db' := snd (updateQuestion id body db) in
  findQuestion db' id = Some updated /\
  submissions db' = submissions db /\
  map (fun a => (anId a, anSubmissionId a, anQuestionId a, anTextAnswer a,
                 anIsCorrect a, anMarksObtained a)) (answers db')
  = map (fun a => (anId a, anSubmissionId a, anQuestionId a, anTextAnswer a,
                   anIsCorrect a, anMarksObtained a)) (answers db) /\
  (forall a o opt, In a (answers db') -> anSelectedOptionId a = Some o ->
     In opt (options db') -> oId opt = o -> oQuestionId opt <> id) /\
  match fst (updateQuestion id body db) with
  | Ok (q, opts) =>
      q = updated /\ Permutation opts (optionsOf db' updated) /\
      List.length opts = List.length (qbOptions body) /\
      forall o o', In o opts -> In o' (options db) -> oId o <> oId o'
  | Err e =>
      e = InternalError /\ optionsOf db' updated = [] /\
      exists b, In b (qbOptions body) /\ forall text, obOptionText b <> Val text
  end.
Proof.
  intros Hfind Hdata Hne Href.
  pose proof (find_some _ _ Hfind) as [_ Hqid]. cbn beta in Hqid.
  pose proof (questionData_id body question updated Hdata) as Hid.
  apply Z.eqb_eq in Hqid. rewrite Hqid in Hid.
  unfold updateQuestion. rewrite Hfind, Hdata.
  destruct (qbOptions body) as [|b0 bs] eqn:Hbody; [congruence|]. clear Hne.
  set (db1 := set_questions db _).
  assert (Hq1 : forall d, questions d = questions db1 -> findQuestion d id = Some updated).
  { intros d Hd. unfold findQuestion. rewrite Hd. unfold db1, set_questions.
    cbn [questions].
    unfold findQuestion in Hfind. clear -Hfind Hid.
    induction (questions db) as [|q l IH]; cbn [map find] in *; [discriminate|].
    destruct (qId q =? id) eqn:Hq.
    - now rewrite Hid, Z.eqb_refl.
    - rewrite Hq. now apply IH. }
  set (gone := fun o => existsb (fun x => (oId x =? o) && (oQuestionId x =? id)) (options db)).
  assert (Hkept : forall a o opt,
            In a (answers (deleteOptions (fun o => oQuestionId o =? id) db1)) ->
            anSelectedOptionId a = Some o ->
            (In opt (options db) /\ oId opt = o -> oQuestionId opt <> id) /\
            o < nextId (map oId (options db))).
  { intros a o opt Ha Ho. unfold deleteOptions, db1, set_questions in Ha.
    cbv beta zeta in Ha. cbn [answers options] in Ha.
    destruct (unselected_refs gone (answers db) a o Ha Ho) as (Hg & x & Hx & Hxo).
    split.
    - intros [Hopt Hoid] Hq. unfold gone in Hg.
      assert (Ht : existsb (fun x => (oId x =? o) && (oQuestionId x =? id)) (options db)
                   = true); [|congruence].
      apply existsb_exists. exists opt. split; [exact Hopt|].
      apply andb_true_iff. split; now apply Z.eqb_eq.
    - destruct (Href x o Hx Hxo) as (y & Hy & Hyo).
      pose proof (maxId_bound (map oId (options db)) (oId y) (in_map oId _ _ Hy)).
      unfold nextId. lia. }
  destruct (newOptions id (nextId (map oId (options db))) 0 (b0 :: bs)) as [opts|] eqn:Hnew;
    cbn [fst snd].
  - destruct (newOptions_rows id (b0 :: bs) _ _ opts Hnew) as [Hlen Hrows].
    split; [now apply Hq1|]. split; [reflexivity|].
    split; [apply (unselected_fields gone)|].
    assert (Hopts : optionsOf
              (mkDB (courses (deleteOptions (fun o => oQuestionId o =? id) db1))
                 (assessments (deleteOptions (fun o => oQuestionId o =? id) db1))
                 (questions (deleteOptions (fun o => oQuestionId o =? id) db1))
                 (options (deleteOptions (fun o => oQuestionId o =? id) db1) ++ opts)
                 (enrollments (deleteOptions (fun o => oQuestionId o =? id) db1))
                 (submissions (deleteOptions (fun o => oQuestionId o =? id) db1))
                 (answers (deleteOptions (fun o => oQuestionId o =? id) db1))) updated
            = opts).
    { unfold optionsOf. cbn [options deleteOptions]. rewrite Hid, filter_app.
      rewrite filter_none, filter_all; [reflexivity| |].
      - intros o Ho. apply Z.eqb_eq. now apply Hrows.
      - intros o Ho. apply filter_In in Ho as [_ Ho]. now apply negb_true_iff in Ho. }
    split.
    + intros a o opt Ha Ho Hopt Hoid. cbn [answers] in Ha. cbn [options] in Hopt.
      destruct (Hkept a o opt Ha Ho) as [Hold Hfresh].
      apply in_app_or in Hopt as [Hopt|Hopt].
      * unfold deleteOptions in Hopt. cbn [options] in Hopt.
        apply filter_In in Hopt as [Hopt _]. apply Hold. auto.
      * destruct (Hrows opt Hopt) as [_ Hge]. lia.
    + split; [reflexivity|]. rewrite Hopts.
      split; [apply (sortBy_perm oOrder)|]. split.
      * rewrite (Permutation_length (sortBy_perm oOrder opts)). exact Hlen.
      * intros o o' Ho Ho' Heq. apply (Permutation_in _ (sortBy_perm oOrder opts)) in Ho.
        destruct (Hrows o Ho) as [_ Hge].
        pose proof (maxId_bound (map oId (options db)) (oId o') (in_map oId _ _ Ho')).
        unfold nextId in Hge. lia.
  - split; [now apply Hq1|]. split; [reflexivity|].
    split; [apply (unselected_fields gone)|]. split.
    + intros a o opt Ha Ho Hopt Hoid.
      destruct (Hkept a o opt Ha Ho) as [Hold _].
      unfold deleteOptions in Hopt. cbn [options] in Hopt.
      apply filter_In in Hopt as [Hopt _]. apply Hold. auto.
    + split; [reflexivity|]. split.
      * unfold optionsOf. cbn [options deleteOptions]. rewrite Hid.
        apply filter_none. intros o Ho. apply filter_In in Ho as [_ Ho].
        now apply negb_true_iff in Ho.
      * exact (newOptions_none id (b0 :: bs) _ _ Hnew).
Qed.

(** The options of question 11 are replaced after student 7 has submitted
    with option 102 selected: the answer keeps its 5 marks and loses the
    selected option. *)
Lemma replaced_options_unselect_witness :
  let body := mkQuestionBody Absent Absent Absent Absent Absent Absent
                [mkOptionBody (Val "A"%string) (Val true);
                 mkOptionBody (Val "B"%string) Absent] in
  let db' := snd (updateQuestion 11 body submittedDb) in
  map (fun a => (anSelectedOptionId a, anMarksObtained a)) (answersOf submittedDb 1)
    = [(Some 102, 5); (None, 0)] /\
  map (fun a => (anSelectedOptionId a, anMarksObtained a)) (answersOf db' 1)
    = [(None, 5); (None, 0)] /\
  submissions db' = submissions submittedDb /\
  forall a o opt, In a (answers db') -> anSelectedOptionId a = Some o ->
    In opt (options db') -> oId opt = o -> oQuestionId opt <> 11.
Proof.
  intros body db'.
  assert (Href : forall a o, In a (answers submittedDb) -> anSelectedOptionId a = Some o ->
                   exists opt, In opt (options submittedDb) /\ oId opt = o).
  { intros a o Ha Ho. vm_compute in Ha. destruct Ha as [<-|[<-|[]]].
    - inversion Ho. eexists. split; [right; left; reflexivity|reflexivity].
    - discriminate Ho. }
  destruct (replaced_options_unselect 11 body submittedDb _ _ eq_refl eq_refl
              ltac:(discriminate) Href) as (_ & Hsubs & _ & Hrefs & _).
  split; [reflexivity|]. split; [reflexivity|]. split; [exact Hsubs|exact Hrefs].
Defined.

(** ** An approved result, listed and reviewed *)




(** ** Duplicating an assessment *)

Lemma copyOptions_fields questionId l : forall firstId,
  map (fun o => (oText o, oIsCorrect o, oOrder o)) (copyOptions questionId firstId l)
  = map (fun o => (oText o, oIsCorrect o, oOrder o)) l.
Proof.
  induction l as [|o l IH]; intros firstId; cbn [copyOptions map]; [reflexivity|].
  now rewrite IH.
Qed.

Lemma copyQuestions_rows db assessmentId l : forall firstQuestionId firstOptionId,
  let rows := copyQuestions db assessmentId firstQuestionId firstOptionId l in
  map (fun q => (qText q, qType q, qMarks q, qOrder q, qExplanation q, qImageUrl q))
      (map fst rows)
  = map (fun q => (qText q, qType q, qMarks q, qOrder q, qExplanation q, qImageUrl q)) l /\
  map (fun opts => map (fun o => (oText o, oIsCorrect o, oOrder o)) opts) (map snd rows)
  = map (fun q => map (fun o => (oText o, oIsCorrect o, oOrder o)) (optionsOf db q)) l /\
  (forall q, In q (map fst rows) ->
     qIsActive q = true /\ qAssessmentId q = assessmentId /\ firstQuestionId <= qId q).
Proof.
  induction l as [|q l IH]; intros fq fo; cbv zeta; cbn [copyQuestions map fst snd].
  - split; [reflexivity|]. split; [reflexivity|]. intros ? [].
  - destruct (IH (fq + 1) (fo + Z.of_nat (List.length (copyOptions fq fo (optionsOf db q)))))
      as (Hq & Ho & Hall).
    cbv zeta in Hq, Ho, Hall. split; [|split].
    + cbn [qText qType qMarks qOrder qExplanation qImageUrl]. now rewrite Hq.
    + now rewrite copyOptions_fields, Ho.
    + intros x [<-|Hx]; [cbn; repeat split; lia|].
      destruct (Hall x Hx) as (H1 & H2 & H3). repeat split; auto. lia.
Qed.

(** X22. The copy made by duplicate.  It is stored inactive under a key
    no assessment had, so start answers AssessmentNotFound for it until it
    is activated.  Its questions carry the text, type, marks, order,
    explanation and image of all the original's questions, and their
    options the text, correctness and order of the original options; but
    every copied question is active: questions that were deactivated in
    the original are presented again by the copy.  No submission and no
    answer is copied or changed. *)
Theorem duplicate_reactivates_questions shuffle now id db copy rows db' :
  (forall q, In q (questions db) ->
     exists a, In a (assessments db) /\ aId a = qAssessmentId q) ->
  duplicate id db = (Ok (copy, rows), db') ->
  (aIsActive copy = false /\
   (forall a, In a (assessments db) -> aId a <> aId copy) /\
   forall userId,
     startAttempt shuffle now (aId copy) userId db' = (Err AssessmentNotFound, db')) /\
  (filter (fun q => qAssessmentId q =? aId copy) (questions db') = map fst rows /\
   map (fun q => (qText q, qType q, qMarks q, qOrder q, qExplanation q, qImageUrl q))
       (map fst rows)
   = map (fun q => (qText q, qType q, qMarks q, qOrder q, qExplanation q, qImageUrl q))
       (filter (fun q => qAssessmentId q =? id) (questions db)) /\
   map (fun opts => map (fun o => (oText o, oIsCorrect o, oOrder o)) opts) (map snd rows)
   = map (fun q => map (fun o => (oText o, oIsCorrect o, oOrder o)) (optionsOf db q))
       (filter (fun q => qAssessmentId q =? id) (questions db))) /\
  ((forall q, In q (map fst rows) -> qIsActive q = true) /\
   Z.of_nat (List.length (activeQuestions db' copy)) = questionCount db id) /\
  (submissions db' = submissions db /\ answers db' = answers db).
Proof.
  intros Hfk. unfold duplicate.
  destruct (findAssessment db id) as [original|] eqn:Hfind; [|discriminate].
  pose proof (find_some _ _ Hfind) as [_ Hid]. cbn beta in Hid. apply Z.eqb_eq in Hid.
  cbn [aId]. rewrite Hid.
  set (fresh := nextId (map aId (assessments db))).
  intros H. inversion H; subst copy rows db'. clear H.
  cbn [aIsActive aId assessments questions submissions answers].
  destruct (copyQuestions_rows db fresh
              (filter (fun q => qAssessmentId q =? id) (questions db))
              (nextId (map qId (questions db))) (nextId (map oId (options db))))
    as (Hq & Ho & Hall).
  cbv zeta in Hq, Ho, Hall.
  set (rows := copyQuestions db fresh _ _ _) in *.
  assert (Hfresh : forall a, In a (assessments db) -> aId a <> fresh).
  { intros a Ha. apply nextId_fresh. now apply in_map. }
  assert (Hnone : forall (p : Question -> bool),
            filter (fun q => (qAssessmentId q =? fresh) && p q) (questions db) = []).
  { intros p. apply filter_none. intros q Hq'. destruct (Hfk q Hq') as (a & Ha & Heq).
    apply andb_false_iff. left. apply Z.eqb_neq. rewrite <- Heq. now apply Hfresh. }
  split; [|split; [|split]].
  - split; [reflexivity|]. split; [exact Hfresh|].
    intros userId. unfold startAttempt. cbn [assessments].
    rewrite find_all_false; [reflexivity|].
    intros x Hx. apply in_app_or in Hx as [Hx|[<-|[]]].
    + apply andb_false_iff. left. apply Z.eqb_neq. now apply Hfresh.
    + cbn. apply andb_false_r.
  - split; [|split; [exact Hq|exact Ho]].
    rewrite filter_app.
    rewrite (filter_ext _ (fun q => (qAssessmentId q =? fresh) && true))
      by (intros q; now rewrite andb_true_r).
    rewrite Hnone. cbn [app]. apply filter_all.
    intros q Hq'. destruct (Hall q Hq') as (_ & -> & _). now rewrite Z.eqb_refl.
  - split; [intros q Hq'; now apply Hall|].
    unfold activeQuestions. cbn [aId questions].
    rewrite (Permutation_length (sortBy_perm qOrder _)).
    rewrite filter_app, Hnone. cbn [app].
    rewrite filter_all.
    + unfold questionCount.
      rewrite <- (length_map (fun q => (qText q, qType q, qMarks q, qOrder q,
                                        qExplanation q, qImageUrl q)) (map fst rows)).
      now rewrite Hq, length_map.
    + intros q Hq'. destruct (Hall q Hq') as (-> & -> & _). now rewrite Z.eqb_refl.
  - split; reflexivity.
Qed.

(** Question 12 is deactivated, then assessment 1 is duplicated: the
    original presents one question, the copy both. *)
Lemma duplicate_reactivates_questions_witness :
  let db0 := snd (updateQuestion 12
                    (mkQuestionBody Absent Absent Absent Absent Absent (Val false) [])
                    quizDb) in
  exists copy rows db',
    duplicate 1 db0 = (Ok (copy, rows), db') /\
    option_map (fun a => List.length (activeQuestions db0 a)) (findAssessment db0 1)
      = Some 1%nat /\
    Z.of_nat (List.length (activeQuestions db' copy)) = 2.
Proof.
  intros db0.
  edestruct (duplicate_reactivates_questions reversed 1000 1 db0) as (_ & _ & Hact & _).
  - intros q Hq. vm_compute in Hq. destruct Hq as [<-|[<-|[<-|[]]]].
    + eexists. split; [left; reflexivity|reflexivity].
    + eexists. split; [left; reflexivity|reflexivity].
    + eexists. split; [right; left; reflexivity|reflexivity].
  - reflexivity.
  - eexists _, _, _. split; [reflexivity|]. split; [reflexivity|].
    exact (proj2 Hact).
Defined.

(** ** Calls that fail, and the one that fails midway *)



